(** * ArviZ: trace normalisation ([arviz/utils/xarray_utils.py]) and the
    posterior plot artist ([arviz/plots/posteriorplot.py]).

    A shallow embedding of the two Python modules, and the properties of
    their dispatch, shape inference, labelling and drawing decisions.

    Python values are modelled as follows.
    - [str] is [string]; a character is a code point below 256.
    - A [dict] that is only read by key is a [gmap]; a [dict] that is
      iterated is an association list in insertion order.
    - An exception is a value of [exn]; a call that can raise returns in
      [Eff], which also records the observable effects (warnings, file
      reads, drawing calls) in the order they happen.
    - numpy, xarray, pymc3, pystan and matplotlib are not part of the two
      modules: their objects are modelled by what the modules read from them
      and call on them. *)

From Stdlib Require Import ZArith String Ascii List Bool Lia.
From stdpp Require Import base option list strings pretty gmap fin_maps.

Local Open Scope string_scope.
Local Open Scope list_scope.

(** ** Python runtime: exceptions and effects *)

Module Py.

Inductive exn : Type :=
| ValueError (msg : string)
| TypeError (msg : string)
| KeyError (key : string)
| AttributeError (msg : string)
| IndexError (msg : string)
| UnboundLocalError (name : string)
| OSError (msg : string).

Inductive result (A : Type) : Type :=
| Ok (a : A)
| Raise (e : exn).
Arguments Ok {A} a.
Arguments Raise {A} e.

(** A computation: the effects performed so far, and how it ended. *)
Record Eff (E A : Type) : Type := MkEff { trace : list E; outcome : result A }.
Arguments MkEff {E A} trace outcome.
Arguments trace {E A} e.
Arguments outcome {E A} e.

Definition pure {E A} (a : A) : Eff E A := MkEff [] (Ok a).
Definition raise {E A} (e : exn) : Eff E A := MkEff [] (Raise e).
Definition emit {E} (ev : E) : Eff E unit := MkEff [ev] (Ok tt).
Definition lift {E A} (r : result A) : Eff E A := MkEff [] r.

Definition bind {E A B} (m : Eff E A) (k : A -> Eff E B) : Eff E B :=
  match outcome m with
  | Ok a => MkEff (trace m ++ trace (k a)) (outcome (k a))
  | Raise e => MkEff (trace m) (Raise e)
  end.

Definition returns {E A} (m : Eff E A) (a : A) : Prop := outcome m = Ok a.
Definition raises {E A} (m : Eff E A) (e : exn) : Prop := outcome m = Raise e.

(** What the trace-normalisation calls do besides returning:
    [warnings.warn], and reading a netcdf file from disk. *)
Inductive effect : Type :=
| Warn (category msg : string)
| NetcdfRead (path : string).

(** A [dict] that is iterated: its items in insertion order. *)
Definition dict (A : Type) : Type := list (string * A).

(** [d.get(key)] *)
Fixpoint dict_get {A} (key : string) (d : dict A) : option A :=
  match d with
  | [] => None
  | (k, v) :: d' => if bool_decide (k = key) then Some v else dict_get key d'
  end.

(** [d[key] = v]: a key that is there keeps its place, a new one goes last. *)
Fixpoint dict_set {A} (key : string) (v : A) (d : dict A) : dict A :=
  match d with
  | [] => [(key, v)]
  | (k, w) :: d' =>
      if bool_decide (k = key) then (k, v) :: d' else (k, w) :: dict_set key v d'
  end.

(** [str.format] of a non-negative integer. *)
Definition format_nat (n : nat) : string := pretty n.

End Py.

Export Py.

#[global] Instance eff_ret {E} : MRet (Eff E) := fun A a => Py.pure a.
#[global] Instance eff_bind {E} : MBind (Eff E) := fun A B k m => Py.bind m k.

(** ** Python strings: the [str] methods the modules call *)

Module Str.

(** [Py_UNICODE_ISSPACE] on code points below 256 *)
Definition isspace (c : ascii) : bool :=
  let n := nat_of_ascii c in
  (Nat.leb 9 n && Nat.leb n 13) || (Nat.leb 28 n && Nat.leb n 32)
  || Nat.eqb n 133 || Nat.eqb n 160.

(** The line boundaries of [str.splitlines], one character long. *)
Definition is_linebreak (c : ascii) : bool :=
  let n := nat_of_ascii c in
  (Nat.leb 10 n && Nat.leb n 13) || (Nat.leb 28 n && Nat.leb n 30) || Nat.eqb n 133.

Definition LF : ascii := "010"%char.
Definition CR : ascii := "013"%char.

(** [s.startswith(p)] *)
Fixpoint startswith (p s : string) : bool :=
  match p, s with
  | EmptyString, _ => true
  | String a p', String b s' => Ascii.eqb a b && startswith p' s'
  | String _ _, EmptyString => false
  end.

(** [s[:n]] *)
Fixpoint str_take (n : nat) (s : string) : string :=
  match n, s with
  | S n', String c s' => String c (str_take n' s')
  | _, _ => EmptyString
  end.

(** [str.splitlines]: the lines without their line breaks; a line feed right
    after a carriage return belongs to the same break ([after_cr]); a break
    at the very end does not open a last, empty line. *)
Fixpoint splitlines_from (after_cr : bool) (cur : string) (s : string) : list string :=
  match s with
  | EmptyString => if bool_decide (cur = EmptyString) then [] else [cur]
  | String c s' =>
      if after_cr && bool_decide (c = LF) then splitlines_from false cur s'
      else if is_linebreak c then
        cur :: splitlines_from (bool_decide (c = CR)) EmptyString s'
      else splitlines_from false (cur +:+ String c EmptyString) s'
  end.

Definition splitlines (s : string) : list string := splitlines_from false EmptyString s.

(** [sep.join(parts)] *)
Fixpoint join (sep : string) (parts : list string) : string :=
  match parts with
  | [] => EmptyString
  | [p] => p
  | p :: rest => p +:+ sep +:+ join sep rest
  end.

(** [line[:line.find(c)]] for a line that holds [c]: the text before its
    first [c]. *)
Fixpoint before (c : ascii) (s : string) : string :=
  match s with
  | EmptyString => EmptyString
  | String a s' => if bool_decide (a = c) then EmptyString else String a (before c s')
  end.

(** [c in line] *)
Fixpoint contains (c : ascii) (s : string) : bool :=
  match s with
  | EmptyString => false
  | String a s' => bool_decide (a = c) || contains c s'
  end.

(** [s.split(sep)] for a non-empty [sep]: the scan goes left to right;
    [skip] counts the characters of a found separator still to pass over.
    The result is the piece under construction and the pieces after it. *)
Fixpoint split_from (sep : string) (skip : nat) (s : string) : string * list string :=
  match s with
  | EmptyString => (EmptyString, [])
  | String c s' =>
      match skip with
      | S k => split_from sep k s'
      | 0 =>
          if startswith sep s then
            let '(p, ps) := split_from sep (String.length sep - 1) s' in
            (EmptyString, p :: ps)
          else
            let '(p, ps) := split_from sep 0 s' in (String c p, ps)
      end
  end.

Definition split (sep s : string) : list string :=
  let '(p, ps) := split_from sep 0 s in p :: ps.


(** [parts[-1]] of a list that [split] returned *)
Definition last_piece (parts : list string) : string := List.last parts EmptyString.

Fixpoint lstrip (s : string) : string :=
  match s with
  | String c s' => if isspace c then lstrip s' else s
  | EmptyString => EmptyString
  end.

Fixpoint rstrip (s : string) : string :=
  match s with
  | EmptyString => EmptyString
  | String c s' =>
      match rstrip s' with
      | EmptyString => if isspace c then EmptyString else String c EmptyString
      | t => String c t
      end
  end.

(** [s.strip()] *)
Definition strip (s : string) : string := rstrip (lstrip s).

End Str.

(** ** Python [re]: patterns as syntax trees, and a backtracking matcher *)

Module Re.

Inductive regex : Type :=
| Eps
| Chr (p : ascii -> bool)
| Seq (r1 r2 : regex)
| Alt (r1 r2 : regex)
| Star (greedy : bool) (r : regex)
| Eol (multiline : bool)
| Group (r : regex).

Definition Plus (r : regex) : regex := Seq r (Star true r).

Definition lit1 (c : ascii) : regex := Chr (fun a => bool_decide (a = c)).
Definition any : regex := Chr (fun _ => true).
Definition none_of (cs : list ascii) : regex := Chr (fun a => negb (bool_decide (a ∈ cs))).

Fixpoint lit (s : string) : regex :=
  match s with
  | EmptyString => Eps
  | String c EmptyString => lit1 c
  | String c s' => Seq (lit1 c) (lit s')
  end.

(** An ASCII letter under [re.IGNORECASE]. *)
Definition lower (c : ascii) : ascii :=
  let n := nat_of_ascii c in
  if Nat.leb 65 n && Nat.leb n 90 then ascii_of_nat (n + 32) else c.

Fixpoint ilit (s : string) : regex :=
  match s with
  | EmptyString => Eps
  | String c EmptyString => Chr (fun a => bool_decide (lower a = lower c))
  | String c s' => Seq (Chr (fun a => bool_decide (lower a = lower c))) (ilit s')
  end.

(** A match: the text left after it, and what group 1 captured. *)
Definition found : Type := string * option string.

Definition at_eol (multiline : bool) (s : string) : bool :=
  match s with
  | EmptyString => true
  | String c s' =>
      bool_decide (c = Str.LF) && (multiline || bool_decide (s' = EmptyString))
  end.

(** The backtracking matcher: [run r s cap k] matches [r] at the front of
    [s] and hands what is left to [k]; alternatives are tried in order, a
    greedy star tries one more round before it tries to stop, a lazy one the
    other way round. A round of a star that consumes nothing ends the star. *)
Fixpoint run (r : regex) (s : string) (cap : option string)
    (k : string -> option string -> option found) {struct r} : option found :=
  match r with
  | Eps => k s cap
  | Chr p =>
      match s with
      | String c s' => if p c then k s' cap else None
      | EmptyString => None
      end
  | Seq r1 r2 => run r1 s cap (fun s' cap' => run r2 s' cap' k)
  | Alt r1 r2 =>
      match run r1 s cap k with
      | Some f => Some f
      | None => run r2 s cap k
      end
  | Star greedy r' =>
      (fix rounds (fuel : nat) (s : string) (cap : option string) {struct fuel}
         : option found :=
         let again :=
           match fuel with
           | 0 => None
           | S fuel' =>
               run r' s cap (fun s' cap' =>
                 if Nat.ltb (String.length s') (String.length s)
                 then rounds fuel' s' cap' else None)
           end in
         if greedy then
           match again with Some f => Some f | None => k s cap end
         else
           match k s cap with Some f => Some f | None => again end)
        (String.length s) s cap
  | Eol multiline => if at_eol multiline s then k s cap else None
  | Group r' =>
      run r' s cap (fun s' _ =>
        k s' (Some (Str.str_take (String.length s - String.length s') s)))
  end.

(** [pattern.match] at the front of [s] *)
Definition match_at (r : regex) (s : string) : option found :=
  run r s None (fun s' cap => Some (s', cap)).

(** [re.sub(pattern, repl, s)]: the matches are found left to right and do
    not overlap. *)
Fixpoint sub_from (fuel : nat) (r : regex) (repl s : string) : string :=
  match fuel with
  | 0 => s
  | S fuel' =>
      match match_at r s with
      | Some (s', _) =>
          if Nat.ltb (String.length s') (String.length s)
          then repl +:+ sub_from fuel' r repl s'
          else match s with
               | EmptyString => repl
               | String c t => repl +:+ String c (sub_from fuel' r repl t)
               end
      | None =>
          match s with
          | EmptyString => EmptyString
          | String c t => String c (sub_from fuel' r repl t)
          end
      end
  end.

Definition sub (r : regex) (repl s : string) : string :=
  sub_from (S (String.length s)) r repl s.

(** [re.findall(pattern, s)] for a pattern with one group: what the group
    captured in each match. *)
Fixpoint findall_from (fuel : nat) (r : regex) (s : string) : list string :=
  match fuel with
  | 0 => []
  | S fuel' =>
      match match_at r s with
      | Some (s', cap) =>
          default EmptyString cap ::
            (if Nat.ltb (String.length s') (String.length s)
             then findall_from fuel' r s'
             else match s with
                  | EmptyString => []
                  | String _ t => findall_from fuel' r t
                  end)
      | None =>
          match s with
          | EmptyString => []
          | String _ t => findall_from fuel' r t
          end
      end
  end.

Definition findall (r : regex) (s : string) : list string :=
  findall_from (S (String.length s)) r s.

End Re.

(** ** numpy: arrays as far as the modules look at them *)

Module Np.

(** A finite float64 value [m * 2^e]; rounding, NaN and the infinities are
    outside the model. *)
Record dyadic : Type := Dyadic { mantissa : Z; exponent : Z }.

(** The flat (row-major) contents of an array, typed by its dtype; integers
    are 64 bits wide. *)
Inductive buffer : Type :=
| BFloat (l : list dyadic)
| BInt (l : list Z)
| BUInt (l : list N)
| BBool (l : list bool).

Record ndarray : Type := NdArray { shape : list nat; buf : buffer }.

Inductive kind : Type := KBool | KUInt | KInt | KFloat.

Definition kind_of (b : buffer) : kind :=
  match b with
  | BFloat _ => KFloat
  | BInt _ => KInt
  | BUInt _ => KUInt
  | BBool _ => KBool
  end.

(** [ary.dtype.kind] *)
Definition dtype_kind (a : ndarray) : ascii :=
  match kind_of (buf a) with
  | KFloat => "f"
  | KInt => "i"
  | KUInt => "u"
  | KBool => "b"
  end%char.

Definition ndim (a : ndarray) : nat := length (shape a).

(** A view of the same contents under another shape. *)
Definition reshape (sh : list nat) (a : ndarray) : ndarray :=
  {| shape := sh; buf := buf a |}.

(** [np.atleast_3d]: [()] becomes [(1,1,1)], [(N,)] becomes [(1,N,1)],
    [(M,N)] becomes [(M,N,1)], anything else is returned as it is. *)
Definition atleast_3d (a : ndarray) : ndarray :=
  match shape a with
  | [] => reshape [1; 1; 1] a
  | [n] => reshape [1; n; 1] a
  | [m; n] => reshape [m; n; 1] a
  | _ => a
  end.

(** [np.squeeze(ary, axis=-1)] *)
Definition squeeze_last (a : ndarray) : result ndarray :=
  match reverse (shape a) with
  | 1 :: front => Ok (reshape (reverse front) a)
  | _ => Raise (ValueError
           "cannot select an axis to squeeze out which has size not equal to one")
  end.

(** [np.expand_dims(ary, 0)] *)
Definition expand_dims0 (a : ndarray) : ndarray := reshape (1 :: shape a) a.

Definition atleast_2d (a : ndarray) : ndarray :=
  match shape a with
  | [] => reshape [1; 1] a
  | [n] => reshape [1; n] a
  | _ => a
  end.

Definition int64_wrap (z : Z) : Z := ((z + 2 ^ 63) mod 2 ^ 64 - 2 ^ 63)%Z.
Definition uint64_wrap (z : Z) : N := Z.to_N (z mod 2 ^ 64).

(** The integer a float is cut down to (towards zero). *)
Definition trunc (d : dyadic) : Z :=
  if (0 <=? exponent d)%Z then (mantissa d * 2 ^ exponent d)%Z
  else Z.quot (mantissa d) (2 ^ (- exponent d)).

Definition Z_of_bool (b : bool) : Z := if b then 1%Z else 0%Z.

(** A float converted to [np.int64]: the integer it is cut down to where
    that is an int64, and the least int64 where it lies outside. *)
Definition int64_of_float (d : dyadic) : Z :=
  let z := trunc d in
  if (- 2 ^ 63 <=? z)%Z && (z <? 2 ^ 63)%Z then z else (- 2 ^ 63)%Z.

(** The contents converted to another kind of dtype. The converters ask for
    [bool], [np.int64] and float64 only. *)
Definition cast (k : kind) (b : buffer) : buffer :=
  match k, b with
  | KFloat, BFloat l => BFloat l
  | KFloat, BInt l => BFloat (map (fun z => Dyadic z 0) l)
  | KFloat, BUInt l => BFloat (map (fun n => Dyadic (Z.of_N n) 0) l)
  | KFloat, BBool l => BFloat (map (fun x => Dyadic (Z_of_bool x) 0) l)
  | KInt, BFloat l => BInt (map int64_of_float l)
  | KInt, BInt l => BInt l
  | KInt, BUInt l => BInt (map (fun n => int64_wrap (Z.of_N n)) l)
  | KInt, BBool l => BInt (map Z_of_bool l)
  | KUInt, BFloat l => BUInt (map (fun d => uint64_wrap (trunc d)) l)
  | KUInt, BInt l => BUInt (map uint64_wrap l)
  | KUInt, BUInt l => BUInt l
  | KUInt, BBool l => BUInt (map (fun x => Z.to_N (Z_of_bool x)) l)
  | KBool, BFloat l => BBool (map (fun d => negb (Z.eqb (mantissa d) 0)) l)
  | KBool, BInt l => BBool (map (fun z => negb (Z.eqb z 0)) l)
  | KBool, BUInt l => BBool (map (fun n => negb (N.eqb n 0)) l)
  | KBool, BBool l => BBool l
  end.

(** The dtype argument of [astype] as the converter passes it: [bool],
    [np.int64], or [None], which numpy reads as float64. *)
Inductive dtype_arg : Type := DBool | DInt64.

Definition astype (t : option dtype_arg) (a : ndarray) : ndarray :=
  let k := match t with Some DBool => KBool | Some DInt64 => KInt | None => KFloat end in
  {| shape := shape a; buf := cast k (buf a) |}.

(** The kind two 64-bit dtypes are promoted to when their arrays are joined. *)
Definition promote (k1 k2 : kind) : kind :=
  match k1, k2 with
  | KBool, k | k, KBool => k
  | KInt, KInt => KInt
  | KUInt, KUInt => KUInt
  | _, _ => KFloat
  end.

Definition buf_app (b1 b2 : buffer) : buffer :=
  let k := promote (kind_of b1) (kind_of b2) in
  match cast k b1, cast k b2 with
  | BFloat x, BFloat y => BFloat (x ++ y)
  | BInt x, BInt y => BInt (x ++ y)
  | BUInt x, BUInt y => BUInt (x ++ y)
  | BBool x, BBool y => BBool (x ++ y)
  | b, _ => b
  end.

(** [np.vstack(arrays)]: every array at least 2-d, joined along axis 0. *)
Definition vstack (arrays : list ndarray) : result ndarray :=
  match map atleast_2d arrays with
  | [] => Raise (ValueError "need at least one array to concatenate")
  | a :: rest =>
      if forallb (fun b => bool_decide (tail (shape b) = tail (shape a))) rest then
        Ok {| shape := foldr (fun b n => hd 0 (shape b) + n) 0 (a :: rest) :: tail (shape a);
              buf := foldl (fun acc b => buf_app acc (buf b)) (buf a) rest |}
      else Raise (ValueError
             "all the input array dimensions except for the concatenation axis must match exactly")
  end.

(** The contents of an [(a, b, ...)] array with each block [(i, j)] of [r]
    elements moved to [(j, i)]. *)
Definition swap_blocks {A} (a b r : nat) (l : list A) : list A :=
  flat_map (fun j => flat_map (fun i => take r (drop ((i * b + j) * r) l)) (seq 0 a))
           (seq 0 b).

Definition buf_map (f : forall A, list A -> list A) (b : buffer) : buffer :=
  match b with
  | BFloat l => BFloat (f _ l)
  | BInt l => BInt (f _ l)
  | BUInt l => BUInt (f _ l)
  | BBool l => BBool (f _ l)
  end.

(** [np.swapaxes(ary, 0, 1)] *)
Definition swapaxes01 (ary : ndarray) : result ndarray :=
  match shape ary with
  | a :: b :: rest =>
      Ok {| shape := b :: a :: rest;
            buf := buf_map (fun A => swap_blocks a b (foldr Nat.mul 1 rest)) (buf ary) |}
  | _ => Raise (ValueError "axis2: axis 1 is out of bounds for array")
  end.

(** A coordinate label. *)
Inductive label : Type :=
| LInt (z : Z)
| LFloat (d : dyadic)
| LStr (s : string).

#[global] Instance dyadic_eq_dec : EqDecision dyadic.
Proof. solve_decision. Defined.
#[global] Instance label_eq_dec : EqDecision label.
Proof. solve_decision. Defined.

(** [a == b] on two floats: the same number, however it is written. *)
Definition dyadic_eqb (a b : dyadic) : bool :=
  let e := Z.min (exponent a) (exponent b) in
  Z.eqb (mantissa a * 2 ^ (exponent a - e)) (mantissa b * 2 ^ (exponent b - e)).

(** [a == b] on two labels: Python compares an [int] and a [float] by the
    number they stand for, so [1 == 1.0]; a [str] equals no number. *)
Definition label_eqb (a b : label) : bool :=
  match a, b with
  | LInt x, LInt y => Z.eqb x y
  | LInt x, LFloat d => dyadic_eqb (Dyadic x 0) d
  | LFloat d, LInt y => dyadic_eqb d (Dyadic y 0)
  | LFloat d1, LFloat d2 => dyadic_eqb d1 d2
  | LStr s, LStr t => bool_decide (s = t)
  | _, _ => false
  end.

(** [a == b] on two sequences of labels: of one length and equal item by item. *)
Fixpoint labels_eqb (a b : list label) : bool :=
  match a, b with
  | [], [] => true
  | x :: a', y :: b' => label_eqb x y && labels_eqb a' b'
  | _, _ => false
  end.

(** [a + b] on int64 scalars *)
Definition int64_add (a b : Z) : Z := int64_wrap (a + b).

(** The contents of an array of signed integers. *)
Definition ints (a : ndarray) : list Z :=
  match buf a with
  | BInt l => l
  | _ => []
  end.

(** [ary.flatten()] *)
Definition flatten (a : ndarray) : ndarray := reshape [foldr Nat.mul 1 (shape a)] a.

(** [ary.min()] and [ary.max()] of an array of integers *)
Definition int_min (l : list Z) : result Z :=
  match l with
  | [] => Raise (ValueError
            "zero-size array to reduction operation minimum which has no identity")
  | z :: l' => Ok (foldl Z.min z l')
  end.

Definition int_max (l : list Z) : result Z :=
  match l with
  | [] => Raise (ValueError
            "zero-size array to reduction operation maximum which has no identity")
  | z :: l' => Ok (foldl Z.max z l')
  end.

(** [np.arange(n)] as a sequence of labels *)
Definition arange (n : nat) : list label := map (fun i => LInt (Z.of_nat i)) (seq 0 n).

End Np.

(** ** xarray: labelled arrays and datasets *)

Module Xr.
Import Np.

Record DataArray : Type :=
  MkDataArray { values : ndarray; dims : list string; coords : gmap string (list label) }.

(** The check of one dimension against its index: an index, where there is
    one, has as many labels as the axis is long. *)
Definition size_agrees (coords : gmap string (list label)) (d : string * nat) : bool :=
  match coords !! d.1 with
  | Some labels => Nat.eqb (length labels) d.2
  | None => true
  end.

(** The message about the first dimension whose index has another length
    than its axis; [%r] writes a name between single quotes. *)
Definition conflicting_sizes (coords : gmap string (list label)) (axes : list (string * nat))
    : string :=
  match List.find (fun d => negb (size_agrees coords d)) axes with
  | Some (d, n) =>
      "conflicting sizes for dimension '" +:+ d +:+ "': length " +:+ format_nat n
        +:+ " on the data but length " +:+ format_nat (length (default [] (coords !! d)))
        +:+ " on coordinate '" +:+ d +:+ "'"
  | None => EmptyString
  end.

(** [xr.DataArray(ary, coords=coords, dims=dims)], with the two checks the
    constructor makes on its arguments: one name per axis, and no index of
    another length than its axis. *)
Definition DataArray_new (ary : ndarray) (coords : gmap string (list label))
    (dims : list string) : result DataArray :=
  if negb (Nat.eqb (length dims) (ndim ary)) then
    Raise (ValueError ("different number of dimensions on data and dims: "
                         +:+ format_nat (ndim ary) +:+ " vs " +:+ format_nat (length dims)))
  else if forallb (size_agrees coords) (zip dims (shape ary)) then
    Ok (MkDataArray ary dims coords)
  else Raise (ValueError (conflicting_sizes coords (zip dims (shape ary)))).

(** [xr.Dataset(data_vars=data_vars)], kept as the call that makes it:
    [data_vars] is the dictionary the constructor is given, every array in
    it as [numpy_to_data_array] labelled it. The constructor then merges the
    arrays: it brings them to common indexes by an outer join, filling what
    an array lacks with NaN, and it takes an array that has the name of a
    dimension for a coordinate, not for a data variable. That merge is
    xarray's own; [merged] gives its result where it changes nothing. *)
Record Dataset : Type := MkDataset { data_vars : gmap string DataArray }.

(** Two arrays have the same index along every dimension they share. *)
Definition same_indexes (a b : DataArray) : bool :=
  forallb (fun d => negb (bool_decide (d ∈ dims b))
                    || bool_decide (coords a !! d = coords b !! d)) (dims a).

(** The merge has nothing to do: the dimensions of every array are distinct,
    none of them is the name of an array, and any two arrays have the same
    indexes along the dimensions they share. *)
Definition merge_free (vars : gmap string DataArray) : bool :=
  let arrays := (map_to_list vars).*2 in
  forallb (fun a =>
    bool_decide (NoDup (dims a))
    && forallb (fun d => negb (bool_decide (is_Some (vars !! d)))) (dims a)
    && forallb (same_indexes a) arrays) arrays.

(** [ds.data_vars], the data variables one reads back from the dataset:
    the arrays it was given, where the merge has nothing to do. What the
    merge makes of other arrays is not represented. *)
Definition merged (ds : Dataset) : option (gmap string DataArray) :=
  if merge_free (data_vars ds) then Some (data_vars ds) else None.

End Xr.

(** ** [arviz.InferenceData] and the libraries behind the converters *)

Module Arviz.
Import Xr.

(** Modelled from the spec: the class [InferenceData] is imported from the
    package and is not part of these two modules. The spec calls it "a
    named-group container (posterior, prior, posterior-predictive,
    sample-statistics) holding such arrays": the keyword arguments of the
    constructor, by name, each a dataset or [None]. *)
Record InferenceData : Type := MkInferenceData { groups : gmap string (option Dataset) }.

(** [getattr(inference_data, group, None)]: a group that was passed as a
    dataset is an attribute of that name. *)
Definition getattr_group (idata : InferenceData) (group : string) : option Dataset :=
  match groups idata !! group with
  | Some (Some ds) => Some ds
  | _ => None
  end.

(** What lies outside the process: the netcdf files on disk, as what loading
    a path yields or raises, and pymc3's
    [pm.utils.get_default_varnames(names, include_transformed=False)]. *)
Record Env : Type := MkEnv {
  disk : string -> result InferenceData;
  get_default_varnames : list string -> list string
}.

(** Modelled from the spec: [InferenceData.from_netcdf(filename)] is a method
    of that class. The spec leaves "network/file I/O for trace persistence"
    to it, and the docstring of [convert_to_inference_data] says of a string
    that it "Attempts to load the netcdf dataset from disk": the call reads
    the file of that name, and returns or raises what the disk gives. *)
Definition from_netcdf (env : Env) (filename : string) : Eff effect InferenceData :=
  emit (NetcdfRead filename);; lift (disk env filename).

(** A pymc3 [MultiTrace], by the calls the converter makes on it:
    [values_of var] is [np.array(trace.get_values(var, combine=False))] and
    [sampler_stats_of stat] is
    [np.array(trace.get_sampler_stats(stat, combine=False))]. *)
Record MultiTrace : Type := MkMultiTrace {
  varnames : list string;
  values_of : string -> Np.ndarray;
  stat_names : list string;
  sampler_stats_of : string -> Np.ndarray
}.

(** A pystan [StanFit4Model], by the calls the converter makes on it:
    [extract pars dtypes] is the items of
    [fit.extract(pars, dtypes=dtypes, permuted=False)], and
    [get_sampler_params] is [fit.get_sampler_params(inc_warmup=False)], one
    dict per chain. *)
Record StanFit4Model : Type := MkStanFit {
  model_pars : list string;
  get_stancode : string;
  extract : list string -> gmap string string -> dict Np.ndarray;
  get_sampler_params : list (dict Np.ndarray)
}.

End Arviz.

(** ** [arviz/utils/xarray_utils.py] *)

Module XarrayUtils.
Import Str Np Xr Arviz.

Abbreviation Run := (Eff effect).

Definition default_dims : list string := ["chain"; "draw"].

(** [n_chains, n_samples, *shape = ary.shape] *)
Definition unpack_shape (sh : list nat) : result (nat * nat * list nat) :=
  match sh with
  | n_chains :: n_samples :: shape => Ok (n_chains, n_samples, shape)
  | _ => Raise (ValueError ("not enough values to unpack (expected at least 2, got "
                            +:+ format_nat (length sh) +:+ ")"))
  end.

Definition more_chains_than_draws (n_chains n_samples : nat) : effect :=
  Warn "SyntaxWarning"
    ("More chains (" +:+ format_nat n_chains +:+ ") than draws ("
     +:+ format_nat n_samples +:+ "). "
     +:+ "Passed array should have shape (chains, draws, *shape)").

(** ['{var_name}_dim_{idx}'.format(var_name=var_name, idx=idx)] *)
Definition dim_name (var_name : string) (idx : nat) : string :=
  var_name +:+ "_dim_" +:+ format_nat idx.

(** The loop [for idx, dim_len in enumerate(shape)], started at [idx]:
    every trailing axis appends its name to [dims] and stores its index
    under that name. *)
Fixpoint name_trailing (var_name : string) (idx : nat) (shape : list nat)
    (dims : list string) (coords : gmap string (list label))
    : list string * gmap string (list label) :=
  match shape with
  | [] => (dims, coords)
  | dim_len :: shape' =>
      let dims := dims ++ [dim_name var_name idx] in
      name_trailing var_name (S idx) shape' dims
        (<[dim_name var_name idx := arange dim_len]> coords)
  end.

(** [dict(coords)] *)
Definition dict_of (coords : option (gmap string (list label)))
    : result (gmap string (list label)) :=
  match coords with
  | Some c => Ok c
  | None => Raise (TypeError "'NoneType' object is not iterable")
  end.

(** [{key: xr.IndexVariable((key,), data=coords[key]) for key in dims}] *)
Fixpoint index_variables (coords : gmap string (list label)) (dims : list string)
    : result (gmap string (list label)) :=
  match dims with
  | [] => Ok ∅
  | key :: dims' =>
      match coords !! key with
      | None => Raise (KeyError key)
      | Some labels =>
          match index_variables coords dims' with
          | Ok rest => Ok (<[key := labels]> rest)
          | Raise e => Raise e
          end
      end
  end.

Definition setdefault_arange (key : string) (n : nat) (coords : gmap string (list label))
    : gmap string (list label) :=
  match coords !! key with
  | Some _ => coords
  | None => <[key := arange n]> coords
  end.

Abbreviation coords_t := (gmap string (list label)).
Abbreviation dims_t := (gmap string (list string)).

(** The branch [if dims is None] of [numpy_to_data_array]: the array brought
    to shape, the indexes of its trailing axes, and the names of its axes. *)
Definition infer_dims (ary : ndarray) (var_name : string)
    : Run (ndarray * coords_t * list string) :=
  let '(ary, can_squeeze) :=
    if Nat.ltb (length (shape ary)) 3 then (atleast_3d ary, true) else (ary, false) in
  '(n_chains, n_samples, shape) ← lift (unpack_shape (shape ary));
  (if Nat.ltb n_samples n_chains
   then emit (more_chains_than_draws n_chains n_samples) else mret tt);;
  let coords : coords_t := ∅ in
  let dims := default_dims in
  if can_squeeze && bool_decide (shape = [1]) then
    ary ← lift (squeeze_last ary);
    mret (ary, coords, dims)
  else
    let '(dims, coords) := name_trailing var_name 0 shape dims coords in
    mret (ary, coords, dims).

(** The branch [else]: the caller's names and indexes. *)
Definition given_dims (ary : ndarray) (coords : option coords_t) (dims : list string)
    : Run (ndarray * coords_t * list string) :=
  coords ← lift (dict_of coords);
  let dims := if bool_decide (take 2 dims = default_dims) then dims
              else default_dims ++ dims in
  mret (ary, coords, dims).

(** The statements after the [if]: the indexes of ['chain'] and ['draw'],
    the index variables, and the labelled array. *)
Definition label_axes (ary : ndarray) (coords : coords_t) (dims : list string)
    : Run DataArray :=
  '(n_chains, n_samples, _) ← lift (unpack_shape (shape ary));
  let coords := setdefault_arange "chain" n_chains coords in
  let coords := setdefault_arange "draw" n_samples coords in
  coords ← lift (index_variables coords dims);
  lift (DataArray_new ary coords dims).

Definition numpy_to_data_array (ary : ndarray) (var_name : string)
    (coords : option coords_t) (dims : option (list string)) : Run DataArray :=
  '(ary, coords, dims) ←
    match dims with
    | None => infer_dims ary var_name
    | Some dims => given_dims ary coords dims
    end;
  label_axes ary coords dims.

(** The loop of [dict_to_dataset] over [data.items()]. *)
Fixpoint data_vars_of (coords : option coords_t) (dims : dims_t) (data : dict ndarray)
    (data_vars : gmap string DataArray) : Run (gmap string DataArray) :=
  match data with
  | [] => mret data_vars
  | (key, values) :: data' =>
      da ← numpy_to_data_array values key coords (dims !! key);
      data_vars_of coords dims data' (<[key := da]> data_vars)
  end.

(** The dataset is returned as the call [xr.Dataset(data_vars=data_vars)]
    on the dictionary the loop has filled; what the constructor makes of the
    arrays is told at [Xr.Dataset]. *)
Definition dict_to_dataset (data : dict ndarray) (coords : option coords_t)
    (dims : option dims_t) : Run Dataset :=
  let dims := match dims with None => ∅ | Some dims => dims end in
  data_vars ← data_vars_of coords dims data ∅;
  mret (MkDataset data_vars).

(** The decorator [requires(prop)], applied to a method of one required
    attribute: [None] when the attribute is [None]. *)
Definition requires {A B} (prop : option A) (func : A -> Run B) : Run (option B) :=
  match prop with
  | None => mret None
  | Some a => b ← func a; mret (Some b)
  end.

(** *** [class PyMC3Converter] *)

Module PyMC3Converter.

Record t : Type := Make {
  trace : option MultiTrace;
  prior : option (dict ndarray);
  posterior_predictive : option (dict ndarray);
  coords : option coords_t;
  dims : option dims_t
}.

Definition posterior_to_xarray (env : Env) (self : t) : Run (option Dataset) :=
  requires (trace self) (fun trace =>
    let var_names := get_default_varnames env (varnames trace) in
    let data := foldl (fun data var_name => dict_set var_name (values_of trace var_name) data)
                      [] var_names in
    dict_to_dataset data (coords self) (dims self)).

Definition sample_stats_to_xarray (self : t) : Run (option Dataset) :=
  requires (trace self) (fun trace =>
    let data := foldl (fun data stat => dict_set stat (sampler_stats_of trace stat) data)
                      [] (stat_names trace) in
    dict_to_dataset data None None).

Definition posterior_predictive_to_xarray (self : t) : Run (option Dataset) :=
  requires (posterior_predictive self) (fun posterior_predictive =>
    let data := map (fun '(k, v) => (k, expand_dims0 v)) posterior_predictive in
    dict_to_dataset data (coords self) (dims self)).

Definition prior_to_xarray (self : t) : Run (option Dataset) :=
  requires (prior self) (fun prior =>
    dict_to_dataset (map (fun '(k, v) => (k, expand_dims0 v)) prior)
                    (coords self) (dims self)).

(** The four keyword arguments are computed in the order they are written. *)
Definition to_inference_data (env : Env) (self : t) : Run InferenceData :=
  posterior ← posterior_to_xarray env self;
  sample_stats ← sample_stats_to_xarray self;
  posterior_predictive ← posterior_predictive_to_xarray self;
  prior ← prior_to_xarray self;
  mret (MkInferenceData
          (<["prior" := prior]>
             (<["posterior_predictive" := posterior_predictive]>
                (<["sample_stats" := sample_stats]>
                   (<["posterior" := posterior]> ∅))))).

End PyMC3Converter.

(** *** [class PyStanConverter] *)

Module PyStanConverter.

Record t : Type := Make {
  fit : option StanFit4Model;
  coords : option coords_t;
  dims : option dims_t;
  _var_names : list string
}.

(** [fit.model_pars] is read when the converter is made. *)
Definition __init__ (fit : option StanFit4Model) (coords : option coords_t)
    (dims : option dims_t) : result t :=
  match fit with
  | Some f => Ok (Make fit coords dims (model_pars f))
  | None => Raise (AttributeError "'NoneType' object has no attribute 'model_pars'")
  end.

Definition DQ : ascii := "034"%char.
Definition SQ : ascii := "039"%char.
Definition BS : ascii := "092"%char.

(** [//.*?$]: a comment to the end of its line *)
Definition line_comment : Re.regex :=
  Re.Seq (Re.lit "//") (Re.Seq (Re.Star false Re.any) (Re.Eol true)).

(** [/\*.*?\*/]: a comment between its two marks *)
Definition block_comment : Re.regex :=
  Re.Seq (Re.lit "/*") (Re.Seq (Re.Star false Re.any) (Re.lit "*/")).

(** [q(?:\\.|[^\\q])*q]: a string literal between two quotes [q] *)
Definition quoted_by (q : ascii) : Re.regex :=
  Re.Seq (Re.lit1 q)
    (Re.Seq (Re.Star true (Re.Alt (Re.Seq (Re.lit1 BS) Re.any) (Re.none_of [BS; q])))
            (Re.lit1 q)).

(** [//.*?$|/\*.*?\*/|'(?:\\.|[^\\'])*'|DQ(?:\\.|[^\\DQ])*DQ], where DQ is
    the double quote, compiled with [re.DOTALL|re.MULTILINE]. *)
Definition pattern_remove_comments : Re.regex :=
  Re.Alt line_comment (Re.Alt block_comment (Re.Alt (quoted_by SQ) (quoted_by DQ))).

(** [int], under [re.IGNORECASE] *)
Definition stan_integer : Re.regex := Re.ilit "int".
(** [(?:\<[^\>]+\>)*]: ignore group, 0 or more <....> *)
Definition stan_limits : Re.regex :=
  Re.Star true (Re.Seq (Re.lit1 "<") (Re.Seq (Re.Plus (Re.none_of [">"%char])) (Re.lit1 ">"))).
(** [([^;=\s\[]+)]: capture group, ends at ";", "=", "[" or whitespace *)
Definition stan_param : Re.regex :=
  Re.Group (Re.Plus (Re.Chr (fun a =>
    negb (bool_decide (a ∈ [";"; "="; "["]%char) || isspace a)))).
(** [\s*]: 0 or more whitespace *)
Definition stan_ws : Re.regex := Re.Star true (Re.Chr isspace).

Definition pattern_int : Re.regex :=
  Re.Seq stan_integer (Re.Seq stan_ws (Re.Seq stan_limits (Re.Seq stan_ws stan_param))).

(** The lines of the program without their [#] comments, joined again. *)
Definition remove_deprecated_comments (stan_code : string) : string :=
  join (String LF EmptyString)
    (map (fun line => if contains "#" line then before "#" line else line)
         (splitlines stan_code)).

(** [re.sub(pattern_remove_comments, '', stan_code)] *)
Definition remove_comments (stan_code : string) : string :=
  Re.sub pattern_remove_comments EmptyString stan_code.

(** The program text in which [infer_dtypes] looks for declarations, before
    it is cut at ["generated quantities"]. *)
Definition stripped_code (stan_code : string) : string :=
  remove_comments (remove_deprecated_comments stan_code).

(** [{item.strip(): 'int' for item in dtypes if item.strip() in var_names}] *)
Definition int_dtypes (var_names : list string) (dtypes : list string) : gmap string string :=
  foldl (fun d item =>
           if bool_decide (strip item ∈ var_names) then <[strip item := "int"]> d else d)
        ∅ dtypes.

(** [infer_dtypes], called where [self.fit] is the fit [fit]. *)
Definition infer_dtypes (self : t) (fit : StanFit4Model) : gmap string string :=
  let stan_code := get_stancode fit in
  let stan_code := stripped_code stan_code in
  let stan_code := last_piece (split "generated quantities" stan_code) in
  let dtypes := Re.findall pattern_int stan_code in
  int_dtypes (_var_names self) dtypes.

Definition posterior_to_xarray (self : t) : Run (option Dataset) :=
  requires (fit self) (fun fit =>
    let dtypes := infer_dtypes self fit in
    let var_dict := extract fit (_var_names self) dtypes in
    data ← foldl (fun acc '(var_name, values) =>
                    data ← acc;
                    swapped ← lift (swapaxes01 values);
                    mret (dict_set var_name swapped data))
                 (mret []) var_dict;
    dict_to_dataset data (coords self) (dims self)).

Definition dtypes : dict dtype_arg :=
  [("divergent__", DBool); ("n_leapfrog__", DInt64); ("treedepth__", DInt64)].

Definition rename_key : dict string :=
  [("accept_stat__", "accept_stat"); ("divergent__", "diverging");
   ("energy__", "energy"); ("lp__", "lp"); ("n_leapfrog__", "n_leapfrog");
   ("stepsize__", "stepsize"); ("treedepth__", "treedepth")].

(** [sampler_params[0]] *)
Definition first_chain (sampler_params : list (dict ndarray)) : result (dict ndarray) :=
  match sampler_params with
  | chain0 :: _ => Ok chain0
  | [] => Raise (IndexError "list index out of range")
  end.

(** [[j[key].astype(dtypes.get(key)) for j in sampler_params]] *)
Fixpoint stat_columns (key : string) (sampler_params : list (dict ndarray))
    : result (list ndarray) :=
  match sampler_params with
  | [] => Ok []
  | j :: rest =>
      match dict_get key j with
      | None => Raise (KeyError key)
      | Some col =>
          match stat_columns key rest with
          | Ok cols => Ok (astype (dict_get key dtypes) col :: cols)
          | Raise e => Raise e
          end
      end
  end.

Definition sample_stats_to_xarray (self : t) : Run (option Dataset) :=
  requires (fit self) (fun fit =>
    let sampler_params := get_sampler_params fit in
    chain0 ← lift (first_chain sampler_params);
    data ← foldl (fun acc '(key, _) =>
                    data ← acc;
                    let name :=
                      default (Re.sub (Re.Seq (Re.lit "__") (Re.Eol false)) EmptyString key)
                              (dict_get key rename_key) in
                    cols ← lift (stat_columns key sampler_params);
                    stacked ← lift (vstack cols);
                    mret (dict_set name stacked data))
                 (mret []) chain0;
    dict_to_dataset data (coords self) (dims self)).

Definition to_inference_data (self : t) : Run InferenceData :=
  posterior ← posterior_to_xarray self;
  sample_stats ← sample_stats_to_xarray self;
  mret (MkInferenceData (<["sample_stats" := sample_stats]> (<["posterior" := posterior]> ∅))).

End PyStanConverter.

Definition pymc3_to_inference_data (env : Env) (trace : option MultiTrace)
    (prior posterior_predictive : option (dict ndarray))
    (coords : option coords_t) (dims : option dims_t) : Run InferenceData :=
  PyMC3Converter.to_inference_data env
    (PyMC3Converter.Make trace prior posterior_predictive coords dims).

Definition pystan_to_inference_data (fit : option StanFit4Model)
    (coords : option coords_t) (dims : option dims_t) : Run InferenceData :=
  self ← lift (PyStanConverter.__init__ fit coords dims);
  PyStanConverter.to_inference_data self.

(** *** The dispatch *)

(** The argument [obj]: an object of one of the classes the function tests
    for, or of any other class, known by its name. *)
Inductive pyobj : Type :=
| PInferenceData (idata : InferenceData)
| PStr (s : string)
| PStanFit (fit : StanFit4Model)
| PMultiTrace (trace : MultiTrace)
| PDataset (ds : Dataset)
| PDict (d : dict ndarray)
| PNdarray (ary : ndarray)
| POther (class_name : string).

(** [obj.__class__.__name__] *)
Definition class_name (obj : pyobj) : string :=
  match obj with
  | PInferenceData _ => "InferenceData"
  | PStr _ => "str"
  | PStanFit _ => "StanFit4Model"
  | PMultiTrace _ => "MultiTrace"
  | PDataset _ => "Dataset"
  | PDict _ => "dict"
  | PNdarray _ => "ndarray"
  | POther name => name
  end.

Definition allowable_types : list string :=
  ["xarray dataset"; "dict"; "netcdf file"; "numpy array"; "pystan fit"; "pymc3 trace"].

Definition cannot_convert (obj : pyobj) : exn :=
  ValueError ("Can only convert " +:+ join ", " allowable_types
              +:+ " to InferenceData, not " +:+ class_name obj).

(** An object that is passed on as a fit because of the name of its class:
    the converter reads [fit.model_pars] from it. *)
Definition as_fit (obj : pyobj) : result StanFit4Model :=
  match obj with
  | PStanFit fit => Ok fit
  | _ => Raise (AttributeError ("'" +:+ class_name obj
                               +:+ "' object has no attribute 'model_pars'"))
  end.

(** An object that is passed on as a trace because of the name of its class:
    the converter reads [trace.varnames] from it. *)
Definition as_trace (obj : pyobj) : result MultiTrace :=
  match obj with
  | PMultiTrace trace => Ok trace
  | _ => Raise (AttributeError ("'" +:+ class_name obj
                               +:+ "' object has no attribute 'varnames'"))
  end.

Definition convert_to_inference_data (env : Env) (obj : pyobj) (group : string)
    (coords : option coords_t) (dims : option dims_t) : Run InferenceData :=
  match obj with
  | PInferenceData idata => mret idata
  | PStr filename => from_netcdf env filename
  | _ =>
      if bool_decide (class_name obj = "StanFit4Model") then
        fit ← lift (as_fit obj);
        pystan_to_inference_data (Some fit) coords dims
      else if bool_decide (class_name obj = "MultiTrace") then
        trace ← lift (as_trace obj);
        pymc3_to_inference_data env (Some trace) None None coords dims
      else
        dataset ←
          match obj with
          | PDataset ds => mret ds
          | PDict d => dict_to_dataset d coords dims
          | PNdarray ary => dict_to_dataset [("x", ary)] coords dims
          | _ => raise (cannot_convert obj)
          end;
        mret (MkInferenceData {[ group := Some dataset ]})
  end.

Definition convert_to_dataset (env : Env) (obj : pyobj) (group : string)
    (coords : option coords_t) (dims : option dims_t) : Run Dataset :=
  inference_data ← convert_to_inference_data env obj group coords dims;
  match getattr_group inference_data group with
  | None => raise (ValueError ("Can not extract " +:+ group
                               +:+ "! See __file__ for other conversion utilities."))
  | Some dataset => mret dataset
  end.

End XarrayUtils.

(** ** [arviz/plots/posteriorplot.py] *)

Module PosteriorPlot.
Import Np.

(** The [bins] argument of [ax.hist]. *)
Inductive bins_t : Type :=
| BinsCount (n : nat)
| BinsEdges (edges : list label)
| BinsName (name : string)
| BinsRange (start stop : Z).

(** Which number a point estimate is, as the artist computes it. *)
Inductive point_value : Type :=
| Mean
| Median
| KdeMode
| RoundedMode.

(** The calls that draw, in the order they are made. Positions, heights and
    formatted numbers are not represented. *)
Inductive draw : Type :=
| KdePlot (values : ndarray) (fill_alpha : string)
| SetXlim (xmin xmax : Z)
| Hist (values : ndarray) (bins : bins_t) (kwargs : dict string)
| FormatAxes
| HpdLine
| HpdText
| PointEstimateText (point_estimate : string) (value : point_value)
| RefLine (val : label)
| RefText (val : label)
| RopeLine (vals : list label)
| RopeText (val : label)
| SetTitle (var_name : string) (selection : dict (list label)).

Abbreviation Plot := (Eff draw).

(** One entry of a [ref_val] or [rope] dictionary: the selection it is for,
    and, under the key of the same name, the value or interval. *)
Definition sel_t : Type := dict (list label).

Inductive ref_val_t : Type :=
| RefDict (d : dict (list sel_t))
| RefScalar (val : label)
| RefOther.

Inductive rope_t : Type :=
| RopeDict (d : dict (list sel_t))
| RopeSeq (vals : list label).

(** The axes the artist draws on, by what [ax.hist] answers to the call it
    gets: it is handed the caller's keywords as they are, and matplotlib
    raises on a keyword it does not know. The other calls are made with
    arguments the artist works out itself. *)
Record Axes : Type := MkAxes { hist : ndarray -> bins_t -> dict string -> result unit }.

Record args : Type := MkArgs {
  values : ndarray;
  var_name : string;
  selection : dict (list label);
  ax : Axes;
  bins : option bins_t;
  kind : string;
  point_estimate : option string;
  ref_val : option ref_val_t;
  rope : option rope_t;
  kwargs : dict string
}.

(** [kwargs.setdefault(key, v)] *)
Definition setdefault (key v : string) (kwargs : dict string) : dict string :=
  match dict_get key kwargs with
  | Some _ => kwargs
  | None => kwargs ++ [(key, v)]
  end.

(** [values.iloc[0]], asked whether it is a [float]: [values] is the
    flattened numpy array, and [numpy.ndarray] has no attribute [iloc]. *)
Definition iloc0_is_float (values : ndarray) : result bool :=
  Raise (AttributeError "'numpy.ndarray' object has no attribute 'iloc'").

(** [k in selection and selection[k] == v] *)
Definition selects (selection : dict (list label)) (k : string) (v : list label) : bool :=
  match dict_get k selection with
  | Some w => labels_eqb w v
  | None => false
  end.

(** [all(k in selection and selection[k] == v for k, v in sel.items() if keep k)] *)
Definition sel_matches (keep : string -> bool) (selection : dict (list label)) (sel : sel_t)
    : bool :=
  forallb (fun '(k, v) => negb (keep k) || selects selection k v) sel.

(** A text between double quotes. *)
Definition quoted (s : string) : string := String "034" (s +:+ String "034" EmptyString).

(** The first entry that matches the selection, as the [for ... break] loops
    look for it. *)
Definition first_match (keep : string -> bool) (selection : dict (list label))
    (sels : list sel_t) : option sel_t :=
  List.find (sel_matches keep selection) sels.

(** [sel[key]] *)
Definition getitem (key : string) (sel : sel_t) : result (list label) :=
  match dict_get key sel with
  | Some v => Ok v
  | None => Raise (KeyError key)
  end.

(** [vals[i]] *)
Definition item (i : nat) (vals : list label) : result label :=
  match vals !! i with
  | Some v => Ok v
  | None => Raise (IndexError "index out of range")
  end.

Definition display_ref_val (a : args) : Plot unit :=
  match ref_val a with
  | None => mret tt
  | Some r =>
      val ←
        match r with
        | RefDict d =>
            match first_match (fun _ => true) (selection a)
                    (default [] (dict_get (var_name a) d)) with
            | Some sel => v ← lift (getitem "ref_val" sel); lift (item 0 v)
            | None => raise (UnboundLocalError "val")
            end
        | RefScalar v => mret v
        | RefOther =>
            raise (ValueError
              ("Argument `ref_val` must be None, a constant, or a dictionary like {"
                 +:+ quoted "var_name" +:+ ": {" +:+ quoted "ref_val" +:+ ": (lo, hi)}}"))
        end;
      emit (RefLine val);; emit (RefText val)
  end.

Definition display_rope (a : args) : Plot unit :=
  match rope a with
  | None => mret tt
  | Some r =>
      found ←
        match r with
        | RopeDict d =>
            match first_match (fun k => negb (bool_decide (k = "rope"))) (selection a)
                    (default [] (dict_get (var_name a) d)) with
            | Some sel => vals ← lift (getitem "rope" sel); mret (Some vals)
            | None => mret None
            end
        | RopeSeq vals =>
            if Nat.eqb (length vals) 2 then mret (Some vals)
            else raise (ValueError
                   ("Argument `rope` must be None, a dictionary like{"
                      +:+ quoted "var_name" +:+ ": {" +:+ quoted "rope"
                      +:+ ": (lo, hi)}}, or aniterable of length 2"))
        end;
      match found with
      | None => mret tt
      | Some vals =>
          emit (RopeLine vals);;
          lo ← lift (item 0 vals);
          emit (RopeText lo);;
          hi ← lift (item 1 vals);
          emit (RopeText hi)
      end
  end.

Definition display_point_estimate (a : args) : Plot unit :=
  match point_estimate a with
  | None => mret tt
  | Some pe =>
      if bool_decide (pe = EmptyString) then mret tt
      else if negb (bool_decide (pe ∈ ["mode"; "mean"; "median"])) then
        raise (ValueError "Point Estimate should be in ('mode','mean','median')")
      else
        point_value ←
          (if bool_decide (pe = "mean") then mret Mean
           else if bool_decide (pe = "mode") then
             is_float ← lift (iloc0_is_float (values a));
             mret (if is_float : bool then KdeMode else RoundedMode)
           else mret Median);
        emit (PointEstimateText pe point_value)
  end.

Definition display_hpd (a : args) : Plot unit :=
  emit HpdLine;; emit HpdText;; emit HpdText;; emit HpdText.

Definition format_axes : Plot unit := emit FormatAxes.

(** The [if kind == 'kde' and values.dtype.kind == 'f'] statement: the
    density, or the histogram. The statement ends as the call of [ax.hist]
    does. *)
Definition draw_density (a : args) : Plot unit :=
  if bool_decide (kind a = "kde") && bool_decide (dtype_kind (values a) = "f"%char) then
    emit (KdePlot (values a) (default "0" (dict_get "fill_alpha" (kwargs a))))
  else
    bins ←
      match bins a with
      | None =>
          if bool_decide (dtype_kind (values a) = "i"%char) then
            xmin ← lift (int_min (ints (values a)));
            xmax ← lift (int_max (ints (values a)));
            let bins := BinsRange xmin (int64_add xmax 2) in
            emit (SetXlim xmin xmax);;
            mret bins
          else mret (BinsName "auto")
      | Some bins => mret bins
      end;
    let kwargs := setdefault "color" "C0" (setdefault "align" "left" (kwargs a)) in
    emit (Hist (values a) bins kwargs);;
    lift (hist (ax a) (values a) bins kwargs).

(** The artist. [plot_height = ax.get_ylim()[1]] only reads the axes and
    leaves no mark here. *)
Definition _plot_posterior_op (a : args) : Plot unit :=
  draw_density a;;
  format_axes;;
  display_hpd a;;
  display_point_estimate a;;
  (if ref_val a is Some _ then display_ref_val a else mret tt);;
  (if rope a is Some _ then display_rope a else mret tt).

(** The call of the artist in [posteriorplot], which hands on its own
    [**kwargs]: [_plot_posterior_op(x.flatten(), var_name, selection, ax=ax,
    ..., linewidth=linewidth, ..., **kwargs)]. A keyword of the caller that
    has the name of a parameter [posteriorplot] passes itself reaches the
    artist twice, and Python raises before the artist runs: first for a
    parameter passed by keyword, then for one passed by position. The other
    parameters of the artist are parameters of [posteriorplot] too, and so
    are not among its [**kwargs]. *)
Definition call_artist (a : args) : Plot unit :=
  match List.find (fun k => bool_decide (k ∈ ["ax"; "linewidth"])) (kwargs a).*1 with
  | Some k =>
      raise (TypeError ("_plot_posterior_op() got multiple values for keyword argument '"
                          +:+ k +:+ "'"))
  | None =>
      match List.find (fun k => bool_decide (k ∈ ["values"; "var_name"; "selection"]))
                      (kwargs a).*1 with
      | Some k =>
          raise (TypeError ("_plot_posterior_op() got multiple values for argument '"
                              +:+ k +:+ "'"))
      | None => _plot_posterior_op a
      end
  end.

(** The loop of [posteriorplot] over the variables to plot: [plotters] is
    what [xarray_var_iter] yields, and every variable is handed on flattened.
    The axes all come from one [plt.subplots] and answer alike. *)
Fixpoint posteriorplot (plotters : list (string * dict (list label) * ndarray))
    (opts : args) : Plot unit :=
  match plotters with
  | [] => mret tt
  | (var_name, selection, x) :: plotters' =>
      call_artist
        (MkArgs (flatten x) var_name selection (ax opts) (bins opts) (kind opts)
                (point_estimate opts) (ref_val opts) (rope opts) (kwargs opts));;
      emit (SetTitle var_name selection);;
      posteriorplot plotters' opts
  end.

End PosteriorPlot.

(** ** Properties stated about the embedding *)

Module Props.
Import Np Xr Arviz XarrayUtils.

(** The caller's [coords] holds an entry under [key]. *)
Definition provides (key : string) (coords : option coords_t) : Prop :=
  exists c, coords = Some c /\ is_Some (c !! key).

(** A labelled sample array: ['chain'] and ['draw'] are its first two
    dimensions, and each of the two is labelled [0..n-1] along its axis
    unless the caller's [coords] brought labels for it. *)
Definition chain_draw_labelled (caller : option coords_t) (da : DataArray) : Prop :=
  take 2 (dims da) = ["chain"; "draw"] /\
  exists n_chains n_draws rest,
    shape (Xr.values da) = n_chains :: n_draws :: rest /\
    (~ provides "chain" caller -> coords da !! "chain" = Some (arange n_chains)) /\
    (~ provides "draw" caller -> coords da !! "draw" = Some (arange n_draws)).

(** The dimension names on the path of caller-supplied [dims]. *)
Definition user_dims (dims : list string) : list string :=
  if bool_decide (take 2 dims = default_dims) then dims else default_dims ++ dims.

(** What [infer_dims] returns, by the number of axes: the array brought to
    at least two axes, the indexes of the trailing ones, and the names. *)
Definition inferred (ary : ndarray) (var_name : string)
    : ndarray * coords_t * list string :=
  match shape ary with
  | [] => (reshape [1; 1] ary, ∅, default_dims)
  | [n] => (reshape [1; n] ary, ∅, default_dims)
  | [m; n] => (reshape [m; n] ary, ∅, default_dims)
  | _ :: _ :: trailing =>
      let '(dims, coords) := name_trailing var_name 0 trailing default_dims ∅ in
      (ary, coords, dims)
  end.

(** The warning of that path, for an array brought to shape. *)
Definition chain_draw_warning (ary : ndarray) : Run unit :=
  match shape ary with
  | n_chains :: n_samples :: _ =>
      if Nat.ltb n_samples n_chains
      then emit (more_chains_than_draws n_chains n_samples) else mret tt
  | _ => mret tt
  end.

(** The kinds of object the dispatch has a conversion for. The two trace
    classes are recognised by the name of the class alone. *)
Definition supported (obj : pyobj) : Prop :=
  match obj with
  | POther name => name = "StanFit4Model" \/ name = "MultiTrace"
  | _ => True
  end.

(** The call reads the netcdf file [path] from disk. *)
Definition reads_file {A} (m : Run A) (path : string) : Prop := NetcdfRead path ∈ trace m.

(** The call stays in memory. *)
Definition in_memory {A} (m : Run A) : Prop := forall path, ~ reads_file m path.

(** The density branch of the artist is the one taken. *)
Definition kde_selected (a : PosteriorPlot.args) : Prop :=
  PosteriorPlot.kind a = "kde" /\ dtype_kind (PosteriorPlot.values a) = "f"%char.

(** The density curve is among the calls made. *)
Definition draws_kde (l : list PosteriorPlot.draw) : Prop :=
  exists v fill_alpha, PosteriorPlot.KdePlot v fill_alpha ∈ l.

(** [ax.hist] is among the calls made. *)
Definition draws_hist (l : list PosteriorPlot.draw) : Prop :=
  exists v b kw, PosteriorPlot.Hist v b kw ∈ l.

(** The keyword arguments [ax.hist] is called with. *)
Definition hist_kwargs (a : PosteriorPlot.args) : dict string :=
  PosteriorPlot.setdefault "color" "C0"
    (PosteriorPlot.setdefault "align" "left" (PosteriorPlot.kwargs a)).

(** What [ax.hist] answers when the artist calls it with the bins [b]. *)
Definition hist_answer (a : PosteriorPlot.args) (b : PosteriorPlot.bins_t) : result unit :=
  PosteriorPlot.hist (PosteriorPlot.ax a) (PosteriorPlot.values a) b (hist_kwargs a).

(** The values are signed integers, [bins] is left [None], and there is no
    value to take the minimum of. *)
Definition no_minimum (a : PosteriorPlot.args) : Prop :=
  PosteriorPlot.bins a = None /\ dtype_kind (PosteriorPlot.values a) = "i"%char /\
  ints (PosteriorPlot.values a) = [].


(** What the artist draws after the density or histogram and before the
    point estimate. *)
Definition axes_and_hpd : list PosteriorPlot.draw :=
  [PosteriorPlot.FormatAxes; PosteriorPlot.HpdLine; PosteriorPlot.HpdText;
   PosteriorPlot.HpdText; PosteriorPlot.HpdText].

(** A call that draws an annotation, not the density or the histogram. *)
Definition annotation (d : PosteriorPlot.draw) : Prop :=
  match d with
  | PosteriorPlot.KdePlot _ _ | PosteriorPlot.Hist _ _ _ | PosteriorPlot.SetXlim _ _ => False
  | _ => True
  end.

(** A computation that draws annotations only. *)
Definition annotates {A} (m : PosteriorPlot.Plot A) : Prop := Forall annotation (trace m).




(** The group [name] was passed to the container, as [None]. *)
Definition group_is_none (idata : InferenceData) (name : string) : Prop :=
  groups idata !! name = Some None.

(** The group [name] was passed to the container, as a dataset. *)
Definition group_is_dataset (idata : InferenceData) (name : string) : Prop :=
  exists ds, groups idata !! name = Some (Some ds).

End Props.

(** ** Sample inputs *)

Module Samples.
Import Np Xr Arviz XarrayUtils.

(** What a call returned, or [d] if it raised. *)
Definition result_of {E A} (d : A) (m : Eff E A) : A :=
  match outcome m with
  | Ok a => a
  | Raise _ => d
  end.

Definition half : dyadic := Dyadic 1 (-1).

(** Four draws of one chain. *)
Definition draws_1d : ndarray := NdArray [4] (BFloat [half; half; half; half]).

(** Two chains of three draws. *)
Definition draws_2d : ndarray := NdArray [2; 3] (BInt [1; 2; 3; 4; 5; 6]%Z).

(** Two chains of three draws of a parameter over two schools. *)
Definition theta : ndarray :=
  NdArray [2; 3; 2]
    (BFloat [half; half; half; half; half; half; half; half; half; half; half; half]).

Definition school_coords : coords_t := {[ "school" := [LStr "Choate"; LStr "Deerfield"] ]}.

Definition no_array : DataArray := MkDataArray (NdArray [] (BInt [])) [] ∅.
Definition no_dataset : Dataset := MkDataset ∅.
Definition no_idata : InferenceData := MkInferenceData ∅.

Definition theta_labelled : DataArray :=
  result_of no_array (numpy_to_data_array theta "theta" (Some school_coords) (Some ["school"])).

Definition two_variables : dict ndarray := [("mu", draws_2d); ("theta", theta)].

Definition two_variables_dataset : Dataset :=
  result_of no_dataset (dict_to_dataset two_variables None None).

(** A machine without netcdf files, and pymc3 keeping every name. *)
Definition offline : Env :=
  MkEnv (fun _ => Raise (OSError "No such file or directory")) (fun names => names).

Definition school_dims : dims_t := {[ "x" := ["school"] ]}.

(** A trace of one variable, two chains of three draws, with one statistic. *)
Definition small_trace : MultiTrace :=
  MkMultiTrace ["mu"] (fun _ => draws_2d) ["diverging"] (fun _ => draws_2d).

(** A fit of one parameter: three draws of two chains, as pystan lays them
    out, and the sampler parameters of the two chains. *)
Definition small_fit : StanFit4Model :=
  MkStanFit ["mu"; "lp__"] "parameters { real mu; } model { mu ~ normal(0, 1); }"
    (fun _ _ => [("mu", NdArray [3; 2] (BFloat [half; half; half; half; half; half]))])
    [[("accept_stat__", NdArray [3] (BFloat [half; half; half]));
      ("treedepth__", NdArray [3] (BFloat [half; half; half]))];
     [("accept_stat__", NdArray [3] (BFloat [half; half; half]));
      ("treedepth__", NdArray [3] (BFloat [half; half; half]))]].




Definition small_trace_idata : InferenceData :=
  result_of no_idata (pymc3_to_inference_data offline (Some small_trace) None None None None).

Definition small_fit_idata : InferenceData :=
  result_of no_idata (pystan_to_inference_data (Some small_fit) None None).

(** Integer draws of a count, e.g. a number of successes. *)
Definition counts : ndarray := NdArray [6] (BInt [3; 1; 4; 1; 5; 6]%Z).

(** The draws of [theta], flattened as [posteriorplot] hands them on. *)
Definition theta_draws : ndarray := flatten theta.

(** Axes that know the keywords of a histogram, and not [fill_alpha], which
    is a keyword of the density branch. *)
Definition pyplot_axes : PosteriorPlot.Axes :=
  PosteriorPlot.MkAxes (fun _ _ kwargs =>
    match dict_get "fill_alpha" kwargs with
    | Some _ => Raise (AttributeError "Unknown property fill_alpha")
    | None => Ok tt
    end).

Definition plot_args (values : ndarray) (kind : string) (point_estimate : string)
    : PosteriorPlot.args :=
  PosteriorPlot.MkArgs values "mu" [] pyplot_axes None kind (Some point_estimate) None None [].

(** An integer array without values, and counts stored as unsigned integers. *)
Definition no_counts : ndarray := NdArray [0] (BInt []).
Definition unsigned_counts : ndarray := NdArray [3] (BUInt [3; 1; 4]%N).

(** A histogram asked for with the keyword of the density branch. *)
Definition filled_args : PosteriorPlot.args :=
  PosteriorPlot.MkArgs theta_draws "mu" [] pyplot_axes None "hist" (Some "mean") None None
    [("fill_alpha", "0.3")].

End Samples.

(** ** Further notions for the converters and the plot *)

Module ConverterProps.
Import Str Np Xr Arviz XarrayUtils.

(** [d.keys()] *)
Definition keys {A} (d : dict A) : list string := d.*1.

(** The pattern ['__$'] of [PyStanConverter.sample_stats_to_xarray]. *)
Definition suffix_pattern : Re.regex := Re.Seq (Re.lit "__") (Re.Eol false).

(** The name under which [PyStanConverter.sample_stats_to_xarray] stores the
    sampler parameter [key]: [rename_key.get(key, re.sub('__$', '', key))]. *)
Definition stat_name (key : string) : string :=
  default (Re.sub (Re.Seq (Re.lit "__") (Re.Eol false)) EmptyString key)
          (dict_get key PyStanConverter.rename_key).

(** The [dtype.kind] that [astype(dtypes.get(key))] leaves the sampler
    parameter [key] with. *)
Definition stat_kind (key : string) : ascii :=
  match dict_get key PyStanConverter.dtypes with
  | Some DBool => "b"
  | Some DInt64 => "i"
  | None => "f"
  end%char.

(** What that method stores for one sampler parameter:
    [np.vstack([j[key].astype(dtypes.get(key)) for j in sampler_params])]. *)
Definition stat_array (sampler_params : list (dict ndarray)) (key : string) : result ndarray :=
  match PyStanConverter.stat_columns key sampler_params with
  | Ok cols => vstack cols
  | Raise e => Raise e
  end.

End ConverterProps.

Module PlotProps.
Import PosteriorPlot.

(** The titles among the things drawn, in the order they were set. *)
Definition titles (l : list draw) : list (string * dict (list Np.label)) :=
  omap (fun d => match d with SetTitle v s => Some (v, s) | _ => None end) l.

(** The arguments [posteriorplot] calls the artist with for one variable. *)
Definition artist_args (opts : args) (p : string * dict (list Np.label) * Np.ndarray) : args :=
  MkArgs (Np.flatten p.2) p.1.1 p.1.2 (ax opts) (bins opts) (kind opts)
         (point_estimate opts) (ref_val opts) (rope opts) (kwargs opts).

(** The artist returns for the variable. *)
Definition artist_returns (opts : args) (p : string * dict (list Np.label) * Np.ndarray)
    : Prop :=
  returns (call_artist (artist_args opts p)) tt.

(** What [posteriorplot] draws for a variable whose artist returns: what the
    artist draws, and then the title. *)
Definition drawn_for (opts : args) (p : string * dict (list Np.label) * Np.ndarray)
    : list draw :=
  trace (call_artist (artist_args opts p)) ++ [SetTitle p.1.1 p.1.2].

(** The parameters of the artist that [posteriorplot] passes itself and does
    not take from its caller. *)
Definition artist_only : list string := ["values"; "var_name"; "selection"; "ax"; "linewidth"].

(** The name and selection a title is made of. *)
Definition title_of (p : string * dict (list Np.label) * Np.ndarray)
    : string * dict (list Np.label) := (p.1.1, p.1.2).

End PlotProps.

(** ** More sample inputs *)

Module MoreSamples.
Import Np Xr Arviz XarrayUtils Samples.

(** The dataset a converter method returned, or an empty one. *)
Definition dataset_of (m : Run (option Dataset)) : Dataset :=
  default no_dataset (result_of None m).

(** A 0-d array. *)
Definition scalar : ndarray := NdArray [] (BFloat [half]).

(** Three chains of two draws. *)
Definition tall : ndarray := NdArray [3; 2] (BInt [1; 2; 3; 4; 5; 6]%Z).

(** A converter for [small_trace], with four draws from the prior. *)
Definition small_converter : PyMC3Converter.t :=
  PyMC3Converter.Make (Some small_trace) (Some [("mu", draws_1d)]) None None (Some school_dims).

Definition small_posterior : Dataset :=
  dataset_of (PyMC3Converter.posterior_to_xarray offline small_converter).

Definition small_prior : Dataset := dataset_of (PyMC3Converter.prior_to_xarray small_converter).

Definition small_stats : Dataset :=
  dataset_of (PyMC3Converter.sample_stats_to_xarray small_converter).

(** Two dictionaries whose arrays the dataset constructor has to merge: the
    first holds arrays of three and of two chains, the second an array
    under the name of a dimension. *)
Definition unequal_chains : dict ndarray := [("mu", tall); ("theta", theta)].
Definition named_like_a_dimension : dict ndarray := [("chain", draws_2d); ("theta", theta)].

Definition small_fit_converter : PyStanConverter.t :=
  PyStanConverter.Make (Some small_fit) None None ["mu"; "lp__"].

Definition small_fit_posterior : Dataset :=
  dataset_of (PyStanConverter.posterior_to_xarray small_fit_converter).

Definition small_fit_stats : Dataset :=
  dataset_of (PyStanConverter.sample_stats_to_xarray small_fit_converter).

(** A fit whose second chain lacks a sampler parameter of the first. *)
Definition uneven_fit : StanFit4Model :=
  MkStanFit ["mu"] EmptyString (fun _ _ => [])
    [[("lp__", NdArray [3] (BFloat [half; half; half]))]; []].

(** The arguments of the artist for the draws of [theta] at one school. *)
Definition school_args (ref_val : option PosteriorPlot.ref_val_t)
    (rope : option PosteriorPlot.rope_t) : PosteriorPlot.args :=
  PosteriorPlot.MkArgs theta_draws "theta" [("school", [LStr "Choate"])] pyplot_axes None "kde"
    (Some "mean") ref_val rope [].



(** Options of [posteriorplot] with a keyword meant for the line of the
    density. *)
Definition wide_args : PosteriorPlot.args :=
  PosteriorPlot.MkArgs draws_2d "mu" [] pyplot_axes None "kde" (Some "mean") None None
    [("linewidth", "2")].

End MoreSamples.

(** * Theorems *)

Module EffFacts.

Lemma bind_returns {E A B} (m : Eff E A) (k : A -> Eff E B) (b : B) :
  returns (Py.bind m k) b <-> exists a, returns m a /\ returns (k a) b.
Proof.
  unfold returns, Py.bind. destruct (outcome m) as [a|e]; simpl; split.
  - intros H. exists a. auto.
  - intros (a' & Ha & Hb). congruence.
  - discriminate.
  - intros (a' & Ha & _). discriminate.
Qed.

Lemma bind_raises {E A B} (m : Eff E A) (k : A -> Eff E B) (e : exn) :
  raises (Py.bind m k) e <->
  raises m e \/ exists a, returns m a /\ raises (k a) e.
Proof.
  unfold raises, returns, Py.bind. destruct (outcome m) as [a|e']; simpl; split.
  - intros H. right. exists a. auto.
  - intros [H | (a' & Ha & Hb)]; congruence.
  - intros H. left. congruence.
  - intros [H | (a' & Ha & _)]; congruence.
Qed.

Lemma bind_lift_ok {E A B} (a : A) (k : A -> Eff E B) :
  Py.bind (lift (Ok a)) k = k a.
Proof. unfold Py.bind, lift. simpl. destruct (k a). reflexivity. Qed.

Lemma bind_lift_raise {E A B} (e : exn) (k : A -> Eff E B) :
  Py.bind (lift (Raise e)) k = raise e.
Proof. reflexivity. Qed.

Lemma bind_pure {E A B} (a : A) (k : A -> Eff E B) :
  Py.bind (Py.pure a) k = k a.
Proof. apply bind_lift_ok. Qed.

Lemma bind_raise {E A B} (e : exn) (k : A -> Eff E B) :
  Py.bind (raise e) k = raise e.
Proof. reflexivity. Qed.

Ltac eff_unfold := unfold mbind, eff_bind, mret, eff_ret in *.
Ltac eff_simpl :=
  repeat first [ rewrite bind_lift_ok | rewrite bind_lift_raise
               | rewrite bind_pure | rewrite bind_raise ].

End EffFacts.

Module LabelFacts.
Import Str Np Xr Arviz XarrayUtils Props EffFacts.

Lemma length_arange n : length (arange n) = n.
Proof. unfold arange. rewrite length_map, length_seq. reflexivity. Qed.

Lemma contains_app c a t : contains c (a +:+ String c t) = true.
Proof.
  induction a as [|x a IH]; simpl.
  - rewrite bool_decide_eq_true_2; reflexivity.
  - rewrite IH. apply orb_true_r.
Qed.

Lemma dim_name_underscore v i : contains "_" (dim_name v i) = true.
Proof. unfold dim_name. apply (contains_app "_" v). Qed.

Lemma dim_name_not_chain v i : dim_name v i <> "chain".
Proof. intros H. pose proof (dim_name_underscore v i) as U. rewrite H in U. discriminate. Qed.

Lemma dim_name_not_draw v i : dim_name v i <> "draw".
Proof. intros H. pose proof (dim_name_underscore v i) as U. rewrite H in U. discriminate. Qed.

Lemma dim_name_inj v i j : dim_name v i = dim_name v j -> i = j.
Proof.
  unfold dim_name, format_nat. intros H.
  apply (inj (String.append v)) in H.
  apply (inj (String.append "_dim_")) in H.
  apply (inj pretty) in H. exact H.
Qed.

(** What the loop over the trailing axes leaves behind. *)
Lemma name_trailing_spec v sh : forall k dims0 c0,
  exists c1,
    name_trailing v k sh dims0 c0 = (dims0 ++ imap (fun i _ => dim_name v (k + i)) sh, c1) /\
    (forall i si, sh !! i = Some si -> c1 !! dim_name v (k + i) = Some (arange si)) /\
    (forall key, (forall i, i < length sh -> key <> dim_name v (k + i)) -> c1 !! key = c0 !! key).
Proof.
  induction sh as [|s sh IH]; intros k dims0 c0; simpl.
  - exists c0. rewrite app_nil_r. split; [reflexivity|]. split; [|reflexivity].
    intros i si H. discriminate.
  - destruct (IH (S k) (dims0 ++ [dim_name v k])
                (<[dim_name v k := arange s]> c0)) as (c1 & E & Hin & Hout).
    exists c1. split; [|split].
    + rewrite E. rewrite <- app_assoc. simpl. f_equal. f_equal.
      replace (k + 0) with k by lia. f_equal.
      apply imap_ext. intros i x _. simpl. f_equal. lia.
    + intros [|i] si H; simpl in H.
      * injection H as <-. rewrite Hout.
        -- replace (k + 0) with k by lia. apply lookup_insert_eq.
        -- intros i _ Heq. apply dim_name_inj in Heq. lia.
      * replace (k + S i) with (S k + i) by lia. apply Hin. exact H.
    + intros key Hkey. rewrite Hout.
      * apply lookup_insert_ne. intros Heq. apply (Hkey 0); [lia|].
        replace (k + 0) with k by lia. congruence.
      * intros i Hi. replace (S k + i) with (k + S i) by lia. apply Hkey. lia.
Qed.

Lemma index_variables_ok c dims idx :
  index_variables c dims = Ok idx ->
  forall d, d ∈ dims -> idx !! d = c !! d /\ is_Some (c !! d).
Proof.
  revert idx. induction dims as [|key dims IH]; intros idx H d Hd.
  - inversion Hd.
  - simpl in H. destruct (c !! key) as [labels|] eqn:Ek; [|discriminate].
    destruct (index_variables c dims) as [rest|e] eqn:Er; [|discriminate].
    injection H as <-.
    destruct (decide (d = key)) as [->|Hne].
    + rewrite lookup_insert_eq, Ek. split; [reflexivity|eauto].
    + rewrite lookup_insert_ne by congruence. apply (IH rest eq_refl).
      apply elem_of_cons in Hd. destruct Hd; [contradiction|assumption].
Qed.

Lemma index_variables_total c dims :
  (forall d, d ∈ dims -> is_Some (c !! d)) ->
  exists idx, index_variables c dims = Ok idx.
Proof.
  induction dims as [|key dims IH]; intros H; simpl.
  - eauto.
  - destruct (H key) as [labels El]; [left|]. rewrite El.
    destruct IH as [rest Er].
    + intros d Hd. apply H. right. exact Hd.
    + rewrite Er. eauto.
Qed.

Lemma index_variables_missing c dims :
  (exists d, d ∈ dims /\ c !! d = None) ->
  exists key, index_variables c dims = Raise (KeyError key) /\ key ∈ dims /\ c !! key = None.
Proof.
  induction dims as [|key dims IH]; intros (d & Hd & Hn).
  - inversion Hd.
  - simpl. destruct (c !! key) as [labels|] eqn:Ek.
    + destruct IH as (k & Ek' & Hin & Hk).
      * exists d. split; [|exact Hn]. apply elem_of_cons in Hd.
        destruct Hd as [->|Hd]; [congruence|exact Hd].
      * rewrite Ek'. exists k. split; [reflexivity|]. split; [right; exact Hin|exact Hk].
    + exists key. split; [reflexivity|]. split; [left|exact Ek].
Qed.

Lemma sizes_agree_intro idx (names : list string) : forall sh,
  (forall j d n, names !! j = Some d -> sh !! j = Some n ->
     exists labels, idx !! d = Some labels /\ length labels = n) ->
  forallb (size_agrees idx) (zip names sh) = true.
Proof.
  induction names as [|d names IH]; intros sh H; [reflexivity|].
  destruct sh as [|n sh]; [reflexivity|]. simpl.
  apply andb_true_intro; split.
  - unfold size_agrees. simpl. destruct (H 0 d n eq_refl eq_refl) as (labels & -> & <-).
    apply Nat.eqb_refl.
  - apply IH. intros j d' n' Hd Hn. apply (H (S j)); assumption.
Qed.

Lemma numpy_user_eq ary v coords names :
  numpy_to_data_array ary v coords (Some names) =
  match coords with
  | None => raise (TypeError "'NoneType' object is not iterable")
  | Some c => label_axes ary c (user_dims names)
  end.
Proof.
  unfold numpy_to_data_array, given_dims, user_dims. eff_unfold.
  destruct coords as [c|]; simpl; eff_simpl; reflexivity.
Qed.

(** A call of [label_axes] that returns has found an index for every name. *)
Lemma label_axes_returns ary c names da :
  returns (label_axes ary c names) da ->
  exists n_chains n_draws rest,
    shape ary = n_chains :: n_draws :: rest /\
    Xr.values da = ary /\ dims da = names /\
    forall d, d ∈ names ->
      coords da !! d =
        setdefault_arange "draw" n_draws (setdefault_arange "chain" n_chains c) !! d /\
      is_Some (coords da !! d).
Proof.
  unfold label_axes. eff_unfold. intros H.
  destruct (shape ary) as [|n_chains [|n_draws rest]] eqn:Es; simpl in H;
    try (rewrite bind_lift_raise in H; discriminate).
  rewrite bind_lift_ok in H.
  set (c' := setdefault_arange "draw" n_draws (setdefault_arange "chain" n_chains c)) in *.
  destruct (index_variables c' names) as [idx|e] eqn:Ei;
    [rewrite bind_lift_ok in H | rewrite bind_lift_raise in H; discriminate].
  unfold returns, lift in H. simpl in H. unfold DataArray_new in H.
  destruct (negb _); [discriminate|]. destruct (forallb _ _); [|discriminate].
  injection H as <-. exists n_chains, n_draws, rest. simpl.
  repeat split; try reflexivity.
  - apply (index_variables_ok _ _ _ Ei). assumption.
  - destruct (index_variables_ok _ _ _ Ei d) as [-> ?]; assumption.
Qed.

Lemma label_axes_missing ary c names n_chains n_draws rest :
  shape ary = n_chains :: n_draws :: rest ->
  (exists d, d ∈ names /\
     setdefault_arange "draw" n_draws (setdefault_arange "chain" n_chains c) !! d = None) ->
  exists key, label_axes ary c names = raise (KeyError key) /\ key ∈ names /\
    setdefault_arange "draw" n_draws (setdefault_arange "chain" n_chains c) !! key = None.
Proof.
  intros Es Hm. unfold label_axes. eff_unfold. rewrite Es. simpl. rewrite bind_lift_ok.
  destruct (index_variables_missing _ _ Hm) as (key & -> & Hin & Hk).
  rewrite bind_lift_raise. eauto.
Qed.

Lemma setdefault_arange_lookup key n (c : coords_t) k :
  setdefault_arange key n c !! k =
  match c !! k with
  | Some v => Some v
  | None => if decide (key = k) then Some (arange n) else None
  end.
Proof.
  unfold setdefault_arange. destruct (c !! key) as [w|] eqn:E.
  - destruct (c !! k) eqn:Ek; [reflexivity|].
    destruct (decide (key = k)) as [->|]; [congruence|reflexivity].
  - rewrite lookup_insert. destruct (decide (key = k)) as [->|].
    + rewrite E. reflexivity.
    + destruct (c !! k); reflexivity.
Qed.

(** The labelling succeeds on an array with chain and draw axes whose other
    axes all have an index of the right length. *)
Lemma label_axes_labelled ary (c0 : coords_t) n_chains n_draws trailing tnames :
  shape ary = n_chains :: n_draws :: trailing ->
  length tnames = length trailing ->
  c0 !! "chain" = None -> c0 !! "draw" = None ->
  (forall i name si, tnames !! i = Some name -> trailing !! i = Some si ->
     c0 !! name = Some (arange si)) ->
  exists idx,
    label_axes ary c0 ("chain" :: "draw" :: tnames)
      = Py.pure (MkDataArray ary ("chain" :: "draw" :: tnames) idx) /\
    idx !! "chain" = Some (arange n_chains) /\
    idx !! "draw" = Some (arange n_draws) /\
    (forall name, name ∈ tnames -> idx !! name = c0 !! name).
Proof.
  intros Es Hlen Hc Hd Ht.
  set (names := "chain" :: "draw" :: tnames).
  set (c' := setdefault_arange "draw" n_draws (setdefault_arange "chain" n_chains c0)).
  assert (Lc : c' !! "chain" = Some (arange n_chains)).
  { unfold c'. rewrite !setdefault_arange_lookup, Hc. reflexivity. }
  assert (Ld : c' !! "draw" = Some (arange n_draws)).
  { unfold c'. rewrite !setdefault_arange_lookup, Hd. reflexivity. }
  assert (Lt : forall name, name ∈ tnames -> c' !! name = c0 !! name /\ is_Some (c0 !! name)).
  { intros name Hin. apply list_elem_of_lookup in Hin as [i Hi].
    destruct (lookup_lt_is_Some_2 trailing i) as [si Hsi].
    { rewrite <- Hlen. eapply lookup_lt_Some; eauto. }
    specialize (Ht i name si Hi Hsi). unfold c'.
    rewrite !setdefault_arange_lookup, Ht. eauto. }
  destruct (index_variables_total c' names) as [idx Ei].
  { intros d Hin. unfold names in Hin.
    apply elem_of_cons in Hin as [->|Hin]; [rewrite Lc; eauto|].
    apply elem_of_cons in Hin as [->|Hin]; [rewrite Ld; eauto|].
    destruct (Lt d Hin) as [-> ?]. assumption. }
  pose proof (index_variables_ok _ _ _ Ei) as Hidx.
  exists idx. split; [|split; [|split]].
  - unfold label_axes. eff_unfold. rewrite Es. cbn [unpack_shape].
    rewrite bind_lift_ok. cbn beta iota.
    fold c'. fold names. rewrite Ei, bind_lift_ok.
    unfold lift, DataArray_new, ndim. rewrite Es.
    replace (negb (Nat.eqb (length names) (length (n_chains :: n_draws :: trailing))))
      with false.
    2:{ symmetry. apply negb_false_iff, Nat.eqb_eq. unfold names. simpl. lia. }
    rewrite sizes_agree_intro; [reflexivity|].
    intros j d n Hj Hn. destruct (Hidx d) as [-> _].
    { apply list_elem_of_lookup. eauto. }
    destruct j as [|[|j]]; simpl in Hj, Hn.
    + injection Hj as <-. injection Hn as <-. rewrite Lc. eexists. split; [reflexivity|].
      apply length_arange.
    + injection Hj as <-. injection Hn as <-. rewrite Ld. eexists. split; [reflexivity|].
      apply length_arange.
    + destruct (Lt d) as [-> _]; [apply list_elem_of_lookup; eauto|].
      rewrite (Ht j d n Hj Hn). eexists. split; [reflexivity|]. apply length_arange.
  - destruct (Hidx "chain") as [-> _]; [left|exact Lc].
  - destruct (Hidx "draw") as [-> _]; [right; left|exact Ld].
  - intros name Hin. destruct (Hidx name) as [-> _]; [right; right; exact Hin|].
    apply Lt. exact Hin.
Qed.

Lemma infer_dims_eq ary v :
  infer_dims ary v =
  Py.bind (chain_draw_warning (inferred ary v).1.1) (fun _ => Py.pure (inferred ary v)).
Proof.
  destruct ary as [sh b].
  unfold infer_dims, inferred, chain_draw_warning.
  destruct sh as [|n1 [|n2 [|n3 rest]]]; cbn [shape length Nat.ltb Nat.leb atleast_3d reshape buf
    unpack_shape fst snd]; eff_unfold; rewrite ?bind_lift_ok; cbn beta iota.
  - cbn. reflexivity.
  - destruct (Nat.ltb n1 1); cbn; reflexivity.
  - destruct (Nat.ltb n2 n1); cbn; reflexivity.
  - destruct (name_trailing v 0 (n3 :: rest) default_dims ∅) as [names c] eqn:En.
    cbn [fst snd shape andb]. reflexivity.
Qed.

Lemma imap_dim_name_lookup v (trailing : list nat) i name :
  imap (fun i _ => dim_name v i) trailing !! i = Some name ->
  name = dim_name v i /\ i < length trailing.
Proof.
  rewrite list_lookup_imap. destruct (trailing !! i) as [si|] eqn:E; simpl; [|discriminate].
  intros [= <-]. split; [reflexivity|]. eapply lookup_lt_Some; eauto.
Qed.

(** The shape, names and indexes that [infer_dims] arrives at. *)
Lemma inferred_spec ary v :
  exists n_chains n_draws trailing c0,
    inferred ary v = ((inferred ary v).1.1, c0,
                      "chain" :: "draw" :: imap (fun i _ => dim_name v i) trailing) /\
    shape (inferred ary v).1.1 = n_chains :: n_draws :: trailing /\
    c0 !! "chain" = None /\ c0 !! "draw" = None /\
    (forall i si, trailing !! i = Some si -> c0 !! dim_name v i = Some (arange si)).
Proof.
  unfold inferred. destruct (shape ary) as [|n1 [|n2 [|n3 rest]]] eqn:Es.
  - exists 1, 1, [], ∅. simpl. repeat split; try reflexivity. intros i si H; discriminate.
  - exists 1, n1, [], ∅. simpl. repeat split; try reflexivity. intros i si H; discriminate.
  - exists n1, n2, [], ∅. simpl. repeat split; try reflexivity. intros i si H; discriminate.
  - destruct (name_trailing_spec v (n3 :: rest) 0 default_dims ∅) as (c1 & E & Hin & Hout).
    rewrite E. exists n1, n2, (n3 :: rest), c1. cbn [fst snd].
    split; [reflexivity|]. split; [exact Es|].
    split; [|split].
    + rewrite Hout; [apply lookup_empty|]. intros i _ Heq. symmetry in Heq.
      exact (dim_name_not_chain _ _ Heq).
    + rewrite Hout; [apply lookup_empty|]. intros i _ Heq. symmetry in Heq.
      exact (dim_name_not_draw _ _ Heq).
    + intros i si H. apply (Hin i si H).
Qed.

(** On the path [dims is None] the call returns for every array, with the
    axes named and labelled from the shape. *)
Lemma numpy_default_ok ary v caller :
  exists da n_chains n_draws trailing,
    returns (numpy_to_data_array ary v caller None) da /\
    Xr.values da = (inferred ary v).1.1 /\
    shape (Xr.values da) = n_chains :: n_draws :: trailing /\
    dims da = "chain" :: "draw" :: imap (fun i _ => dim_name v i) trailing /\
    coords da !! "chain" = Some (arange n_chains) /\
    coords da !! "draw" = Some (arange n_draws) /\
    (forall i si, trailing !! i = Some si ->
       coords da !! dim_name v i = Some (arange si)).
Proof.
  destruct (inferred_spec ary v) as (n_chains & n_draws & trailing & c0 & E & Es & Hc & Hd & Ht).
  set (tnames := imap (fun i _ => dim_name v i) trailing) in *.
  destruct (label_axes_labelled (inferred ary v).1.1 c0 n_chains n_draws trailing tnames)
    as (idx & El & Ic & Id & It); try assumption.
  { unfold tnames. apply length_imap. }
  { intros i name si Hn Hs. apply imap_dim_name_lookup in Hn as [-> _]. apply Ht. exact Hs. }
  exists (MkDataArray (inferred ary v).1.1 ("chain" :: "draw" :: tnames) idx),
    n_chains, n_draws, trailing.
  split; [|repeat split; simpl; try assumption].
  - unfold numpy_to_data_array. eff_unfold. rewrite infer_dims_eq.
    apply bind_returns. exists (inferred ary v). split.
    + apply bind_returns. exists tt. split; [|reflexivity].
      unfold chain_draw_warning. destruct (shape _) as [|a [|b r]]; try reflexivity.
      destruct (Nat.ltb b a); reflexivity.
    + rewrite E. rewrite El. reflexivity.
  - intros i si Hs. rewrite It.
    + apply Ht. exact Hs.
    + apply list_elem_of_lookup. exists i. unfold tnames. rewrite list_lookup_imap, Hs.
      reflexivity.
Qed.

End LabelFacts.

(** ** The labelled sample array *)

Module ArrayClaims.
Import Str Np Xr Arviz XarrayUtils Props Samples EffFacts LabelFacts.

Lemma take2_user_dims names : take 2 (user_dims names) = default_dims.
Proof.
  unfold user_dims. destruct (bool_decide (take 2 names = default_dims)) eqn:E.
  - apply bool_decide_eq_true in E. exact E.
  - reflexivity.
Qed.

Lemma elem_of_user_dims names d : d ∈ user_dims names <-> d = "chain" \/ d = "draw" \/ d ∈ names.
Proof.
  unfold user_dims. destruct (bool_decide (take 2 names = default_dims)) eqn:E.
  - apply bool_decide_eq_true in E. split; [auto|].
    intros [->|[->|H]]; [| |exact H].
    + rewrite <- (take_drop 2 names), E. left.
    + rewrite <- (take_drop 2 names), E. right. left.
  - rewrite elem_of_app. unfold default_dims. rewrite !elem_of_cons, elem_of_nil. tauto.
Qed.

Lemma numpy_returns_labelled ary v caller names da :
  returns (numpy_to_data_array ary v caller names) da -> chain_draw_labelled caller da.
Proof.
  destruct names as [names|].
  - rewrite numpy_user_eq. destruct caller as [c|]; [|discriminate].
    intros H. apply label_axes_returns in H
      as (n_chains & n_draws & rest & Es & Ev & Ed & Hc).
    split.
    + rewrite Ed. apply take2_user_dims.
    + exists n_chains, n_draws, rest. rewrite Ev. split; [exact Es|].
      assert (Hp : forall key, ~ provides key (Some c) -> c !! key = None).
      { intros key Hn. destruct (c !! key) eqn:E; [|reflexivity].
        exfalso. apply Hn. exists c. split; [reflexivity|]. rewrite E. eauto. }
      split; intros Hn; apply Hp in Hn.
      * destruct (Hc "chain") as [-> _]; [apply elem_of_user_dims; auto|].
        rewrite !setdefault_arange_lookup, Hn. reflexivity.
      * destruct (Hc "draw") as [-> _]; [apply elem_of_user_dims; auto|].
        rewrite !setdefault_arange_lookup, Hn. reflexivity.
  - destruct (numpy_default_ok ary v caller)
      as (da' & n_chains & n_draws & trailing & Hr & _ & Es & Ed & Ic & Id & _).
    intros H. unfold returns in *. rewrite Hr in H. injection H as <-.
    split; [rewrite Ed; reflexivity|].
    exists n_chains, n_draws, trailing. auto.
Qed.

Lemma data_vars_of_returns (P : DataArray -> Prop) caller dims : forall data acc out,
  (forall ary v names da, returns (numpy_to_data_array ary v caller names) da -> P da) ->
  (forall v da, acc !! v = Some da -> P da) ->
  returns (data_vars_of caller dims data acc) out ->
  forall v da, out !! v = Some da -> P da.
Proof.
  induction data as [|[key vals] data IH]; intros acc out HP Hacc H.
  - simpl in H. injection H as <-. exact Hacc.
  - simpl in H. eff_unfold. apply bind_returns in H as (da0 & H0 & H1).
    eapply IH; [exact HP| |exact H1].
    intros v da. rewrite lookup_insert. destruct (decide (key = v)) as [->|].
    + intros [= <-]. eapply HP. exact H0.
    + apply Hacc.
Qed.

(** C2. Every labelled sample array that [numpy_to_data_array] produces, and
    so every variable of a dataset that [dict_to_dataset] produces, has
    ['chain'] and ['draw'] as its first two dimensions, labelled
    [0..n_chains-1] and [0..n_draws-1] wherever the caller's [coords] has no
    entry for them; this holds for every array, with [dims] given or not. *)
Theorem chain_and_draw_come_first :
  (forall ary var_name caller names da,
     returns (numpy_to_data_array ary var_name caller names) da ->
     chain_draw_labelled caller da) /\
  (forall data caller names ds,
     returns (dict_to_dataset data caller names) ds ->
     forall v da, data_vars ds !! v = Some da -> chain_draw_labelled caller da).
Proof.
  split.
  - apply numpy_returns_labelled.
  - intros data caller names ds H v da Hv.
    unfold dict_to_dataset in H. eff_unfold.
    apply bind_returns in H as (vars & H0 & H1). injection H1 as <-.
    eapply (data_vars_of_returns (chain_draw_labelled caller)); [| |exact H0|exact Hv].
    + intros ? ? ? ?. apply numpy_returns_labelled.
    + intros v' da'. rewrite lookup_empty. discriminate.
Qed.

(** C3. With [dims] left [None], a 1-d array of length [n] becomes 1 chain
    of [n] draws, a 2-d array of shape [(m, n)] stays [m] chains of [n]
    draws, and an array of shape [(c, d, s1, ..., sk)] keeps [c] chains and
    [d] draws while its trailing axes are numbered from 0, as [enumerate]
    numbers them: the axis of length [sj] is named
    ['{var_name}_dim_{j-1}'] and labelled [0..sj-1]. Below, [i] is that
    number [j-1], the place of the axis among the trailing ones. *)
Theorem shape_inference ary var_name caller :
  (forall n, shape ary = [n] ->
     exists da, returns (numpy_to_data_array ary var_name caller None) da /\
       Xr.values da = reshape [1; n] ary /\ dims da = ["chain"; "draw"] /\
       coords da !! "chain" = Some (arange 1) /\ coords da !! "draw" = Some (arange n)) /\
  (forall m n, shape ary = [m; n] ->
     exists da, returns (numpy_to_data_array ary var_name caller None) da /\
       Xr.values da = ary /\ dims da = ["chain"; "draw"] /\
       coords da !! "chain" = Some (arange m) /\ coords da !! "draw" = Some (arange n)) /\
  (forall c d s rest, shape ary = c :: d :: s :: rest ->
     exists da, returns (numpy_to_data_array ary var_name caller None) da /\
       Xr.values da = ary /\
       length (dims da) = length (shape ary) /\
       dims da !! 0 = Some "chain" /\ dims da !! 1 = Some "draw" /\
       coords da !! "chain" = Some (arange c) /\ coords da !! "draw" = Some (arange d) /\
       forall i si, (s :: rest) !! i = Some si ->
         dims da !! (2 + i) = Some (var_name +:+ "_dim_" +:+ format_nat i) /\
         coords da !! (var_name +:+ "_dim_" +:+ format_nat i) = Some (arange si)).
Proof.
  destruct (numpy_default_ok ary var_name caller)
    as (da & n_chains & n_draws & trailing & Hr & Ev & Es & Ed & Ic & Id & It).
  rewrite Ev in Es. unfold inferred in Ev, Es.
  split; [|split].
  - intros n E. rewrite E in Ev, Es. simpl in Ev, Es. injection Es as <- <- <-.
    exists da. auto.
  - intros m n E. rewrite E in Ev, Es. simpl in Ev, Es. injection Es as <- <- <-.
    exists da. repeat split; auto. rewrite Ev. destruct ary as [sh b]. simpl in E.
    rewrite E. reflexivity.
  - intros c d s rest E. rewrite E in Ev, Es.
    destruct (name_trailing var_name 0 (s :: rest) default_dims ∅) as [ns cs].
    simpl in Ev, Es. rewrite E in Es. injection Es as <- <- <-.
    exists da. split; [exact Hr|]. split; [exact Ev|].
    rewrite Ed. split; [|split; [reflexivity|split; [reflexivity|]]].
    + rewrite E. simpl. rewrite length_imap. reflexivity.
    + split; [exact Ic|]. split; [exact Id|].
      intros i si Hi. split; [|apply (It i si Hi)].
      change (("chain" :: "draw" :: imap (fun i _ => dim_name var_name i) (s :: rest)) !! (2 + i))
        with (imap (fun i _ => dim_name var_name i) (s :: rest) !! i).
      rewrite list_lookup_imap, Hi. reflexivity.
Qed.

(** C9. With [dims] given, [numpy_to_data_array] returns only if [coords] is
    a dictionary with an entry for every listed name other than ['chain']
    and ['draw']. With [coords=None] it raises at [dict(coords)]. With a
    dictionary that lacks one of those names the call never returns: the
    building of the index variables raises the [KeyError] of a lacking name,
    and that is what the call raises for an array of two axes or more. For
    an array of fewer axes the call raises, with any dictionary, the
    [ValueError] of [n_chains, n_samples, *_ = ary.shape], before it looks
    at the names. *)
Theorem given_dims_need_coords ary var_name caller names :
  (forall da, returns (numpy_to_data_array ary var_name caller (Some names)) da ->
     exists c, caller = Some c /\
       forall d, d ∈ names -> d <> "chain" -> d <> "draw" -> is_Some (c !! d)) /\
  (caller = None ->
     numpy_to_data_array ary var_name caller (Some names)
       = raise (TypeError "'NoneType' object is not iterable")) /\
  (forall c d, caller = Some c -> d ∈ names -> d <> "chain" -> d <> "draw" -> c !! d = None ->
     (forall da, ~ returns (numpy_to_data_array ary var_name caller (Some names)) da) /\
     (forall n_chains n_draws,
        exists key,
          index_variables
            (setdefault_arange "draw" n_draws (setdefault_arange "chain" n_chains c))
            (user_dims names) = Raise (KeyError key) /\
          key ∈ names /\ key <> "chain" /\ key <> "draw" /\ c !! key = None) /\
     (forall n_chains n_draws rest, shape ary = n_chains :: n_draws :: rest ->
        exists key, numpy_to_data_array ary var_name caller (Some names) = raise (KeyError key) /\
          key ∈ names /\ key <> "chain" /\ key <> "draw" /\ c !! key = None)) /\
  (forall c, caller = Some c -> ndim ary < 2 ->
     numpy_to_data_array ary var_name caller (Some names)
       = raise (ValueError ("not enough values to unpack (expected at least 2, got "
                            +:+ format_nat (ndim ary) +:+ ")"))).
Proof.
  assert (Hret : forall da, returns (numpy_to_data_array ary var_name caller (Some names)) da ->
     exists c, caller = Some c /\
       forall d, d ∈ names -> d <> "chain" -> d <> "draw" -> is_Some (c !! d)).
  { intros da H. rewrite numpy_user_eq in H. destruct caller as [c|]; [|discriminate].
    exists c. split; [reflexivity|]. intros d Hd Hc Hw.
    apply label_axes_returns in H as (n_chains & n_draws & rest & _ & _ & _ & Hl).
    destruct (Hl d) as [E [x Hx]]; [apply elem_of_user_dims; auto|].
    rewrite E, !setdefault_arange_lookup in Hx.
    destruct (c !! d) eqn:Ec; [eauto|].
    destruct (decide ("chain" = d)); [congruence|].
    destruct (decide ("draw" = d)); [congruence|discriminate]. }
  split; [exact Hret|]. split; [|split].
  - intros ->. apply numpy_user_eq.
  - intros c d -> Hd Hc Hw Hn.
    assert (Hkey : forall n_chains n_draws,
      exists key,
        index_variables
          (setdefault_arange "draw" n_draws (setdefault_arange "chain" n_chains c))
          (user_dims names) = Raise (KeyError key) /\
        key ∈ names /\ key <> "chain" /\ key <> "draw" /\ c !! key = None).
    { intros n_chains n_draws.
      destruct (index_variables_missing
                  (setdefault_arange "draw" n_draws (setdefault_arange "chain" n_chains c))
                  (user_dims names)) as (key & E & Hin & Hk).
      { exists d. split; [apply elem_of_user_dims; auto|].
        rewrite !setdefault_arange_lookup, Hn.
        destruct (decide ("chain" = d)); [congruence|].
        destruct (decide ("draw" = d)); [congruence|reflexivity]. }
      exists key. split; [exact E|].
      rewrite !setdefault_arange_lookup in Hk.
      destruct (c !! key) eqn:Ec; [discriminate|].
      destruct (decide ("chain" = key)) as [|Nc]; [discriminate|].
      destruct (decide ("draw" = key)) as [|Nd]; [discriminate|].
      apply elem_of_user_dims in Hin as [->|[->|Hin]]; try congruence.
      auto. }
    split; [|split].
    + intros da H. destruct (Hret da H) as (c' & [= <-] & Hall).
      destruct (Hall d Hd Hc Hw) as [x Hx]. congruence.
    + exact Hkey.
    + intros n_chains n_draws rest Es. rewrite numpy_user_eq.
      destruct (Hkey n_chains n_draws) as (key & E & Hk).
      exists key. split; [|exact Hk].
      unfold label_axes. eff_unfold. rewrite Es. cbn [unpack_shape].
      rewrite bind_lift_ok. cbn beta iota. rewrite E. reflexivity.
  - intros c -> H. rewrite numpy_user_eq. unfold label_axes, ndim in *. eff_unfold.
    destruct (shape ary) as [|n [|m rest]]; simpl in H; try lia; reflexivity.
Qed.

Lemma chain_and_draw_come_first_witness :
  chain_draw_labelled (Some school_coords) theta_labelled /\
  (forall da, data_vars two_variables_dataset !! "theta" = Some da ->
     chain_draw_labelled None da).
Proof.
  split.
  - apply (proj1 chain_and_draw_come_first theta "theta" (Some school_coords)
             (Some ["school"]) theta_labelled).
    vm_compute. reflexivity.
  - intros da. apply (proj2 chain_and_draw_come_first two_variables None None
                        two_variables_dataset).
    vm_compute. reflexivity.
Defined.

Lemma shape_inference_witness :
  (exists da, returns (numpy_to_data_array draws_1d "x" None None) da /\
     shape (Xr.values da) = [1; 4] /\ dims da = ["chain"; "draw"]) /\
  (exists da, returns (numpy_to_data_array draws_2d "x" None None) da /\
     Xr.values da = draws_2d /\ coords da !! "chain" = Some (arange 2)) /\
  (exists da, returns (numpy_to_data_array theta "theta" None None) da /\
     dims da !! 2 = Some "theta_dim_0" /\
     coords da !! "theta_dim_0" = Some [LInt 0; LInt 1]).
Proof.
  split; [|split].
  - destruct (proj1 (shape_inference draws_1d "x" None) 4 eq_refl)
      as (da & Hr & Ev & Ed & _).
    exists da. rewrite Ev. auto.
  - destruct (proj1 (proj2 (shape_inference draws_2d "x" None)) 2 3 eq_refl)
      as (da & Hr & Ev & _ & Ic & _).
    exists da. auto.
  - destruct (proj2 (proj2 (shape_inference theta "theta" None)) 2 3 2 [] eq_refl)
      as (da & Hr & _ & _ & _ & _ & _ & _ & Ht).
    exists da. split; [exact Hr|]. exact (Ht 0 2 eq_refl).
Defined.

(** C3, as it is claimed with the trailing axes written [s1, ..., sk] and
    the axis [si] named ['{var_name}_dim_{i}']: the one trailing axis of
    [theta], of length 2, would be ['theta_dim_1']. It is ['theta_dim_0'],
    and the result has neither a dimension nor an index of the name
    ['theta_dim_1']. *)
Lemma first_trailing_axis_is_number_0 :
  shape theta = [2; 3; 2] /\
  exists da, returns (numpy_to_data_array theta "theta" None None) da /\
    dims da = ["chain"; "draw"; "theta_dim_0"] /\
    coords da !! "theta_dim_0" = Some [LInt 0; LInt 1] /\
    ~ "theta_dim_1" ∈ dims da /\ coords da !! "theta_dim_1" = None.
Proof.
  split; [reflexivity|].
  exists (result_of no_array (numpy_to_data_array theta "theta" None None)).
  split; [vm_compute; reflexivity|]. split; [reflexivity|].
  split; [vm_compute; reflexivity|]. split; [|vm_compute; reflexivity].
  intros Hin. change (dims (result_of no_array (numpy_to_data_array theta "theta" None None)))
    with ["chain"; "draw"; "theta_dim_0"] in Hin.
  repeat (apply elem_of_cons in Hin as [Hin|Hin]; [discriminate|]). inversion Hin.
Qed.

(** C9, as it is claimed for every array: on an array of one axis the call
    with a dictionary that lacks a listed name raises no [KeyError]. It
    stops earlier, at [n_chains, n_samples, *_ = ary.shape], with the
    [ValueError] of the unpacking. *)
Lemma flat_array_stops_at_its_shape :
  school_coords !! "region" = None /\
  numpy_to_data_array draws_1d "x" (Some school_coords) (Some ["region"])
    = raise (ValueError "not enough values to unpack (expected at least 2, got 1)") /\
  ~ exists key, raises (numpy_to_data_array draws_1d "x" (Some school_coords) (Some ["region"]))
                  (KeyError key).
Proof.
  assert (E : numpy_to_data_array draws_1d "x" (Some school_coords) (Some ["region"])
    = raise (ValueError "not enough values to unpack (expected at least 2, got 1)"))
    by (vm_compute; reflexivity).
  split; [reflexivity|]. split; [exact E|]. rewrite E. intros [key H]. discriminate.
Qed.

Lemma given_dims_need_coords_witness :
  numpy_to_data_array theta "theta" None (Some ["school"])
    = raise (TypeError "'NoneType' object is not iterable") /\
  (exists key, numpy_to_data_array theta "theta" (Some ∅) (Some ["school"])
                 = raise (KeyError key)) /\
  (exists c, Some school_coords = Some c /\ is_Some (c !! "school")).
Proof.
  split; [|split].
  - exact (proj1 (proj2 (given_dims_need_coords theta "theta" None ["school"])) eq_refl).
  - destruct (proj1 (proj2 (proj2 (given_dims_need_coords theta "theta" (Some ∅) ["school"])))
                ∅ "school" eq_refl) as (_ & _ & H).
    + left.
    + discriminate.
    + discriminate.
    + reflexivity.
    + destruct (H 2 3 [2] eq_refl) as (key & E & _). exists key. exact E.
  - destruct (proj1 (given_dims_need_coords theta "theta" (Some school_coords) ["school"])
                theta_labelled) as (c & E & H).
    + vm_compute. reflexivity.
    + exists c. split; [exact E|]. apply H; [left|discriminate|discriminate].
Defined.

End ArrayClaims.

(** ** The dispatch and the converters *)

Module DispatchClaims.
Import Str Np Xr Arviz XarrayUtils Props Samples EffFacts LabelFacts.

Lemma in_memory_bind {A B} (m : Run A) (k : A -> Run B) :
  in_memory m -> (forall a, in_memory (k a)) -> in_memory (Py.bind m k).
Proof.
  unfold in_memory, reads_file, Py.bind. intros Hm Hk path.
  destruct (outcome m) as [a|e]; simpl; [|apply Hm].
  rewrite elem_of_app. intros [H|H]; [exact (Hm path H)|exact (Hk a path H)].
Qed.

Lemma in_memory_nil {A} (m : Run A) : trace m = [] -> in_memory m.
Proof. unfold in_memory, reads_file. intros -> path H. inversion H. Qed.

Lemma in_memory_warn category msg : in_memory (emit (Warn category msg)).
Proof.
  intros path H. unfold reads_file in H. simpl in H.
  apply elem_of_cons in H as [H|H]; [discriminate|inversion H].
Qed.

Ltac in_memory_step :=
  first [ apply in_memory_bind; [|intros ?]
        | apply in_memory_warn
        | apply in_memory_nil; reflexivity ].

Lemma in_memory_label_axes ary c names : in_memory (label_axes ary c names).
Proof.
  unfold label_axes. eff_unfold. in_memory_step; [in_memory_step|].
  destruct a as [[n_chains n_samples] rest]. in_memory_step; in_memory_step.
Qed.

Lemma in_memory_numpy ary v caller names : in_memory (numpy_to_data_array ary v caller names).
Proof.
  unfold numpy_to_data_array. eff_unfold. in_memory_step.
  - destruct names as [names|].
    + unfold given_dims. eff_unfold. repeat in_memory_step.
    + rewrite infer_dims_eq. in_memory_step; [|in_memory_step].
      unfold chain_draw_warning. destruct (shape _) as [|a [|b r]]; try in_memory_step.
      destruct (Nat.ltb b a); in_memory_step.
  - destruct a as [[ary' c] names']. apply in_memory_label_axes.
Qed.

Lemma in_memory_data_vars_of caller dims : forall data acc,
  in_memory (data_vars_of caller dims data acc).
Proof.
  induction data as [|[key vals] data IH]; intros acc; simpl.
  - in_memory_step.
  - eff_unfold. in_memory_step; [apply in_memory_numpy|apply IH].
Qed.

Lemma in_memory_dict_to_dataset data caller dims : in_memory (dict_to_dataset data caller dims).
Proof.
  unfold dict_to_dataset. eff_unfold. in_memory_step; [apply in_memory_data_vars_of|].
  in_memory_step.
Qed.

Lemma in_memory_requires {A B} (prop : option A) (func : A -> Run B) :
  (forall a, in_memory (func a)) -> in_memory (requires prop func).
Proof.
  intros H. unfold requires. destruct prop as [a|]; [|in_memory_step].
  eff_unfold. in_memory_step; [apply H|in_memory_step].
Qed.

(** A loop that threads a dictionary through a computation. *)
Lemma in_memory_foldl {A X} (step : Run A -> X -> Run A) (l : list X) : forall (init : Run A),
  in_memory init -> (forall acc x, in_memory acc -> in_memory (step acc x)) ->
  in_memory (foldl step init l).
Proof.
  induction l as [|x l IH]; intros init Hi Hs; simpl; [exact Hi|].
  apply IH; [|exact Hs]. apply Hs. exact Hi.
Qed.

Lemma in_memory_pymc3 env self : in_memory (PyMC3Converter.to_inference_data env self).
Proof.
  unfold PyMC3Converter.to_inference_data, PyMC3Converter.posterior_to_xarray, PyMC3Converter.sample_stats_to_xarray,
    PyMC3Converter.posterior_predictive_to_xarray, PyMC3Converter.prior_to_xarray. eff_unfold.
  repeat (apply in_memory_bind;
          [apply in_memory_requires; intros ?; apply in_memory_dict_to_dataset|intros ?]).
  in_memory_step.
Qed.

Lemma in_memory_stan self : in_memory (PyStanConverter.to_inference_data self).
Proof.
  unfold PyStanConverter.to_inference_data, PyStanConverter.posterior_to_xarray, PyStanConverter.sample_stats_to_xarray.
  eff_unfold. apply in_memory_bind; [|intros ?; apply in_memory_bind; [|intros ?]].
  - apply in_memory_requires. intros fit. apply in_memory_bind;
      [|intros ?; apply in_memory_dict_to_dataset].
    apply in_memory_foldl; [in_memory_step|].
    intros acc [var_name values] Hacc. apply in_memory_bind; [exact Hacc|intros data].
    repeat in_memory_step.
  - apply in_memory_requires. intros fit. apply in_memory_bind; [in_memory_step|intros chain0].
    apply in_memory_bind; [|intros ?; apply in_memory_dict_to_dataset].
    apply in_memory_foldl; [in_memory_step|].
    intros acc [key col] Hacc. apply in_memory_bind; [exact Hacc|intros data].
    repeat in_memory_step.
  - in_memory_step.
Qed.

Lemma requires_returns {A B} (prop : option A) (func : A -> Run B) (r : option B) :
  returns (requires prop func) r -> (r = None <-> prop = None).
Proof.
  unfold requires. destruct prop as [a|].
  - eff_unfold. intros H. apply bind_returns in H as (b & _ & H). injection H as <-.
    split; discriminate.
  - intros H. injection H as <-. split; reflexivity.
Qed.

Lemma data_vars_of_default_returns caller : forall data acc,
  exists out, returns (data_vars_of caller ∅ data acc) out.
Proof.
  induction data as [|[key vals] data IH]; intros acc; simpl.
  - eexists. reflexivity.
  - rewrite lookup_empty.
    destruct (numpy_default_ok vals key caller) as (da & _ & _ & _ & Hr & _).
    destruct (IH (<[key := da]> acc)) as [out Ho].
    exists out. eff_unfold. apply bind_returns. eauto.
Qed.

(** With [dims=None] a dictionary of arrays always converts. *)
Lemma dict_to_dataset_default_returns data caller :
  exists ds, returns (dict_to_dataset data caller None) ds.
Proof.
  unfold dict_to_dataset. eff_unfold.
  destruct (data_vars_of_default_returns caller data ∅) as [out Ho].
  exists (MkDataset out). apply bind_returns. exists out. split; [exact Ho|reflexivity].
Qed.

Lemma unsupported_raises env obj group caller names :
  ~ supported obj ->
  convert_to_inference_data env obj group caller names = raise (cannot_convert obj).
Proof.
  destruct obj; simpl; try (intros H; exfalso; apply H; exact I).
  intros H. unfold convert_to_inference_data. simpl.
  rewrite !bool_decide_eq_false_2 by (intros E; apply H; auto).
  reflexivity.
Qed.

(** C1, as the code has it. An object of no supported kind makes
    [convert_to_inference_data] raise [ValueError], so that an
    [InferenceData] is returned only for the supported kinds. For those the
    call is the conversion of the kind: an [InferenceData] comes back as it
    is, a dataset is wrapped under the group, a dictionary of arrays or an
    array always converts when [dims] is [None], and a path, a fit or a
    trace gives what loading it or its converter gives, be it an error. *)
Theorem conversion_by_kind env obj group caller names :
  (~ supported obj ->
     convert_to_inference_data env obj group caller names = raise (cannot_convert obj)) /\
  (forall idata, returns (convert_to_inference_data env obj group caller names) idata ->
     supported obj) /\
  (forall idata, obj = PInferenceData idata ->
     convert_to_inference_data env obj group caller names = Py.pure idata) /\
  (forall ds, obj = PDataset ds ->
     convert_to_inference_data env obj group caller names
       = Py.pure (MkInferenceData {[ group := Some ds ]})) /\
  (forall d, obj = PDict d -> names = None ->
     exists idata, returns (convert_to_inference_data env obj group caller names) idata) /\
  (forall ary, obj = PNdarray ary -> names = None ->
     exists idata, returns (convert_to_inference_data env obj group caller names) idata) /\
  (forall path, obj = PStr path ->
     outcome (convert_to_inference_data env obj group caller names) = disk env path) /\
  (forall fit, obj = PStanFit fit ->
     convert_to_inference_data env obj group caller names
       = pystan_to_inference_data (Some fit) caller names) /\
  (forall tr, obj = PMultiTrace tr ->
     convert_to_inference_data env obj group caller names
       = pymc3_to_inference_data env (Some tr) None None caller names).
Proof.
  split; [apply unsupported_raises|].
  split.
  { intros idata H. destruct obj; simpl; auto.
    destruct (decide (class_name0 = "StanFit4Model")) as [|N1]; [auto|].
    destruct (decide (class_name0 = "MultiTrace")) as [|N2]; [auto|].
    rewrite unsupported_raises in H; [discriminate|]. simpl. tauto. }
  split; [intros idata ->; reflexivity|].
  split; [intros ds ->; reflexivity|].
  split.
  { intros d -> ->. destruct (dict_to_dataset_default_returns d caller) as [ds Hd].
    exists (MkInferenceData {[ group := Some ds ]}).
    unfold convert_to_inference_data. simpl. eff_unfold.
    apply bind_returns. exists ds. split; [exact Hd|reflexivity]. }
  split.
  { intros ary -> ->.
    destruct (dict_to_dataset_default_returns [("x", ary)] caller) as [ds Hd].
    exists (MkInferenceData {[ group := Some ds ]}).
    unfold convert_to_inference_data. simpl. eff_unfold.
    apply bind_returns. exists ds. split; [exact Hd|reflexivity]. }
  split; [intros path ->; reflexivity|].
  split.
  { intros fit ->. unfold convert_to_inference_data. cbn [class_name].
    rewrite bool_decide_eq_true_2 by reflexivity. cbn [as_fit]. eff_unfold.
    rewrite bind_lift_ok. reflexivity. }
  { intros tr ->. unfold convert_to_inference_data. cbn [class_name].
    rewrite bool_decide_eq_false_2 by discriminate.
    rewrite bool_decide_eq_true_2 by reflexivity. cbn [as_trace]. eff_unfold.
    rewrite bind_lift_ok. reflexivity. }
Qed.

(** C1, as it is claimed, fails. An array is of a supported kind, and with
    [dims] given and [coords=None] its conversion raises [TypeError], so
    that no [InferenceData] is returned for it. And an object of some other
    class that happens to be called [MultiTrace] is passed on as a trace: the
    call raises [AttributeError], not [ValueError]. *)
Lemma supported_kind_can_raise :
  (supported (PNdarray theta) /\
   convert_to_inference_data offline (PNdarray theta) "posterior" None (Some school_dims)
     = raise (TypeError "'NoneType' object is not iterable") /\
   ~ exists idata,
       returns (convert_to_inference_data offline (PNdarray theta) "posterior" None
                  (Some school_dims)) idata) /\
  (convert_to_inference_data offline (POther "MultiTrace") "posterior" None None
     = raise (AttributeError "'MultiTrace' object has no attribute 'varnames'") /\
   ~ exists msg,
       raises (convert_to_inference_data offline (POther "MultiTrace") "posterior" None None)
              (ValueError msg)).
Proof.
  split.
  - split; [exact I|].
    assert (E : convert_to_inference_data offline (PNdarray theta) "posterior" None
                  (Some school_dims) = raise (TypeError "'NoneType' object is not iterable")).
    { vm_compute. reflexivity. }
    split; [exact E|]. rewrite E. intros [idata H]. discriminate.
  - assert (E : convert_to_inference_data offline (POther "MultiTrace") "posterior" None None
                  = raise (AttributeError "'MultiTrace' object has no attribute 'varnames'")).
    { vm_compute. reflexivity. }
    split; [exact E|]. rewrite E. intros [msg H]. discriminate.
Qed.

Lemma conversion_by_kind_witness :
  convert_to_inference_data offline (POther "list") "posterior" None None
    = raise (ValueError
        "Can only convert xarray dataset, dict, netcdf file, numpy array, pystan fit, pymc3 trace to InferenceData, not list") /\
  (exists idata, returns (convert_to_inference_data offline (PNdarray theta) "posterior"
                            None None) idata) /\
  outcome (convert_to_inference_data offline (PStr "trace.nc") "posterior" None None)
    = Raise (OSError "No such file or directory").
Proof.
  split; [|split].
  - apply (proj1 (conversion_by_kind offline (POther "list") "posterior" None None)).
    intros [H|H]; discriminate.
  - apply (proj1 (proj2 (proj2 (proj2 (proj2 (proj2
        (conversion_by_kind offline (PNdarray theta) "posterior" None None)))))) theta);
      reflexivity.
  - apply (proj1 (proj2 (proj2 (proj2 (proj2 (proj2 (proj2
        (conversion_by_kind offline (PStr "trace.nc") "posterior" None None)))))))
        "trace.nc").
    reflexivity.
Defined.

(** C5, as the code has it: [convert_to_inference_data] reads a file from
    disk exactly when its argument is a string, and then the file of that
    name; for every other argument it stays in memory. *)
Theorem only_a_path_is_read_from_disk env obj group caller names path :
  reads_file (convert_to_inference_data env obj group caller names) path <-> obj = PStr path.
Proof.
  assert (Hmem : forall m : Run InferenceData, in_memory m ->
            (forall s, obj <> PStr s) -> reads_file m path <-> obj = PStr path).
  { intros m Hm Hs. split; [intros H; destruct (Hm path H)|intros ->; destruct (Hs path eq_refl)]. }
  unfold convert_to_inference_data.
  destruct obj; try (apply Hmem; [|discriminate]).
  - in_memory_step.
  - unfold from_netcdf, reads_file. eff_unfold. simpl.
    rewrite elem_of_cons, elem_of_nil. split.
    + intros [H|[]]. congruence.
    + intros [= ->]. auto.
  - cbn [class_name]. rewrite bool_decide_eq_true_2 by reflexivity. cbn [as_fit]. eff_unfold.
    rewrite bind_lift_ok. unfold pystan_to_inference_data. eff_unfold.
    in_memory_step; [in_memory_step|apply in_memory_stan].
  - cbn [class_name]. rewrite bool_decide_eq_false_2 by discriminate.
    rewrite bool_decide_eq_true_2 by reflexivity. cbn [as_trace]. eff_unfold.
    rewrite bind_lift_ok. apply in_memory_pymc3.
  - simpl. repeat in_memory_step.
  - simpl. eff_unfold. in_memory_step; [apply in_memory_dict_to_dataset|in_memory_step].
  - simpl. eff_unfold. in_memory_step; [apply in_memory_dict_to_dataset|in_memory_step].
  - cbn [class_name as_fit as_trace]. eff_unfold.
    destruct (bool_decide _); [|destruct (bool_decide _)];
      rewrite ?bind_lift_raise, ?bind_raise; in_memory_step.
Qed.

Lemma only_a_path_is_read_from_disk_witness :
  reads_file (convert_to_inference_data offline (PStr "trace.nc") "posterior" None None)
    "trace.nc" /\
  ~ reads_file (convert_to_inference_data offline (PNdarray theta) "posterior" None None)
      "trace.nc".
Proof.
  split.
  - apply (proj2 (only_a_path_is_read_from_disk offline (PStr "trace.nc") "posterior"
                    None None "trace.nc")).
    reflexivity.
  - intros H.
    apply (proj1 (only_a_path_is_read_from_disk offline (PNdarray theta) "posterior"
                    None None "trace.nc")) in H.
    discriminate.
Defined.

(** C5, as it is claimed, fails: for a string the call loads the netcdf
    file of that name from disk. *)
Lemma a_path_is_read_from_disk :
  reads_file (convert_to_inference_data offline (PStr "trace.nc") "posterior" None None)
    "trace.nc" /\
  ~ in_memory (convert_to_inference_data offline (PStr "trace.nc") "posterior" None None).
Proof.
  assert (H : reads_file
    (convert_to_inference_data offline (PStr "trace.nc") "posterior" None None) "trace.nc").
  { unfold reads_file. simpl. left. }
  split; [exact H|]. intros Hm. exact (Hm "trace.nc" H).
Qed.

(** C8. [convert_to_inference_data] gives an [InferenceData] back as it is,
    and [convert_to_dataset] gives an [xarray.Dataset] back as it is, through
    the group it was asked for. *)
Theorem conversion_is_idempotent env group caller names :
  (forall idata,
     convert_to_inference_data env (PInferenceData idata) group caller names = Py.pure idata) /\
  (forall ds,
     convert_to_inference_data env (PDataset ds) group caller names
       = Py.pure (MkInferenceData {[ group := Some ds ]}) /\
     getattr_group (MkInferenceData {[ group := Some ds ]}) group = Some ds /\
     convert_to_dataset env (PDataset ds) group caller names = Py.pure ds).
Proof.
  split; [reflexivity|]. intros ds.
  assert (G : getattr_group (MkInferenceData {[ group := Some ds ]}) group = Some ds).
  { unfold getattr_group. simpl. rewrite lookup_singleton_eq. reflexivity. }
  split; [reflexivity|]. split; [exact G|].
  unfold convert_to_dataset. eff_unfold.
  change (convert_to_inference_data env (PDataset ds) group caller names)
    with (Py.pure (E:=effect) (MkInferenceData {[ group := Some ds ]})).
  rewrite bind_pure, G. reflexivity.
Qed.

Lemma requires_some_returns {A B} (a : A) (func : A -> Run B) (r : option B) :
  returns (requires (Some a) func) r -> exists b, r = Some b.
Proof.
  unfold requires. eff_unfold. intros H. apply bind_returns in H as (b & _ & H).
  injection H as <-. eauto.
Qed.

(** C6. An [InferenceData] that a framework converter produces is built from
    named groups out of posterior, prior, posterior_predictive and
    sample_stats: the PyMC3 converter passes all four, each [None] exactly
    when the attribute it is made from is [None], and the PyStan converter
    passes posterior and sample_stats, both datasets, and nothing else. *)
Theorem converters_fill_named_groups :
  (forall env self idata,
     returns (PyMC3Converter.to_inference_data env self) idata ->
     dom (groups idata)
       = ({[ "posterior"; "sample_stats"; "posterior_predictive"; "prior" ]} : gset string) /\
     (group_is_none idata "posterior" <-> PyMC3Converter.trace self = None) /\
     (group_is_none idata "sample_stats" <-> PyMC3Converter.trace self = None) /\
     (group_is_none idata "posterior_predictive" <-> PyMC3Converter.posterior_predictive self = None) /\
     (group_is_none idata "prior" <-> PyMC3Converter.prior self = None)) /\
  (forall fit caller names idata,
     returns (pystan_to_inference_data (Some fit) caller names) idata ->
     dom (groups idata) = ({[ "posterior"; "sample_stats" ]} : gset string) /\
     group_is_dataset idata "posterior" /\ group_is_dataset idata "sample_stats").
Proof.
  split.
  - intros env self idata H. unfold PyMC3Converter.to_inference_data in H. eff_unfold.
    apply bind_returns in H as (posterior & Hp & H).
    apply bind_returns in H as (sample_stats & Hs & H).
    apply bind_returns in H as (posterior_predictive & Hpp & H).
    apply bind_returns in H as (prior & Hpr & H).
    injection H as <-. unfold group_is_none. cbn [groups].
    split; [rewrite !dom_insert_L, dom_empty_L; set_solver|].
    apply requires_returns in Hp, Hs, Hpp, Hpr.
    assert (Hopt : forall (x : option Dataset) (P : Prop),
              (x = None <-> P) -> (Some x = Some None <-> P)).
    { intros x P HxP. rewrite <- HxP. split; [intros [= ->]; reflexivity|intros ->; reflexivity]. }
    repeat split; simplify_map_eq; apply Hopt; assumption.
  - intros fit caller names idata H. unfold pystan_to_inference_data in H. eff_unfold.
    cbn [PyStanConverter.__init__] in H. rewrite bind_lift_ok in H.
    unfold PyStanConverter.to_inference_data in H. eff_unfold.
    apply bind_returns in H as (posterior & Hp & H).
    apply bind_returns in H as (sample_stats & Hs & H).
    injection H as <-. unfold group_is_dataset. cbn [groups].
    split; [rewrite !dom_insert_L, dom_empty_L; set_solver|].
    apply requires_some_returns in Hp as [p ->].
    apply requires_some_returns in Hs as [q ->].
    split; eexists; simplify_map_eq; reflexivity.
Qed.

Lemma converters_fill_named_groups_witness :
  (group_is_none small_trace_idata "prior" <-> (None : option (dict ndarray)) = None) /\
  group_is_dataset small_fit_idata "sample_stats".
Proof.
  split.
  - apply (proj1 converters_fill_named_groups offline
             (PyMC3Converter.Make (Some small_trace) None None None None) small_trace_idata).
    vm_compute. reflexivity.
  - apply (proj2 converters_fill_named_groups small_fit None None small_fit_idata).
    vm_compute. reflexivity.
Defined.

Lemma conversion_is_idempotent_witness :
  convert_to_inference_data offline (PInferenceData small_fit_idata) "posterior" None None
    = Py.pure small_fit_idata /\
  convert_to_dataset offline (PDataset two_variables_dataset) "prior" None None
    = Py.pure two_variables_dataset.
Proof.
  split.
  - exact (proj1 (conversion_is_idempotent offline "posterior" None None) small_fit_idata).
  - exact (proj2 (proj2 (proj2 (conversion_is_idempotent offline "prior" None None)
                           two_variables_dataset))).
Defined.

End DispatchClaims.

(** ** The posterior plot artist *)

Module PlotClaims.
Import Str Np Props Samples EffFacts PosteriorPlot.

(** [a + b] in int64 is the sum as long as the sum is an int64. *)
Lemma int64_add_exact (a b : Z) :
  (- 2 ^ 63 <= a + b < 2 ^ 63)%Z -> int64_add a b = (a + b)%Z.
Proof.
  intros H. unfold int64_add, int64_wrap.
  rewrite Z.mod_small by lia. lia.
Qed.

Lemma kde_selected_dec a :
  bool_decide (kind a = "kde") && bool_decide (dtype_kind (values a) = "f"%char) = true
  <-> kde_selected a.
Proof.
  unfold kde_selected. rewrite andb_true_iff, !bool_decide_eq_true. reflexivity.
Qed.

(** The five ways the [if kind == 'kde' ...] statement can go. *)
Lemma draw_density_cases a :
  (kde_selected a /\
   draw_density a = emit (KdePlot (values a) (default "0" (dict_get "fill_alpha" (kwargs a)))))
  \/ (~ kde_selected a /\ exists b, bins a = Some b /\
      draw_density a = MkEff [Hist (values a) b (hist_kwargs a)] (hist_answer a b))
  \/ (~ kde_selected a /\ bins a = None /\ dtype_kind (values a) <> "i"%char /\
      draw_density a = MkEff [Hist (values a) (BinsName "auto") (hist_kwargs a)]
                             (hist_answer a (BinsName "auto")))
  \/ (~ kde_selected a /\ bins a = None /\ dtype_kind (values a) = "i"%char /\
      exists xmin xmax,
        int_min (ints (values a)) = Ok xmin /\ int_max (ints (values a)) = Ok xmax /\
        draw_density a =
          MkEff [SetXlim xmin xmax;
                 Hist (values a) (BinsRange xmin (int64_add xmax 2)) (hist_kwargs a)]
                (hist_answer a (BinsRange xmin (int64_add xmax 2))))
  \/ (~ kde_selected a /\ bins a = None /\ dtype_kind (values a) = "i"%char /\
      ints (values a) = [] /\ exists msg, draw_density a = raise (ValueError msg)).
Proof.
  unfold draw_density, hist_answer, hist_kwargs.
  destruct (bool_decide (kind a = "kde") && bool_decide (dtype_kind (values a) = "f"%char))
    eqn:Ek.
  - left. apply kde_selected_dec in Ek. auto.
  - right. assert (Hn : ~ kde_selected a).
    { intros H. apply kde_selected_dec in H. congruence. }
    eff_unfold. destruct (bins a) as [b|].
    + left. split; [exact Hn|]. exists b. split; [reflexivity|].
      rewrite bind_pure. reflexivity.
    + right. destruct (bool_decide (dtype_kind (values a) = "i"%char)) eqn:Ei.
      * apply bool_decide_eq_true in Ei. right.
        destruct (ints (values a)) as [|z l] eqn:El.
        -- right. split; [exact Hn|]. split; [reflexivity|]. split; [exact Ei|].
           split; [reflexivity|]. simpl. eexists. reflexivity.
        -- left. split; [exact Hn|]. split; [reflexivity|]. split; [exact Ei|].
           exists (foldl Z.min z l), (foldl Z.max z l).
           split; [reflexivity|]. split; reflexivity.
      * apply bool_decide_eq_false in Ei. left.
        split; [exact Hn|]. split; [reflexivity|]. split; [exact Ei|].
        rewrite bind_pure. reflexivity.
Qed.

Lemma annotates_bind {A B} (m : Plot A) (k : A -> Plot B) :
  annotates m -> (forall a, annotates (k a)) -> annotates (Py.bind m k).
Proof.
  unfold annotates, Py.bind. intros Hm Hk.
  destruct (outcome m) as [a|e]; simpl; [|exact Hm].
  apply Forall_app. split; [exact Hm|apply Hk].
Qed.

Lemma annotates_nil {A} (m : Plot A) : trace m = [] -> annotates m.
Proof. unfold annotates. intros ->. constructor. Qed.

Lemma annotates_emit (d : draw) : annotation d -> annotates (emit d).
Proof. intros H. unfold annotates. simpl. repeat constructor. exact H. Qed.

Ltac annotates_step :=
  first [ apply annotates_bind; [|intros ?]
        | apply annotates_emit; exact I
        | apply annotates_nil; reflexivity ].

Lemma annotates_display_hpd a : annotates (display_hpd a).
Proof. unfold display_hpd. eff_unfold. repeat annotates_step. Qed.

Lemma annotates_display_point_estimate a : annotates (display_point_estimate a).
Proof.
  unfold display_point_estimate. eff_unfold.
  destruct (point_estimate a) as [pe|]; [|annotates_step].
  destruct (bool_decide (pe = EmptyString)); [annotates_step|].
  destruct (negb _); [annotates_step|].
  annotates_step; [|annotates_step].
  destruct (bool_decide (pe = "mean")); [annotates_step|].
  destruct (bool_decide (pe = "mode")); repeat annotates_step.
Qed.

Lemma annotates_display_ref_val a : annotates (display_ref_val a).
Proof.
  unfold display_ref_val. eff_unfold.
  destruct (ref_val a) as [r|]; [|annotates_step].
  annotates_step; [|repeat annotates_step].
  destruct r as [d|v|]; try annotates_step.
  destruct (first_match _ _ _); repeat annotates_step.
Qed.

Lemma annotates_display_rope a : annotates (display_rope a).
Proof.
  unfold display_rope. eff_unfold.
  destruct (rope a) as [r|]; [|annotates_step].
  annotates_step.
  - destruct r as [d|vals].
    + destruct (first_match _ _ _); repeat annotates_step.
    + destruct (Nat.eqb _ _); annotates_step.
  - destruct a0 as [vals|]; repeat annotates_step.
Qed.

(** The artist in two parts: the density or histogram, then the annotations. *)
Lemma plot_trace_split a :
  exists tail, trace (_plot_posterior_op a) = trace (draw_density a) ++ tail /\
               Forall annotation tail.
Proof.
  unfold _plot_posterior_op. eff_unfold.
  set (k := fun _ : unit => Py.bind format_axes _).
  unfold Py.bind at 1. destruct (outcome (draw_density a)) as [u|e]; simpl.
  - exists (trace (k u)). split; [reflexivity|].
    unfold k, format_axes. eff_unfold.
    apply annotates_bind; [annotates_step|intros _].
    apply annotates_bind; [apply annotates_display_hpd|intros _].
    apply annotates_bind; [apply annotates_display_point_estimate|intros _].
    apply annotates_bind; [|intros _].
    + destruct (ref_val a); [apply annotates_display_ref_val|annotates_step].
    + destruct (rope a); [apply annotates_display_rope|annotates_step].
  - exists []. rewrite app_nil_r. split; [reflexivity|constructor].
Qed.

Lemma annotation_not_kde tail : Forall annotation tail -> ~ draws_kde tail.
Proof.
  intros H (v & f & Hin). rewrite Forall_forall in H. exact (H _ Hin).
Qed.

Lemma annotation_not_hist tail : Forall annotation tail -> ~ draws_hist tail.
Proof.
  intros H (v & b & kw & Hin). rewrite Forall_forall in H. exact (H _ Hin).
Qed.

(** C7. In what the artist draws for a variable, a kernel density curve
    occurs exactly when [kind == 'kde'] and the dtype of the values is a
    floating-point one ([dtype.kind == 'f']), and then no histogram does. In
    every other case [ax.hist] is called on the values, unless the values are
    signed integers, [bins] is [None] and there is no value at all: then
    [values.min()] raises [ValueError] and nothing is drawn. The histogram
    has the [bins] given, or for [bins=None] the bins ['auto'], except for
    values of a signed integer dtype ([dtype.kind == 'i']), where the bins
    are [range(xmin, xmax + 2)] for the minimum [xmin] and maximum [xmax] of
    the values; an unsigned integer dtype gets ['auto']. The statement ends
    as the call of [ax.hist] does, which raises on a keyword it does not
    know. *)
Theorem density_or_histogram (a : args) :
  (draws_kde (trace (_plot_posterior_op a)) <-> kde_selected a) /\
  (kde_selected a -> ~ draws_hist (trace (_plot_posterior_op a))) /\
  (~ kde_selected a ->
     (forall given, bins a = Some given ->
        Hist (values a) given (hist_kwargs a) ∈ trace (_plot_posterior_op a)) /\
     (bins a = None -> dtype_kind (values a) <> "i"%char ->
        Hist (values a) (BinsName "auto") (hist_kwargs a) ∈ trace (_plot_posterior_op a)) /\
     (bins a = None -> dtype_kind (values a) = "i"%char ->
        forall xmin xmax,
          int_min (ints (values a)) = Ok xmin -> int_max (ints (values a)) = Ok xmax ->
          Hist (values a) (BinsRange xmin (int64_add xmax 2)) (hist_kwargs a)
            ∈ trace (_plot_posterior_op a))) /\
  (~ kde_selected a ->
     (draws_hist (trace (_plot_posterior_op a)) <-> ~ no_minimum a) /\
     (no_minimum a ->
        trace (_plot_posterior_op a) = [] /\
        exists msg, raises (_plot_posterior_op a) (ValueError msg)) /\
     (forall b, Hist (values a) b (hist_kwargs a) ∈ trace (draw_density a) ->
        outcome (draw_density a) = hist_answer a b) /\
     (forall e, raises (draw_density a) e -> raises (_plot_posterior_op a) e)).
Proof.
  assert (Hstop : forall e, raises (draw_density a) e -> raises (_plot_posterior_op a) e).
  { intros e He. unfold _plot_posterior_op. eff_unfold. unfold raises, Py.bind at 1.
    unfold raises in He. rewrite He. reflexivity. }
  assert (Hnone : forall e, draw_density a = raise e -> trace (_plot_posterior_op a) = []).
  { intros e He. unfold _plot_posterior_op. eff_unfold. unfold Py.bind at 1.
    rewrite He. reflexivity. }
  destruct (plot_trace_split a) as (tail & Et & Htail).
  pose proof (annotation_not_kde _ Htail) as Nk.
  pose proof (annotation_not_hist _ Htail) as Nh.
  unfold no_minimum.
  destruct (draw_density_cases a)
    as [[Hk E]|[[Hn (b & Eb & E)]|[(Hn & Eb & Ei & E)|[(Hn & Eb & Ei & xmin & xmax & Emin & Emax & E)
       |(Hn & Eb & Ei & El & msg & E)]]]].
  - rewrite Et, E; simpl. split; [|split; [|split]]; try tauto.
    + split; [auto|]. intros _. eexists _, _. left.
    + intros _ (v & b & kw & Hin). apply elem_of_cons in Hin as [Hin|Hin]; [discriminate|].
      apply Nh. eexists _, _, _. exact Hin.
  - split; [|split; [|split]]; try tauto.
    + rewrite Et, E; simpl. split; [|tauto]. intros (v & f & Hin).
      apply elem_of_cons in Hin as [Hin|Hin]; [discriminate|].
      exfalso. apply Nk. eexists _, _. exact Hin.
    + rewrite Et, E; simpl. intros _. split; [|split]; try congruence.
      intros given Eg. rewrite Eb in Eg. injection Eg as <-. left.
    + intros _. split; [|split; [|split]].
      * rewrite Et, E; simpl. split; [intros _ (Eb' & _); congruence|].
        intros _. eexists _, _, _. left.
      * intros (Eb' & _). congruence.
      * rewrite E; simpl. intros b' Hin.
        apply list_elem_of_singleton in Hin. injection Hin as <-. reflexivity.
      * exact Hstop.
  - split; [|split; [|split]]; try tauto.
    + rewrite Et, E; simpl. split; [|tauto]. intros (v & f & Hin).
      apply elem_of_cons in Hin as [Hin|Hin]; [discriminate|].
      exfalso. apply Nk. eexists _, _. exact Hin.
    + rewrite Et, E; simpl. intros _. split; [|split]; try congruence; try contradiction.
      intros _ _. left.
    + intros _. split; [|split; [|split]].
      * rewrite Et, E; simpl. split; [intros _ (_ & Ei' & _); contradiction|].
        intros _. eexists _, _, _. left.
      * intros (_ & Ei' & _). contradiction.
      * rewrite E; simpl. intros b' Hin.
        apply list_elem_of_singleton in Hin. injection Hin as <-. reflexivity.
      * exact Hstop.
  - split; [|split; [|split]]; try tauto.
    + rewrite Et, E; simpl. split; [|tauto]. intros (v & f & Hin).
      apply elem_of_cons in Hin as [Hin|Hin]; [discriminate|].
      apply elem_of_cons in Hin as [Hin|Hin]; [discriminate|].
      exfalso. apply Nk. eexists _, _. exact Hin.
    + rewrite Et, E; simpl. intros _. split; [|split]; try congruence; try contradiction.
      intros _ _ xmin' xmax' Emin' Emax'.
      rewrite Emin in Emin'. rewrite Emax in Emax'.
      injection Emin' as <-. injection Emax' as <-. right. left.
    + intros _. split; [|split; [|split]].
      * rewrite Et, E; simpl. split.
        -- intros _ (_ & _ & El). rewrite El in Emin. discriminate.
        -- intros _. eexists _, _, _. right. left.
      * intros (_ & _ & El). rewrite El in Emin. discriminate.
      * rewrite E; simpl. intros b' Hin.
        apply elem_of_cons in Hin as [Hin|Hin]; [discriminate|].
        apply list_elem_of_singleton in Hin. injection Hin as <-. reflexivity.
      * exact Hstop.
  - split; [|split; [|split]]; try tauto.
    + rewrite (Hnone _ E). split; [|tauto]. intros (v & f & Hin). inversion Hin.
    + intros _. split; [|split]; try congruence; try contradiction.
      intros _ _ xmin xmax Emin. rewrite El in Emin. discriminate.
    + intros _. split; [|split; [|split]].
      * rewrite (Hnone _ E). split; [|tauto]. intros (v & b & kw & Hin). inversion Hin.
      * intros _. split; [exact (Hnone _ E)|]. exists msg. apply Hstop. rewrite E. reflexivity.
      * rewrite E; simpl. intros b' Hin. inversion Hin.
      * exact Hstop.
Qed.

Lemma density_or_histogram_witness :
  draws_kde (trace (_plot_posterior_op (plot_args theta_draws "kde" "mean"))) /\
  Hist counts (BinsRange 1 8) [("align", "left"); ("color", "C0")]
    ∈ trace (_plot_posterior_op (plot_args counts "kde" "mean")) /\
  raises (_plot_posterior_op filled_args) (AttributeError "Unknown property fill_alpha").
Proof.
  split; [|split].
  - apply (proj1 (density_or_histogram (plot_args theta_draws "kde" "mean"))).
    split; reflexivity.
  - assert (Hn : ~ kde_selected (plot_args counts "kde" "mean")).
    { intros [_ Hf]. discriminate. }
    exact (proj2 (proj2 (proj1 (proj2 (proj2 (density_or_histogram
             (plot_args counts "kde" "mean")))) Hn)) eq_refl eq_refl 1%Z 6%Z eq_refl eq_refl).
  - assert (Hn : ~ kde_selected filled_args).
    { intros [Hk _]. discriminate. }
    apply (proj2 (proj2 (proj2 (proj2 (proj2 (proj2 (density_or_histogram filled_args))) Hn)))).
    unfold raises.
    rewrite (proj1 (proj2 (proj2 (proj2 (proj2 (proj2 (density_or_histogram filled_args))) Hn)))
               (BinsName "auto")); [reflexivity|].
    vm_compute. left.
Defined.

(** C7, as it is claimed for every array of an integer dtype: an integer
    array without values gets no histogram at all, the artist raises
    [ValueError] at [values.min()] before it draws anything; and an array of
    unsigned integers ([dtype.kind == 'u']) gets the bins ['auto'], not a
    range over its minimum and maximum. *)
Lemma integer_values_without_range_bins :
  (~ kde_selected (plot_args no_counts "hist" "mean") /\
   dtype_kind no_counts = "i"%char /\
   trace (_plot_posterior_op (plot_args no_counts "hist" "mean")) = [] /\
   ~ draws_hist (trace (_plot_posterior_op (plot_args no_counts "hist" "mean"))) /\
   raises (_plot_posterior_op (plot_args no_counts "hist" "mean"))
     (ValueError "zero-size array to reduction operation minimum which has no identity")) /\
  (dtype_kind unsigned_counts = "u"%char /\
   trace (_plot_posterior_op (plot_args unsigned_counts "hist" "mean"))
     = [Hist unsigned_counts (BinsName "auto") [("align", "left"); ("color", "C0")];
        FormatAxes; HpdLine; HpdText; HpdText; HpdText; PointEstimateText "mean" Mean] /\
   ~ exists start stop kw,
       Hist unsigned_counts (BinsRange start stop) kw
         ∈ trace (_plot_posterior_op (plot_args unsigned_counts "hist" "mean"))).
Proof.
  split.
  - assert (E : trace (_plot_posterior_op (plot_args no_counts "hist" "mean")) = [])
      by reflexivity.
    split; [intros [Hk _]; discriminate|]. split; [reflexivity|]. split; [exact E|].
    split; [|reflexivity]. rewrite E. intros (v & b & kw & Hin). inversion Hin.
  - assert (E : trace (_plot_posterior_op (plot_args unsigned_counts "hist" "mean"))
      = [Hist unsigned_counts (BinsName "auto") [("align", "left"); ("color", "C0")];
         FormatAxes; HpdLine; HpdText; HpdText; HpdText; PointEstimateText "mean" Mean])
      by reflexivity.
    split; [reflexivity|]. split; [exact E|]. rewrite E.
    intros (start & stop & kw & Hin).
    repeat (apply elem_of_cons in Hin as [Hin|Hin]; [discriminate|]).
    inversion Hin.
Qed.






End PlotClaims.

(** ** Facts about texts *)

Module TextFacts.
Import Str.

Lemma contains_append c (a b : string) : contains c (a +:+ b) = contains c a || contains c b.
Proof.
  induction a as [|x a IH]; simpl; [reflexivity|]. rewrite IH. apply orb_assoc.
Qed.

Lemma contains_before c s : contains c (before c s) = false.
Proof.
  induction s as [|x s IH]; simpl; [reflexivity|].
  destruct (bool_decide (x = c)) eqn:E; simpl; [reflexivity|]. rewrite E, IH. reflexivity.
Qed.

Lemma contains_join c sep parts :
  contains c sep = false -> Forall (fun p => contains c p = false) parts ->
  contains c (join sep parts) = false.
Proof.
  intros Hs. induction 1 as [|p parts Hp Hparts IH]; simpl; [reflexivity|].
  destruct parts as [|q parts]; [exact Hp|].
  rewrite !contains_append, Hp, Hs, IH. reflexivity.
Qed.


End TextFacts.

(** ** The dtypes read off the Stan program *)

Module StanClaims.
Import Str Np Xr Arviz XarrayUtils Props Samples.

Lemma str_app_cons c (a b : string) : String c a +:+ b = String c (a +:+ b).
Proof. reflexivity. Qed.



Lemma str_length_app (a b : string) : String.length (a +:+ b) = String.length a + String.length b.
Proof. induction a as [|x a IH]; [reflexivity|]. rewrite str_app_cons. simpl. rewrite IH. reflexivity. Qed.
















(** The text helpers on small inputs. *)
Example splitlines_example :
  splitlines ("a" +:+ String CR (String LF "b") +:+ String LF (String LF "c")
              +:+ String LF EmptyString)
    = ["a"; "b"; EmptyString; "c"].
Proof. reflexivity. Qed.

Example split_example : split "ab" "xabyabab" = ["x"; "y"; EmptyString; EmptyString].
Proof. reflexivity. Qed.

Example remove_comments_example :
  Re.sub PyStanConverter.pattern_remove_comments EmptyString
    ("int a; // int b;" +:+ String LF "/* int c; */ int d; 'int e;'")
    = "int a; " +:+ String LF " int d; ".
Proof. vm_compute. reflexivity. Qed.

Example pattern_int_example :
  Re.findall PyStanConverter.pattern_int "int<lower=0> y_rep[N]; INT k = 3; real mu; print(mu);"
    = ["y_rep"; "k"; "(mu)"].
Proof. vm_compute. reflexivity. Qed.

Example rename_example :
  Re.sub (Re.Seq (Re.lit "__") (Re.Eol false)) EmptyString "chain_id__" = "chain_id".
Proof. vm_compute. reflexivity. Qed.




















End StanClaims.

(** ** Laws of the effect monad *)

Module EffLaws.
Import EffFacts.

Lemma bind_assoc {E A B C} (m : Eff E A) (k : A -> Eff E B) (h : B -> Eff E C) :
  Py.bind (Py.bind m k) h = Py.bind m (fun a => Py.bind (k a) h).
Proof.
  unfold Py.bind. destruct (outcome m) as [a|e]; simpl; [|reflexivity].
  destruct (outcome (k a)) as [b|e]; simpl; [|reflexivity].
  rewrite app_assoc. reflexivity.
Qed.

Lemma bind_ext {E A B} (m : Eff E A) (k k' : A -> Eff E B) :
  (forall a, k a = k' a) -> Py.bind m k = Py.bind m k'.
Proof. intros H. unfold Py.bind. destruct (outcome m) as [a|e]; [rewrite H|]; reflexivity. Qed.

Lemma bind_pure_r {E A} (m : Eff E A) : Py.bind m Py.pure = m.
Proof.
  unfold Py.bind. destruct m as [tr [a|e]]; simpl; [rewrite app_nil_r|]; reflexivity.
Qed.

Lemma trace_bind {E A B} (m : Eff E A) (k : A -> Eff E B) :
  trace (Py.bind m k) =
  trace m ++ match outcome m with Ok a => trace (k a) | Raise _ => [] end.
Proof. unfold Py.bind. destruct (outcome m); simpl; [|rewrite app_nil_r]; reflexivity. Qed.

End EffLaws.

(** ** Dictionaries in insertion order *)

Module DictFacts.
Import ConverterProps.

Lemma dict_get_set {A} (k k' : string) (v : A) (d : dict A) :
  dict_get k' (dict_set k v d) = if decide (k = k') then Some v else dict_get k' d.
Proof.
  induction d as [|[k0 w] d IH]; simpl.
  - destruct (decide (k = k')) as [->|N].
    + rewrite bool_decide_eq_true_2; reflexivity.
    + rewrite bool_decide_eq_false_2 by exact N. reflexivity.
  - destruct (bool_decide (k0 = k)) eqn:E0; simpl.
    + apply bool_decide_eq_true in E0. subst k0.
      destruct (decide (k = k')) as [->|N].
      * rewrite bool_decide_eq_true_2; reflexivity.
      * rewrite bool_decide_eq_false_2 by exact N. reflexivity.
    + apply bool_decide_eq_false in E0. rewrite IH.
      destruct (bool_decide (k0 = k')) eqn:E1; [|reflexivity].
      apply bool_decide_eq_true in E1. subst k0.
      destruct (decide (k = k')); [congruence|reflexivity].
Qed.

Lemma dict_get_elem {A} (k : string) (v : A) (d : dict A) :
  dict_get k d = Some v -> (k, v) ∈ d.
Proof.
  induction d as [|[k0 w] d IH]; simpl; [discriminate|].
  destruct (bool_decide (k0 = k)) eqn:E.
  - apply bool_decide_eq_true in E. intros [= ->]. subst. left.
  - intros H. right. apply IH. exact H.
Qed.

Lemma dict_get_keys {A} (k : string) (d : dict A) :
  k ∈ keys d <-> is_Some (dict_get k d).
Proof.
  unfold keys. induction d as [|[k0 w] d IH]; simpl.
  - split; [intros H; inversion H|intros [x H]; discriminate].
  - rewrite elem_of_cons. destruct (bool_decide (k0 = k)) eqn:E.
    + apply bool_decide_eq_true in E. split; [eauto|auto].
    + apply bool_decide_eq_false in E. rewrite IH. split; [|auto].
      intros [H|H]; [congruence|exact H].
Qed.

Lemma dict_get_snoc {A} (k key : string) (v : A) (d : dict A) :
  dict_get k (d ++ [(key, v)]) =
  match dict_get k d with
  | Some x => Some x
  | None => if bool_decide (key = k) then Some v else None
  end.
Proof.
  induction d as [|[k0 w] d IH]; simpl; [reflexivity|].
  destruct (bool_decide (k0 = k)); [reflexivity|exact IH].
Qed.

Lemma keys_dict_set {A} (k : string) (v : A) (d : dict A) :
  keys (dict_set k v d) = if bool_decide (k ∈ keys d) then keys d else keys d ++ [k].
Proof.
  unfold keys. induction d as [|[k0 w] d IH]; simpl; [reflexivity|].
  destruct (bool_decide (k0 = k)) eqn:E; simpl.
  - apply bool_decide_eq_true in E. subst. rewrite bool_decide_eq_true_2; [reflexivity|left].
  - apply bool_decide_eq_false in E.
    change (k0 :: (dict_set k v d).*1 =
            if bool_decide (k ∈ k0 :: d.*1) then k0 :: d.*1 else (k0 :: d.*1) ++ [k]).
    rewrite IH.
    destruct (bool_decide (k ∈ d.*1)) eqn:Ed.
    + apply bool_decide_eq_true in Ed. rewrite bool_decide_eq_true_2; [reflexivity|right; exact Ed].
    + apply bool_decide_eq_false in Ed. rewrite bool_decide_eq_false_2; [reflexivity|].
      intros H. apply elem_of_cons in H as [->|H]; [congruence|contradiction].
Qed.

Lemma NoDup_dict_set {A} (k : string) (v : A) (d : dict A) :
  NoDup (keys d) -> NoDup (keys (dict_set k v d)).
Proof.
  intros H. rewrite keys_dict_set. destruct (bool_decide (k ∈ keys d)) eqn:E; [exact H|].
  apply bool_decide_eq_false in E. apply NoDup_app. split; [exact H|]. split.
  - intros x Hx Hk. apply list_elem_of_singleton in Hk. subst. contradiction.
  - apply NoDup_singleton.
Qed.

(** A dictionary with a lookup exactly for [names] has these as its keys. *)
Lemma keys_set {A} (d : dict A) (names : list string) :
  (forall k, is_Some (dict_get k d) <-> k ∈ names) ->
  (list_to_set (keys d) : gset string) = list_to_set names.
Proof.
  intros H. apply set_eq. intros k. rewrite !elem_of_list_to_set, dict_get_keys. apply H.
Qed.

(** The loops [for name in names: data[name] = f(name)]. *)
Lemma collect_spec {A} (f : string -> A) (names : list string) : forall d0,
  let data := foldl (fun data name => dict_set name (f name) data) d0 names in
  (forall k, dict_get k data = if decide (k ∈ names) then Some (f k) else dict_get k d0) /\
  (NoDup (keys d0) -> NoDup (keys data)).
Proof.
  induction names as [|n names IH]; intros d0; simpl.
  - split; [|auto]. intros k. destruct (decide (k ∈ [])) as [H|H]; [inversion H|reflexivity].
  - destruct (IH (dict_set n (f n) d0)) as [Hg Hk]. split.
    + intros k. rewrite Hg, dict_get_set.
      destruct (decide (k ∈ names)) as [Hin|Hin].
      * rewrite decide_True; [reflexivity|right; exact Hin].
      * destruct (decide (n = k)) as [->|N].
        -- rewrite decide_True; [reflexivity|left].
        -- rewrite decide_False; [reflexivity|].
           intros H. apply elem_of_cons in H as [->|H]; [congruence|contradiction].
    + intros Hd. apply Hk, NoDup_dict_set, Hd.
Qed.

Lemma collect_keys {A} (f : string -> A) (names : list string) :
  (list_to_set (keys (foldl (fun data name => dict_set name (f name) data) [] names))
     : gset string) = list_to_set names.
Proof.
  apply keys_set. intros k. destruct (collect_spec f names []) as [Hg _]. rewrite Hg.
  destruct (decide (k ∈ names)) as [Hin|Hin]; simpl.
  - split; [auto|eauto].
  - split; [intros [x Hx]; discriminate|contradiction].
Qed.

Section Loop.
Context {E X : Type} (name : X -> string) (g : X -> result Np.ndarray).
Context (F : Eff E (dict Np.ndarray) -> X -> Eff E (dict Np.ndarray)).
Hypothesis F_returns : forall acc x d,
  returns (F acc x) d <->
  exists d0 y, returns acc d0 /\ g x = Ok y /\ d = dict_set (name x) y d0.

(** A loop that stores one array per item, under the name of the item: the
    keys of what it returns. *)
Lemma loop_keys : forall l init data,
  returns (foldl F init l) data ->
  exists d0, returns init d0 /\
    (forall k, is_Some (dict_get k data) <-> is_Some (dict_get k d0) \/ k ∈ name <$> l) /\
    (NoDup (keys d0) -> NoDup (keys data)).
Proof.
  induction l as [|x l IH]; intros init data H; simpl in H.
  - exists data. split; [exact H|]. split; [|auto]. intros k. rewrite fmap_nil.
    split; [auto|]. intros [Hk|Hk]; [exact Hk|inversion Hk].
  - destruct (IH _ _ H) as (d1 & H1 & Hiff & Hk).
    apply F_returns in H1 as (d0 & y & H0 & Hy & ->).
    exists d0. split; [exact H0|]. split.
    + intros k. rewrite Hiff, dict_get_set, fmap_cons, elem_of_cons.
      destruct (decide (name x = k)) as [->|N]; [split; eauto|].
      split; [tauto|]. intros [Hd|[Hn|Hl]]; [auto|congruence|auto].
    + intros Hd. apply Hk. apply NoDup_dict_set. exact Hd.
Qed.

(** Every item of such a loop had its array made. *)
Lemma loop_each : forall l init data,
  returns (foldl F init l) data -> forall x, x ∈ l -> exists y, g x = Ok y.
Proof.
  induction l as [|x0 l IH]; intros init data H x Hx; [inversion Hx|].
  simpl in H. apply elem_of_cons in Hx as [->|Hx]; [|apply (IH _ _ H x Hx)].
  destruct (loop_keys _ _ _ H) as (d1 & H1 & _).
  apply F_returns in H1 as (d0 & y & _ & Hy & _). eauto.
Qed.

(** With no two items of one name, every item has its array in the result. *)
Lemma loop_spec : forall l init data,
  NoDup (name <$> l) ->
  returns (foldl F init l) data ->
  exists d0, returns init d0 /\
    (forall x, x ∈ l -> exists y, g x = Ok y /\ dict_get (name x) data = Some y) /\
    (forall k, k ∉ name <$> l -> dict_get k data = dict_get k d0) /\
    (NoDup (keys d0) -> NoDup (keys data)).
Proof.
  induction l as [|x l IH]; intros init data Hnd H; simpl in H.
  - exists data. split; [exact H|]. split; [|auto]. intros x Hx. inversion Hx.
  - rewrite fmap_cons in Hnd. apply NoDup_cons in Hnd as [Hx Hnd].
    destruct (IH _ _ Hnd H) as (d1 & H1 & Hin & Hout & Hk).
    apply F_returns in H1 as (d0 & y & H0 & Hy & ->).
    exists d0. split; [exact H0|]. split; [|split].
    + intros x' Hx'. apply elem_of_cons in Hx' as [->|Hx']; [|apply Hin; exact Hx'].
      exists y. split; [exact Hy|]. rewrite (Hout _ Hx), dict_get_set.
      destruct (decide (name x = name x)); [reflexivity|congruence].
    + intros k Hk'. rewrite fmap_cons in Hk'. apply not_elem_of_cons in Hk' as [Hne Hk'].
      rewrite (Hout _ Hk'), dict_get_set. destruct (decide (name x = k)); [congruence|reflexivity].
    + intros Hd. apply Hk. apply NoDup_dict_set. exact Hd.
Qed.

End Loop.

End DictFacts.

(** ** More on the labelled sample array *)

Module ArrayFacts.
Import Str Np Xr Arviz XarrayUtils Props Samples MoreSamples EffFacts LabelFacts EffLaws.

Lemma index_variables_dom c names idx :
  index_variables c names = Ok idx -> dom idx = (list_to_set names : gset string).
Proof.
  revert idx. induction names as [|key names IH]; intros idx H; simpl in H.
  - injection H as <-. rewrite dom_empty_L. reflexivity.
  - destruct (c !! key) as [labels|]; [|discriminate].
    destruct (index_variables c names) as [rest|e]; [|discriminate].
    injection H as <-. rewrite dom_insert_L, (IH rest eq_refl). reflexivity.
Qed.

(** What a call of [label_axes] that returns has built. *)
Lemma label_axes_inv ary c names da :
  returns (label_axes ary c names) da ->
  exists n_chains n_draws rest idx,
    shape ary = n_chains :: n_draws :: rest /\
    index_variables
      (setdefault_arange "draw" n_draws (setdefault_arange "chain" n_chains c)) names = Ok idx /\
    da = MkDataArray ary names idx.
Proof.
  unfold label_axes. eff_unfold. intros H.
  destruct (shape ary) as [|n_chains [|n_draws rest]] eqn:Es; simpl in H;
    try (rewrite bind_lift_raise in H; discriminate).
  rewrite bind_lift_ok in H.
  destruct (index_variables _ names) as [idx|e] eqn:Ei;
    [rewrite bind_lift_ok in H | rewrite bind_lift_raise in H; discriminate].
  unfold returns, lift in H. simpl in H. unfold DataArray_new in H.
  destruct (negb _); [discriminate|]. destruct (forallb _ _); [|discriminate].
  injection H as <-. exists n_chains, n_draws, rest, idx. auto.
Qed.

Lemma label_axes_trace ary c names : trace (label_axes ary c names) = [].
Proof.
  unfold label_axes. eff_unfold.
  destruct (unpack_shape (shape ary)) as [[[n_chains n_draws] rest]|e];
    [rewrite bind_lift_ok|reflexivity].
  destruct (index_variables _ names) as [idx|e];
    [rewrite bind_lift_ok|reflexivity].
  reflexivity.
Qed.

(** The two ways to the labelling: with the caller's names and indexes, or
    with the inferred ones. *)
Lemma numpy_returns_inv ary v caller names da :
  returns (numpy_to_data_array ary v caller names) da ->
  exists ary' c' names',
    returns (label_axes ary' c' names') da /\
    match names with
    | Some given => caller = Some c' /\ ary' = ary /\ names' = user_dims given
    | None => (ary', c', names') = inferred ary v
    end.
Proof.
  destruct names as [given|].
  - rewrite numpy_user_eq. destruct caller as [c|]; [|discriminate].
    intros H. exists ary, c, (user_dims given). auto.
  - unfold numpy_to_data_array. eff_unfold. rewrite infer_dims_eq. intros H.
    apply bind_returns in H as ([[ary' c'] names'] & H0 & H1).
    apply bind_returns in H0 as (u & _ & H0). injection H0 as E.
    exists ary', c', names'. split; [exact H1|]. symmetry. exact E.
Qed.

Lemma inferred_flatten ary v : flatten (inferred ary v).1.1 = flatten ary.
Proof.
  unfold inferred, flatten, reshape. destruct ary as [sh b]. simpl.
  destruct sh as [|n1 [|n2 [|n3 rest]]]; simpl.
  - reflexivity.
  - f_equal. f_equal. lia.
  - reflexivity.
  - destruct (name_trailing _ _ _ _ _). reflexivity.
Qed.

Lemma inferred_two_axes ary v : 2 <= ndim ary -> (inferred ary v).1.1 = ary.
Proof.
  unfold inferred, ndim, reshape. destruct ary as [sh b]. simpl.
  destruct sh as [|n1 [|n2 [|n3 rest]]]; simpl; try lia; intros _.
  - reflexivity.
  - destruct (name_trailing _ _ _ _ _). reflexivity.
Qed.

(** The array inside the labelled array: the array that came in, or the
    one that [infer_dims] brought to shape. *)
Lemma numpy_values ary v caller names da :
  returns (numpy_to_data_array ary v caller names) da ->
  Xr.values da = if names is Some _ then ary else (inferred ary v).1.1.
Proof.
  intros H. apply numpy_returns_inv in H as (ary' & c' & names' & H & Hn).
  apply label_axes_inv in H as (n_chains & n_draws & rest & idx & _ & _ & ->). simpl.
  destruct names as [given|].
  - destruct Hn as (_ & -> & _). reflexivity.
  - rewrite <- Hn. reflexivity.
Qed.

Lemma numpy_flatten ary v caller names da :
  returns (numpy_to_data_array ary v caller names) da ->
  flatten (Xr.values da) = flatten ary.
Proof.
  intros H. rewrite (numpy_values _ _ _ _ _ H).
  destruct names; [reflexivity|apply inferred_flatten].
Qed.

Lemma numpy_two_axes ary v caller names da :
  returns (numpy_to_data_array ary v caller names) da ->
  2 <= ndim ary -> Xr.values da = ary.
Proof.
  intros H Hn. rewrite (numpy_values _ _ _ _ _ H).
  destruct names; [reflexivity|apply inferred_two_axes; exact Hn].
Qed.

(** X1. A labelled array that [numpy_to_data_array] returns holds the
    elements of the array it was given, in the same order: flattened, the two
    are equal. An array of two or more axes, and any array converted with
    [dims] given, is stored as it is. *)
Theorem conversion_keeps_the_data ary var_name caller names da :
  returns (numpy_to_data_array ary var_name caller names) da ->
  flatten (Xr.values da) = flatten ary /\
  (2 <= ndim ary -> Xr.values da = ary) /\
  (names <> None -> Xr.values da = ary).
Proof.
  intros H. pose proof (numpy_values _ _ _ _ _ H) as E.
  destruct names as [given|].
  - rewrite E. auto.
  - rewrite E. split; [apply inferred_flatten|]. split; [apply inferred_two_axes|].
    intros N. destruct (N eq_refl).
Qed.

Lemma conversion_keeps_the_data_witness :
  flatten (Xr.values theta_labelled) = flatten theta /\
  (2 <= ndim theta -> Xr.values theta_labelled = theta).
Proof.
  destruct (conversion_keeps_the_data theta "theta" (Some school_coords) (Some ["school"])
              theta_labelled) as (Hf & Hs & _).
  - vm_compute. reflexivity.
  - split; [exact Hf|exact Hs].
Defined.

(** X2. The indexes of a labelled array that [numpy_to_data_array] returns
    are those of its dimensions and no others: an entry of the caller's
    [coords] for a name that is not a dimension of the array is dropped. *)
Theorem indexes_are_those_of_the_dims ary var_name caller names da :
  returns (numpy_to_data_array ary var_name caller names) da ->
  dom (coords da) = (list_to_set (dims da) : gset string).
Proof.
  intros H. apply numpy_returns_inv in H as (ary' & c' & names' & H & _).
  apply label_axes_inv in H as (n_chains & n_draws & rest & idx & _ & Ei & ->). simpl.
  apply (index_variables_dom _ _ _ Ei).
Qed.

Lemma indexes_are_those_of_the_dims_witness :
  dom (coords theta_labelled) = (list_to_set (dims theta_labelled) : gset string).
Proof.
  apply (indexes_are_those_of_the_dims theta "theta" (Some school_coords) (Some ["school"])
           theta_labelled).
  vm_compute. reflexivity.
Defined.

(** X3. With [dims] and [coords] given, the array is stored as it is, its
    dimensions are the given names, with ['chain'] and ['draw'] put in front
    unless the names start with these two, and every dimension that has an
    entry in [coords] keeps the labels of that entry. A dimension without
    entry can only be ['chain'] or ['draw'], labelled [0..n-1]. *)
Theorem given_labels_are_kept ary var_name c given da :
  returns (numpy_to_data_array ary var_name (Some c) (Some given)) da ->
  Xr.values da = ary /\
  dims da = (if bool_decide (take 2 given = ["chain"; "draw"]) then given
             else "chain" :: "draw" :: given) /\
  (forall d labels, d ∈ dims da -> c !! d = Some labels -> coords da !! d = Some labels) /\
  (forall d, d ∈ dims da -> c !! d = None ->
     exists n_chains n_draws rest, shape ary = n_chains :: n_draws :: rest /\
       ((d = "chain" /\ coords da !! d = Some (arange n_chains)) \/
        (d = "draw" /\ coords da !! d = Some (arange n_draws)))).
Proof.
  intros H. apply numpy_returns_inv in H as (ary' & c' & names' & H & Hn).
  destruct Hn as ([= <-] & -> & ->).
  apply label_axes_inv in H as (n_chains & n_draws & rest & idx & Es & Ei & ->). simpl.
  split; [reflexivity|]. split; [reflexivity|].
  pose proof (index_variables_ok _ _ _ Ei) as Hidx.
  split.
  - intros d labels Hd Hc. destruct (Hidx d Hd) as [-> _].
    rewrite !setdefault_arange_lookup, Hc. reflexivity.
  - intros d Hd Hc. exists n_chains, n_draws, rest. split; [exact Es|].
    destruct (Hidx d Hd) as [-> [x Hx]].
    rewrite !setdefault_arange_lookup, Hc in Hx |- *.
    destruct (decide ("chain" = d)) as [<-|]; [left; auto|].
    destruct (decide ("draw" = d)) as [<-|]; [right; auto|discriminate].
Qed.

Lemma given_labels_are_kept_witness :
  dims theta_labelled = ["chain"; "draw"; "school"] /\
  coords theta_labelled !! "school" = Some [LStr "Choate"; LStr "Deerfield"].
Proof.
  destruct (given_labels_are_kept theta "theta" school_coords ["school"] theta_labelled)
    as (_ & Ed & Hk & _).
  { vm_compute. reflexivity. }
  split; [exact Ed|]. apply Hk.
  - rewrite Ed. right. right. left.
  - reflexivity.
Defined.

(** X4. [numpy_to_data_array] warns only where it infers the dimensions, and
    there exactly when the array, seen as chains by draws, has more chains
    than draws: an array of one axis is one chain and warns only if it is
    empty, an array of no axis never warns. With [dims] given there is no
    warning, whatever the shape. *)
Theorem warning_only_when_dims_are_inferred ary var_name caller :
  (forall given, trace (numpy_to_data_array ary var_name caller (Some given)) = []) /\
  trace (numpy_to_data_array ary var_name caller None) =
    match shape ary with
    | [] => []
    | [n] => if Nat.ltb n 1 then [more_chains_than_draws 1 n] else []
    | m :: n :: _ => if Nat.ltb n m then [more_chains_than_draws m n] else []
    end.
Proof.
  split.
  - intros given. rewrite numpy_user_eq. destruct caller as [c|]; [|reflexivity].
    apply label_axes_trace.
  - unfold numpy_to_data_array. eff_unfold. rewrite infer_dims_eq.
    rewrite bind_assoc, trace_bind.
    assert (Ho : exists u, outcome (chain_draw_warning (inferred ary var_name).1.1) = Ok u).
    { unfold chain_draw_warning. destruct (shape _) as [|a [|b r]]; try (eexists; reflexivity).
      destruct (Nat.ltb b a); eexists; reflexivity. }
    destruct Ho as [u ->]. rewrite bind_pure.
    destruct (inferred ary var_name) as [[ary' c'] names'] eqn:E.
    rewrite label_axes_trace, app_nil_r.
    assert (E' : ary' = (inferred ary var_name).1.1) by (rewrite E; reflexivity).
    rewrite E'. unfold chain_draw_warning, inferred. destruct ary as [sh b]. simpl.
    destruct sh as [|n1 [|n2 [|n3 rest]]]; simpl.
    + reflexivity.
    + destruct n1; reflexivity.
    + destruct (Nat.ltb n2 n1); reflexivity.
    + destruct (name_trailing _ _ _ _ _). simpl. destruct (Nat.ltb n2 n1); reflexivity.
Qed.

(** X5. With [dims] left [None], an array of no axis, a single number,
    becomes one chain of one draw. *)
Theorem scalar_is_one_chain_of_one_draw ary var_name caller :
  shape ary = [] ->
  exists da, returns (numpy_to_data_array ary var_name caller None) da /\
    Xr.values da = reshape [1; 1] ary /\ dims da = ["chain"; "draw"] /\
    coords da !! "chain" = Some (arange 1) /\ coords da !! "draw" = Some (arange 1).
Proof.
  intros Es.
  destruct (numpy_default_ok ary var_name caller)
    as (da & n_chains & n_draws & trailing & Hr & Ev & Esh & Ed & Ic & Id & _).
  rewrite Ev in Esh. unfold inferred in Ev, Esh. rewrite Es in Ev, Esh. simpl in Ev, Esh.
  injection Esh as <- <- <-.
  exists da. auto.
Qed.

Lemma scalar_is_one_chain_of_one_draw_witness :
  exists da, returns (numpy_to_data_array scalar "x" None None) da /\
    shape (Xr.values da) = [1; 1] /\ coords da !! "draw" = Some [LInt 0].
Proof.
  destruct (scalar_is_one_chain_of_one_draw scalar "x" None eq_refl)
    as (da & Hr & Ev & _ & _ & Id).
  exists da. rewrite Ev. auto.
Defined.

(** X6. With [dims] and [coords] given, an array of fewer than two axes is
    not promoted as it is when [dims] is [None]: the call raises the
    [ValueError] of [n_chains, n_samples, *_ = ary.shape], whatever the names
    and the indexes are. *)
Theorem too_few_axes_for_given_dims ary var_name c given :
  ndim ary < 2 ->
  numpy_to_data_array ary var_name (Some c) (Some given) =
    raise (ValueError ("not enough values to unpack (expected at least 2, got "
                       +:+ format_nat (ndim ary) +:+ ")")).
Proof.
  intros H. rewrite numpy_user_eq. unfold label_axes, ndim in *. eff_unfold.
  destruct (shape ary) as [|n [|m rest]]; simpl in H; try lia; reflexivity.
Qed.

Lemma too_few_axes_for_given_dims_witness :
  numpy_to_data_array draws_1d "x" (Some school_coords) (Some ["school"]) =
    raise (ValueError "not enough values to unpack (expected at least 2, got 1)").
Proof.
  apply (too_few_axes_for_given_dims draws_1d "x" school_coords ["school"]).
  vm_compute. lia.
Defined.

End ArrayFacts.

(** ** More on the dataset of a dictionary *)

Module DatasetFacts.
Import Str Np Xr Arviz XarrayUtils Props Samples MoreSamples EffFacts LabelFacts EffLaws.
Import ConverterProps ArrayFacts DictFacts.

(** Where the merge of the dataset constructor has nothing to do, the data
    variables are the arrays the constructor was given. *)
Lemma merged_inv ds vars : merged ds = Some vars -> vars = data_vars ds.
Proof. unfold merged. destruct (merge_free (data_vars ds)); congruence. Qed.

(** Where it has something to do, its result is not represented. *)
Example merge_is_not_represented :
  merged (result_of no_dataset (dict_to_dataset unequal_chains None None)) = None /\
  merged (result_of no_dataset (dict_to_dataset named_like_a_dimension None None)) = None.
Proof. split; vm_compute; reflexivity. Qed.

(** The loop of [dict_to_dataset] stores, under every key, the array it
    made of the value of that key. *)
Lemma data_vars_of_spec caller dims : forall data acc out,
  NoDup (keys data) ->
  returns (data_vars_of caller dims data acc) out ->
  dom out = dom acc ∪ (list_to_set (keys data) : gset string) /\
  (forall key values, (key, values) ∈ data ->
     exists da, returns (numpy_to_data_array values key caller (dims !! key)) da /\
                out !! key = Some da) /\
  (forall key, key ∉ keys data -> out !! key = acc !! key).
Proof.
  unfold keys.
  induction data as [|[k vals] data IH]; intros acc out Hnd H.
  - simpl in H. injection H as <-. split; [simpl; rewrite (right_id_L ∅ (∪)); reflexivity|].
    split; [|reflexivity].
    intros key values Hin. inversion Hin.
  - simpl in H. eff_unfold. apply bind_returns in H as (da0 & H0 & H1).
    apply NoDup_cons in Hnd as [Hk Hnd].
    destruct (IH _ _ Hnd H1) as (Hdom & Hin & Hout).
    split; [|split].
    + rewrite Hdom, dom_insert_L. simpl.
      rewrite (comm_L (∪) {[k]} (dom acc)), <- (assoc_L (∪)). reflexivity.
    + intros key values Hkv. apply elem_of_cons in Hkv as [[= -> ->]|Hkv].
      * exists da0. split; [exact H0|]. rewrite (Hout k Hk). apply lookup_insert_eq.
      * apply Hin. exact Hkv.
    + intros key Hkey. simpl in Hkey. apply not_elem_of_cons in Hkey as [Hne Hkey].
      rewrite (Hout key Hkey). apply lookup_insert_ne. congruence.
Qed.

(** Every variable of the result was made of a value of the dictionary. *)
Lemma data_vars_of_lookup caller dims : forall data acc out,
  returns (data_vars_of caller dims data acc) out ->
  forall key da, out !! key = Some da ->
    acc !! key = Some da \/
    exists values, (key, values) ∈ data /\
      returns (numpy_to_data_array values key caller (dims !! key)) da.
Proof.
  induction data as [|[k vals] data IH]; intros acc out H key da Hl.
  - simpl in H. injection H as <-. auto.
  - simpl in H. eff_unfold. apply bind_returns in H as (da0 & H0 & H1).
    destruct (IH _ _ H1 key da Hl) as [Ha|(values & Hin & Hr)].
    + rewrite lookup_insert in Ha. destruct (decide (k = key)) as [->|].
      * injection Ha as <-. right. exists vals. split; [left|exact H0].
      * auto.
    + right. exists values. split; [right; exact Hin|exact Hr].
Qed.

Lemma data_vars_of_trace caller dims : forall data acc out,
  returns (data_vars_of caller dims data acc) out ->
  trace (data_vars_of caller dims data acc) =
    flat_map (fun '(key, values) => trace (numpy_to_data_array values key caller (dims !! key)))
             data.
Proof.
  induction data as [|[k vals] data IH]; intros acc out H; [reflexivity|].
  simpl in H |- *. eff_unfold. apply bind_returns in H as (da & H0 & H1).
  rewrite trace_bind. unfold returns in H0. rewrite H0. f_equal. apply (IH _ _ H1).
Qed.

Lemma dims_or_empty (dims : option dims_t) :
  match dims with Some dims0 => dims0 | None => ∅ end = default ∅ dims.
Proof. destruct dims; reflexivity. Qed.

(** A call of [dict_to_dataset] that returns is a run of its loop. *)
Lemma dict_to_dataset_inv data caller dims ds :
  returns (dict_to_dataset data caller dims) ds ->
  returns (data_vars_of caller (default ∅ dims) data ∅) (data_vars ds).
Proof.
  intros H. unfold dict_to_dataset in H. eff_unfold. rewrite dims_or_empty in H.
  apply bind_returns in H as (vars & H0 & H1). injection H1 as <-. exact H0.
Qed.

Lemma dict_to_dataset_lookup data caller dims ds key da :
  returns (dict_to_dataset data caller dims) ds ->
  data_vars ds !! key = Some da ->
  exists values, (key, values) ∈ data /\
    returns (numpy_to_data_array values key caller (default ∅ dims !! key)) da.
Proof.
  intros H Hl. apply dict_to_dataset_inv in H.
  destruct (data_vars_of_lookup _ _ _ _ _ H key da Hl) as [Ha|Hv]; [|exact Hv].
  rewrite lookup_empty in Ha. discriminate.
Qed.

Lemma dict_to_dataset_vars data caller dims ds :
  NoDup (keys data) ->
  returns (dict_to_dataset data caller dims) ds ->
  forall key values, (key, values) ∈ data ->
    exists da,
      returns (numpy_to_data_array values key caller (default ∅ dims !! key)) da /\
      data_vars ds !! key = Some da.
Proof.
  intros Hnd H. apply dict_to_dataset_inv in H.
  apply (data_vars_of_spec _ _ _ _ _ Hnd H).
Qed.

Lemma dict_to_dataset_dom data caller dims ds :
  NoDup (keys data) ->
  returns (dict_to_dataset data caller dims) ds ->
  dom (data_vars ds) = (list_to_set (keys data) : gset string).
Proof.
  intros Hnd H. apply dict_to_dataset_inv in H.
  destruct (data_vars_of_spec _ _ _ _ _ Hnd H) as (Hdom & _ & _).
  rewrite Hdom, dom_empty_L. apply (left_id_L ∅ (∪)).
Qed.

(** The dataset of a dictionary that a loop collected. *)
Lemma collected_dataset (f : string -> ndarray) (names : list string) caller dims ds :
  returns (dict_to_dataset (foldl (fun data name => dict_set name (f name) data) [] names)
             caller dims) ds ->
  dom (data_vars ds) = (list_to_set names : gset string) /\
  forall name, name ∈ names ->
    exists da, returns (numpy_to_data_array (f name) name caller (default ∅ dims !! name)) da /\
               data_vars ds !! name = Some da.
Proof.
  intros H. destruct (collect_spec f names []) as [Hg Hk].
  split; [rewrite (dict_to_dataset_dom _ _ _ _ (Hk NoDup_nil_2) H); apply collect_keys|].
  intros name Hin. apply (dict_to_dataset_vars _ _ _ _ (Hk NoDup_nil_2) H).
  apply dict_get_elem. rewrite Hg, decide_True; auto.
Qed.

(** X7. Where the arrays that [dict_to_dataset] makes of the values leave
    the dataset constructor nothing to merge (any two of them have the same
    indexes along the dimensions they share, and none has the name of a
    dimension), the dataset returned has exactly the keys of the dictionary
    as its data variables, and the variable of a key is what
    [numpy_to_data_array] makes of the value of that key, named after the key
    and with the entry of [dims] for that key, if there is one. *)
Theorem dataset_holds_the_variables_of_the_dict data caller dims ds vars :
  NoDup (keys data) ->
  returns (dict_to_dataset data caller dims) ds ->
  merged ds = Some vars ->
  dom vars = (list_to_set (keys data) : gset string) /\
  forall key values, (key, values) ∈ data ->
    exists da,
      returns (numpy_to_data_array values key caller (default ∅ dims !! key)) da /\
      vars !! key = Some da.
Proof.
  intros Hnd H Hm. apply merged_inv in Hm as ->. unfold dict_to_dataset in H. eff_unfold.
  apply bind_returns in H as (vs & H0 & H1). injection H1 as <-. simpl.
  rewrite dims_or_empty in H0.
  destruct (data_vars_of_spec _ _ _ _ _ Hnd H0) as (Hdom & Hin & _).
  split; [|exact Hin].
  rewrite Hdom, dom_empty_L. apply (left_id_L ∅ (∪)).
Qed.

Lemma dataset_holds_the_variables_of_the_dict_witness :
  exists vars, merged two_variables_dataset = Some vars /\
    dom vars = ({[ "mu"; "theta" ]} : gset string) /\
    exists da, returns (numpy_to_data_array theta "theta" None None) da /\
               vars !! "theta" = Some da.
Proof.
  assert (Em : merged two_variables_dataset = Some (data_vars two_variables_dataset))
    by (vm_compute; reflexivity).
  exists (data_vars two_variables_dataset). split; [exact Em|].
  destruct (dataset_holds_the_variables_of_the_dict two_variables None None
              two_variables_dataset (data_vars two_variables_dataset)) as [Hd Hv].
  - unfold keys. simpl. apply (bool_decide_unpack _). vm_compute. reflexivity.
  - vm_compute. reflexivity.
  - exact Em.
  - split.
    + rewrite Hd. unfold keys. simpl. rewrite (right_id_L ∅ (∪)). reflexivity.
    + apply (Hv "theta" theta). right. left.
Defined.

(** X8. [dict_to_dataset] converts the values in the order of the
    dictionary and stops at the first one that fails: the error of that
    conversion is the error of the call, and no dataset is returned. *)
Theorem first_failure_stops_the_dataset before key values after caller dims e :
  (forall k v, (k, v) ∈ before ->
     exists da, returns (numpy_to_data_array v k caller (default ∅ dims !! k)) da) ->
  raises (numpy_to_data_array values key caller (default ∅ dims !! key)) e ->
  raises (dict_to_dataset (before ++ (key, values) :: after) caller dims) e.
Proof.
  intros Hb He. unfold dict_to_dataset. eff_unfold.
  rewrite dims_or_empty. apply bind_raises. left.
  generalize (∅ : gmap string DataArray).
  induction before as [|[k v] before IH]; intros acc; simpl; eff_unfold.
  - apply bind_raises. left. exact He.
  - destruct (Hb k v) as [da Hda]; [left|].
    apply bind_raises. right. exists da. split; [exact Hda|].
    apply IH. intros k' v' Hin. apply (Hb k' v'). right. exact Hin.
Qed.

Lemma first_failure_stops_the_dataset_witness :
  raises (dict_to_dataset [("mu", draws_2d); ("x", draws_1d); ("theta", theta)]
            (Some school_coords) (Some school_dims))
    (ValueError "not enough values to unpack (expected at least 2, got 1)").
Proof.
  apply (first_failure_stops_the_dataset [("mu", draws_2d)] "x" draws_1d [("theta", theta)]
           (Some school_coords) (Some school_dims)).
  - intros k v Hin. apply list_elem_of_singleton in Hin. injection Hin as -> ->.
    eexists. vm_compute. reflexivity.
  - vm_compute. reflexivity.
Defined.

(** X9. What a call of [dict_to_dataset] that returns has warned of is what
    the conversions of its values have warned of, value by value in the order
    of the dictionary. *)
Theorem dataset_warnings data caller dims ds :
  returns (dict_to_dataset data caller dims) ds ->
  trace (dict_to_dataset data caller dims) =
    flat_map (fun '(key, values) =>
                trace (numpy_to_data_array values key caller (default ∅ dims !! key))) data.
Proof.
  intros H. unfold dict_to_dataset in *. eff_unfold.
  rewrite dims_or_empty in *. apply bind_returns in H as (vars & H0 & _).
  rewrite trace_bind, (data_vars_of_trace _ _ _ _ _ H0).
  unfold returns in H0. rewrite H0. simpl. apply app_nil_r.
Qed.

Lemma dataset_warnings_witness :
  trace (dict_to_dataset [("mu", tall); ("theta", theta)] None None)
    = [more_chains_than_draws 3 2].
Proof.
  rewrite (dataset_warnings [("mu", tall); ("theta", theta)] None None
             (result_of no_dataset (dict_to_dataset [("mu", tall); ("theta", theta)] None None))).
  - vm_compute. reflexivity.
  - vm_compute. reflexivity.
Defined.

End DatasetFacts.

(** ** More on the dispatch *)

Module DispatchFacts.
Import Str Np Xr Arviz XarrayUtils Props Samples MoreSamples EffFacts LabelFacts EffLaws.
Import ConverterProps.

Lemma getattr_singleton group ds :
  getattr_group (MkInferenceData {[ group := Some ds ]}) group = Some ds.
Proof. unfold getattr_group. simpl. rewrite lookup_singleton_eq. reflexivity. Qed.

(** [convert_to_dataset] takes out again the dataset that
    [convert_to_inference_data] has wrapped. *)
Lemma convert_to_dataset_wraps env obj group caller dims (m : Run Dataset) :
  convert_to_inference_data env obj group caller dims
    = Py.bind m (fun ds => Py.pure (MkInferenceData {[ group := Some ds ]})) ->
  convert_to_dataset env obj group caller dims = m.
Proof.
  intros E. unfold convert_to_dataset. eff_unfold. rewrite E, bind_assoc.
  rewrite <- (bind_pure_r m) at 2. apply bind_ext. intros ds.
  rewrite bind_pure, getattr_singleton. reflexivity.
Qed.

(** X10. For a dictionary of arrays, [convert_to_dataset] returns, warns of
    and raises just what [dict_to_dataset] does, whatever the group is
    called; for a numpy array it does so for the dictionary that holds the
    array under the name ['x']. *)
Theorem dict_or_array_to_dataset env group caller dims :
  (forall data, convert_to_dataset env (PDict data) group caller dims
                = dict_to_dataset data caller dims) /\
  (forall ary, convert_to_dataset env (PNdarray ary) group caller dims
               = dict_to_dataset [("x", ary)] caller dims).
Proof.
  split; intros x; apply convert_to_dataset_wraps; reflexivity.
Qed.

Lemma pymc3_dispatch_groups env tr caller dims idata :
  returns (pymc3_to_inference_data env (Some tr) None None caller dims) idata ->
  groups idata !! "prior" = Some None /\ groups idata !! "posterior_predictive" = Some None.
Proof.
  unfold pymc3_to_inference_data, PyMC3Converter.to_inference_data. eff_unfold. intros H.
  apply bind_returns in H as (posterior & _ & H).
  apply bind_returns in H as (sample_stats & _ & H).
  cbn in H. injection H as <-. cbn [groups]. split; reflexivity.
Qed.

Lemma pystan_dispatch_groups fit caller dims idata :
  returns (pystan_to_inference_data (Some fit) caller dims) idata ->
  groups idata !! "prior" = None /\ groups idata !! "posterior_predictive" = None.
Proof.
  unfold pystan_to_inference_data. eff_unfold. cbn [PyStanConverter.__init__].
  rewrite bind_lift_ok. unfold PyStanConverter.to_inference_data. eff_unfold. intros H.
  apply bind_returns in H as (posterior & _ & H).
  apply bind_returns in H as (sample_stats & _ & H).
  injection H as <-. cbn [groups]. split; reflexivity.
Qed.

(** X11. From a pymc3 trace or a pystan fit, [convert_to_dataset] never
    returns the group ['prior'] or ['posterior_predictive']: the dispatch
    hands neither a prior nor a posterior predictive to the converter, so
    that the group is not in the container, and once the conversion itself
    has gone through the call raises the [ValueError] that the group cannot
    be extracted. *)
Theorem no_prior_from_a_trace env obj group caller dims :
  (exists tr, obj = PMultiTrace tr) \/ (exists fit, obj = PStanFit fit) ->
  group = "prior" \/ group = "posterior_predictive" ->
  (forall ds, ~ returns (convert_to_dataset env obj group caller dims) ds) /\
  (forall idata, returns (convert_to_inference_data env obj group caller dims) idata ->
     raises (convert_to_dataset env obj group caller dims)
       (ValueError ("Can not extract " +:+ group
                    +:+ "! See __file__ for other conversion utilities."))).
Proof.
  intros Hobj Hgroup.
  assert (Hnone : forall idata,
            returns (convert_to_inference_data env obj group caller dims) idata ->
            getattr_group idata group = None).
  { intros idata H. unfold getattr_group.
    destruct Hobj as [[tr ->]|[fit ->]].
    - apply pymc3_dispatch_groups in H as [Hp Hq].
      destruct Hgroup as [->| ->]; [rewrite Hp|rewrite Hq]; reflexivity.
    - apply pystan_dispatch_groups in H as [Hp Hq].
      destruct Hgroup as [->| ->]; [rewrite Hp|rewrite Hq]; reflexivity. }
  split.
  - intros ds H. unfold convert_to_dataset in H. eff_unfold.
    apply bind_returns in H as (idata & Hi & H). rewrite (Hnone idata Hi) in H. discriminate.
  - intros idata Hi. unfold convert_to_dataset. eff_unfold.
    apply bind_raises. right. exists idata. split; [exact Hi|].
    rewrite (Hnone idata Hi). reflexivity.
Qed.

Lemma no_prior_from_a_trace_witness :
  raises (convert_to_dataset offline (PMultiTrace small_trace) "prior" None None)
    (ValueError "Can not extract prior! See __file__ for other conversion utilities.").
Proof.
  apply (proj2 (no_prior_from_a_trace offline (PMultiTrace small_trace) "prior" None None
                  (or_introl (ex_intro _ small_trace eq_refl)) (or_introl eq_refl))
           small_trace_idata).
  vm_compute. reflexivity.
Defined.

(** X12. [convert_to_inference_data] looks at [group] only for a dataset, a
    dictionary or an array: for every other object the result is the same
    under any group name. It looks at [coords] and [dims] neither for an
    [InferenceData], nor for a path, nor for a dataset. *)
Theorem arguments_that_are_ignored env obj :
  ((forall ds, obj <> PDataset ds) -> (forall data, obj <> PDict data) ->
   (forall ary, obj <> PNdarray ary) ->
   forall group group' caller dims,
     convert_to_inference_data env obj group caller dims
       = convert_to_inference_data env obj group' caller dims) /\
  ((exists idata, obj = PInferenceData idata) \/ (exists path, obj = PStr path) \/
   (exists ds, obj = PDataset ds) ->
   forall group caller caller' dims dims',
     convert_to_inference_data env obj group caller dims
       = convert_to_inference_data env obj group caller' dims').
Proof.
  split.
  - intros Hds Hd Ha group group' caller dims.
    destruct obj; try reflexivity.
    + destruct (Hds ds eq_refl).
    + destruct (Hd d eq_refl).
    + destruct (Ha ary eq_refl).
  - intros [[idata ->]|[[path ->]|[ds ->]]]; reflexivity.
Qed.

Lemma arguments_that_are_ignored_witness :
  convert_to_inference_data offline (PMultiTrace small_trace) "posterior" None None
    = convert_to_inference_data offline (PMultiTrace small_trace) "prior" None None /\
  convert_to_inference_data offline (PDataset two_variables_dataset) "posterior" None None
    = convert_to_inference_data offline (PDataset two_variables_dataset) "posterior"
        (Some school_coords) (Some school_dims).
Proof.
  split.
  - apply (proj1 (arguments_that_are_ignored offline (PMultiTrace small_trace)));
      intros x; discriminate.
  - apply (proj2 (arguments_that_are_ignored offline (PDataset two_variables_dataset))).
    right. right. exists two_variables_dataset. reflexivity.
Defined.

(** X13. Without a fit, [pystan_to_inference_data] raises [AttributeError],
    since the converter reads [fit.model_pars] when it is made; without a
    trace, a prior and a posterior predictive, [pymc3_to_inference_data]
    returns a container whose four groups are all [None]. *)
Theorem converters_without_input env caller dims :
  pystan_to_inference_data None caller dims
    = raise (AttributeError "'NoneType' object has no attribute 'model_pars'") /\
  pymc3_to_inference_data env None None None caller dims
    = Py.pure (MkInferenceData
                 (<["prior" := None]>
                    (<["posterior_predictive" := None]>
                       (<["sample_stats" := None]> (<["posterior" := None]> ∅))))).
Proof. split; reflexivity. Qed.

End DispatchFacts.

(** ** More on the PyMC3 converter *)

Module PyMC3Facts.
Import Str Np Xr Arviz XarrayUtils Props Samples MoreSamples EffFacts LabelFacts EffLaws.
Import ConverterProps ArrayFacts DatasetFacts DictFacts.

(** X14. Of a trace, [PyMC3Converter.sample_stats_to_xarray] always makes a
    dataset, whatever [coords] and [dims] the converter has: it passes on
    neither. Where the arrays of the statistics leave the dataset
    constructor nothing to merge, the data variables of the dataset are the
    sampler statistics of the trace, each converted with inferred
    dimensions. *)
Theorem pymc3_sample_stats_always_convert self tr :
  PyMC3Converter.trace self = Some tr ->
  exists ds,
    returns (PyMC3Converter.sample_stats_to_xarray self) (Some ds) /\
    forall vars, merged ds = Some vars ->
      dom vars = (list_to_set (stat_names tr) : gset string) /\
      forall stat, stat ∈ stat_names tr ->
        exists da,
          returns (numpy_to_data_array (sampler_stats_of tr stat) stat None None) da /\
          vars !! stat = Some da.
Proof.
  intros Et. unfold PyMC3Converter.sample_stats_to_xarray, requires. rewrite Et. eff_unfold.
  set (data := foldl (fun data stat => dict_set stat (sampler_stats_of tr stat) data)
                    [] (stat_names tr)).
  destruct (DispatchClaims.dict_to_dataset_default_returns data None) as [ds Hds].
  exists ds. split.
  - apply bind_returns. exists ds. split; [exact Hds|reflexivity].
  - intros vars Hm. apply merged_inv in Hm as ->.
    destruct (collected_dataset _ _ _ _ _ Hds) as [Hd Hv]. split; [exact Hd|].
    intros stat Hin. destruct (Hv stat Hin) as (da & Hr & Hl).
    simpl in Hr. rewrite lookup_empty in Hr. eauto.
Qed.

Lemma pymc3_sample_stats_always_convert_witness :
  exists ds vars,
    returns (PyMC3Converter.sample_stats_to_xarray small_converter) (Some ds) /\
    merged ds = Some vars /\
    dom vars = ({[ "diverging" ]} : gset string).
Proof.
  destruct (pymc3_sample_stats_always_convert small_converter small_trace eq_refl)
    as (ds & Hr & Hall).
  assert (E : ds = small_stats).
  { assert (Hs : returns (PyMC3Converter.sample_stats_to_xarray small_converter)
                   (Some small_stats)) by (vm_compute; reflexivity).
    unfold returns in Hr, Hs. rewrite Hs in Hr. injection Hr as <-. reflexivity. }
  assert (Em : merged ds = Some (data_vars ds)) by (rewrite E; vm_compute; reflexivity).
  exists ds, (data_vars ds). split; [exact Hr|]. split; [exact Em|].
  destruct (Hall _ Em) as [Hd _]. rewrite Hd. simpl. apply (right_id_L ∅ (∪)).
Defined.

(** X15. Where the arrays of the variables leave the dataset constructor
    nothing to merge, the posterior dataset of the PyMC3 converter has as its
    data variables the names that [pm.utils.get_default_varnames] keeps of
    the names of the trace, and the variable of a name is what
    [numpy_to_data_array] makes of the values of the trace under that name. *)
Theorem pymc3_posterior_variables env self tr ds vars :
  PyMC3Converter.trace self = Some tr ->
  returns (PyMC3Converter.posterior_to_xarray env self) (Some ds) ->
  merged ds = Some vars ->
  dom vars = (list_to_set (get_default_varnames env (varnames tr)) : gset string) /\
  forall name, name ∈ get_default_varnames env (varnames tr) ->
    exists da,
      returns (numpy_to_data_array (values_of tr name) name (PyMC3Converter.coords self)
                 (default ∅ (PyMC3Converter.dims self) !! name)) da /\
      vars !! name = Some da.
Proof.
  intros Et H Hm. apply merged_inv in Hm as ->. unfold PyMC3Converter.posterior_to_xarray, requires in H. rewrite Et in H.
  eff_unfold. apply bind_returns in H as (ds' & H & E). injection E as <-.
  apply (collected_dataset _ _ _ _ _ H).
Qed.

Lemma pymc3_posterior_variables_witness :
  exists vars da, merged small_posterior = Some vars /\
    returns (numpy_to_data_array draws_2d "mu" None None) da /\ vars !! "mu" = Some da.
Proof.
  assert (Em : merged small_posterior = Some (data_vars small_posterior))
    by (vm_compute; reflexivity).
  destruct (pymc3_posterior_variables offline small_converter small_trace small_posterior
              (data_vars small_posterior)) as [_ Hv].
  - reflexivity.
  - vm_compute. reflexivity.
  - exact Em.
  - destruct (Hv "mu") as (da & Hr & Hl); [left|].
    exists (data_vars small_posterior), da. auto.
Defined.

Lemma flatten_expand_dims0 v : flatten (expand_dims0 v) = flatten v.
Proof.
  unfold flatten, expand_dims0, reshape. simpl. rewrite Nat.add_0_r. reflexivity.
Qed.

(** An array that was given a leading axis of length one is stored as one
    chain. *)
Lemma expanded_is_one_chain v name caller names da :
  returns (numpy_to_data_array (expand_dims0 v) name caller names) da ->
  exists n_draws rest,
    shape (Xr.values da) = 1 :: n_draws :: rest /\ flatten (Xr.values da) = flatten v.
Proof.
  intros H. pose proof (numpy_flatten _ _ _ _ _ H) as Hf.
  rewrite flatten_expand_dims0 in Hf.
  apply numpy_returns_inv in H as (ary' & c' & names' & H & Hn).
  apply label_axes_inv in H as (n_chains & n_draws & rest & idx & Es & _ & ->).
  simpl in *. exists n_draws, rest. split; [|exact Hf].
  destruct names as [given|].
  - destruct Hn as (_ & -> & _). simpl in Es. injection Es as <- E. simpl. rewrite E. reflexivity.
  - assert (E : ary' = (inferred (expand_dims0 v) name).1.1) by (rewrite <- Hn; reflexivity).
    rewrite E in Es |- *. clear E Hn. unfold inferred, expand_dims0, reshape in *.
    destruct v as [sh b]. simpl in *.
    destruct sh as [|n1 [|n2 rest']]; simpl in *.
    + injection Es as <- <- <-. reflexivity.
    + injection Es as <- <- <-. reflexivity.
    + destruct (name_trailing _ _ _ _ _). simpl in *. injection Es as <- <- <-. reflexivity.
Qed.

(** X16. Where the arrays of the samples leave the dataset constructor
    nothing to merge, every data variable of the prior dataset and of the
    posterior predictive dataset of the PyMC3 converter is one chain: its
    array has a first axis of length one, put in front of the samples of its
    name, which it holds unchanged. *)
Theorem prior_and_predictive_are_one_chain self ds vars :
  merged ds = Some vars ->
  (forall prior, PyMC3Converter.prior self = Some prior ->
     returns (PyMC3Converter.prior_to_xarray self) (Some ds) ->
     forall name da, vars !! name = Some da ->
       exists values n_draws rest, (name, values) ∈ prior /\
         shape (Xr.values da) = 1 :: n_draws :: rest /\
         flatten (Xr.values da) = flatten values) /\
  (forall predictive, PyMC3Converter.posterior_predictive self = Some predictive ->
     returns (PyMC3Converter.posterior_predictive_to_xarray self) (Some ds) ->
     forall name da, vars !! name = Some da ->
       exists values n_draws rest, (name, values) ∈ predictive /\
         shape (Xr.values da) = 1 :: n_draws :: rest /\
         flatten (Xr.values da) = flatten values).
Proof.
  intros Hm. apply merged_inv in Hm as ->.
  assert (Hgen : forall (samples : dict ndarray) caller dims,
    returns (dict_to_dataset (map (fun '(k, v) => (k, expand_dims0 v)) samples) caller dims) ds ->
    forall name da, data_vars ds !! name = Some da ->
      exists values n_draws rest, (name, values) ∈ samples /\
        shape (Xr.values da) = 1 :: n_draws :: rest /\
        flatten (Xr.values da) = flatten values).
  { intros samples caller dims H name da Hl.
    destruct (dict_to_dataset_lookup _ _ _ _ _ _ H Hl) as (ary & Hin & Hr).
    apply list_elem_of_fmap in Hin as ([k v] & E & Hin). injection E as -> ->.
    destruct (expanded_is_one_chain _ _ _ _ _ Hr) as (n_draws & rest & Es & Ef).
    exists v, n_draws, rest. auto. }
  split.
  - intros prior Ep H. unfold PyMC3Converter.prior_to_xarray, requires in H.
    rewrite Ep in H. eff_unfold. apply bind_returns in H as (ds' & H & E). injection E as <-.
    apply (Hgen _ _ _ H).
  - intros predictive Ep H. unfold PyMC3Converter.posterior_predictive_to_xarray, requires in H.
    rewrite Ep in H. eff_unfold. apply bind_returns in H as (ds' & H & E). injection E as <-.
    apply (Hgen _ _ _ H).
Qed.

Lemma prior_and_predictive_are_one_chain_witness :
  exists vars da n_draws rest,
    merged small_prior = Some vars /\
    vars !! "mu" = Some da /\ shape (Xr.values da) = 1 :: n_draws :: rest.
Proof.
  assert (Em : merged small_prior = Some (data_vars small_prior))
    by (vm_compute; reflexivity).
  assert (E : exists da, data_vars small_prior !! "mu" = Some da).
  { vm_compute. eexists. reflexivity. }
  destruct E as [da E].
  destruct (proj1 (prior_and_predictive_are_one_chain small_converter small_prior
                     (data_vars small_prior) Em)
              [("mu", draws_1d)]) with (name := "mu") (da := da)
    as (values & n_draws & rest & _ & Es & _).
  - reflexivity.
  - vm_compute. reflexivity.
  - exact E.
  - exists (data_vars small_prior), da, n_draws, rest. auto.
Defined.

Lemma requires_default_returns {A} (prop : option A) (data : A -> dict ndarray) caller :
  exists r, returns (requires prop (fun a => dict_to_dataset (data a) caller None)) r.
Proof.
  unfold requires. destruct prop as [a|]; [|eexists; reflexivity].
  destruct (DispatchClaims.dict_to_dataset_default_returns (data a) caller) as [ds Hds].
  exists (Some ds). eff_unfold. apply bind_returns. exists ds. split; [exact Hds|reflexivity].
Qed.

(** X17. With [dims] left [None], the PyMC3 conversion never raises: whatever
    the trace, the prior, the posterior predictive and the [coords] are,
    [pymc3_to_inference_data] returns a container, and so does
    [convert_to_inference_data] for a trace. *)
Theorem pymc3_converts_without_dims env caller :
  (forall trace prior posterior_predictive, exists idata,
     returns (pymc3_to_inference_data env trace prior posterior_predictive caller None) idata) /\
  (forall tr group, exists idata,
     returns (convert_to_inference_data env (PMultiTrace tr) group caller None) idata).
Proof.
  assert (H : forall trace prior posterior_predictive, exists idata,
    returns (pymc3_to_inference_data env trace prior posterior_predictive caller None) idata).
  { intros trace prior posterior_predictive.
    unfold pymc3_to_inference_data, PyMC3Converter.to_inference_data. eff_unfold.
    unfold PyMC3Converter.posterior_to_xarray, PyMC3Converter.sample_stats_to_xarray,
      PyMC3Converter.posterior_predictive_to_xarray, PyMC3Converter.prior_to_xarray.
    cbn [PyMC3Converter.trace PyMC3Converter.prior PyMC3Converter.posterior_predictive
         PyMC3Converter.coords PyMC3Converter.dims].
    destruct (requires_default_returns trace
                (fun tr => foldl (fun data var_name =>
                                    dict_set var_name (values_of tr var_name) data)
                                 [] (get_default_varnames env (varnames tr))) caller) as [p Hp].
    destruct (requires_default_returns trace
                (fun tr => foldl (fun data stat => dict_set stat (sampler_stats_of tr stat) data)
                                 [] (stat_names tr)) None) as [s Hs].
    destruct (requires_default_returns posterior_predictive
                (fun pp => map (fun '(k, v) => (k, expand_dims0 v)) pp) caller) as [q Hq].
    destruct (requires_default_returns prior
                (fun pr => map (fun '(k, v) => (k, expand_dims0 v)) pr) caller) as [r Hr].
    eexists. apply bind_returns. exists p. split; [exact Hp|].
    apply bind_returns. exists s. split; [exact Hs|].
    apply bind_returns. exists q. split; [exact Hq|].
    apply bind_returns. exists r. split; [exact Hr|reflexivity]. }
  split; [exact H|].
  intros tr group. destruct (H (Some tr) None None) as [idata Hi].
  exists idata. exact Hi.
Qed.

End PyMC3Facts.

(** ** More on the PyStan converter *)

Module PyStanFacts.
Import Str Np Xr Arviz XarrayUtils Props Samples MoreSamples EffFacts LabelFacts EffLaws.
Import ConverterProps ArrayFacts DatasetFacts DictFacts TextFacts.

Lemma swapaxes01_two_axes values swapped :
  swapaxes01 values = Ok swapped -> 2 <= ndim swapped.
Proof.
  unfold swapaxes01, ndim. destruct (shape values) as [|a [|b rest]]; try discriminate.
  intros [= <-]. simpl. lia.
Qed.

(** X18. Where the arrays of the variables leave the dataset constructor
    nothing to merge, the posterior dataset of the PyStan converter has as
    its data variables the names that [fit.extract] gave, and the array of a
    variable is the array that [fit.extract] gave under its name with the
    first two axes swapped: pystan's draws by chains become chains by
    draws. *)
Theorem stan_posterior_swaps_draws_and_chains self fit ds vars :
  PyStanConverter.fit self = Some fit ->
  let var_dict :=
    extract fit (PyStanConverter._var_names self) (PyStanConverter.infer_dtypes self fit) in
  NoDup (keys var_dict) ->
  returns (PyStanConverter.posterior_to_xarray self) (Some ds) ->
  merged ds = Some vars ->
  dom vars = (list_to_set (keys var_dict) : gset string) /\
  forall var_name values, (var_name, values) ∈ var_dict ->
    exists da, vars !! var_name = Some da /\ swapaxes01 values = Ok (Xr.values da).
Proof.
  intros Ef var_dict Hnd H Hm. apply merged_inv in Hm as ->.
  unfold PyStanConverter.posterior_to_xarray, requires in H. rewrite Ef in H. eff_unfold.
  apply bind_returns in H as (ds' & H & E). injection E as <-.
  apply bind_returns in H as (data & Hloop & H). fold var_dict in Hloop.
  apply (loop_spec fst (fun x : string * ndarray => swapaxes01 x.2)) in Hloop
    as (d0 & H0 & Hin & Hout & Hk); cycle 1.
  { intros acc [var_name values] d. eff_unfold. rewrite bind_returns. split.
    - intros (d0 & Hd0 & Hd). apply bind_returns in Hd as (y & Hy & Hd).
      injection Hd as <-. exists d0, y. auto.
    - intros (d0 & y & Hd0 & Hy & ->). exists d0. split; [exact Hd0|].
      apply bind_returns. exists y. split; [exact Hy|reflexivity]. }
  { exact Hnd. }
  injection H0 as <-.
  pose proof (dict_to_dataset_dom _ _ _ _ (Hk NoDup_nil_2) H) as Hd.
  pose proof (dict_to_dataset_vars _ _ _ _ (Hk NoDup_nil_2) H) as Hv.
  split.
  - rewrite Hd. apply keys_set. intros k.
    destruct (decide (k ∈ keys var_dict)) as [Hk'|Hk'].
    + split; [auto|intros _]. apply list_elem_of_fmap in Hk' as ([k' v] & -> & Hkv).
      destruct (Hin _ Hkv) as (y & _ & Hy). simpl in Hy. eauto.
    + rewrite (Hout k Hk'). simpl. split; [intros [x Hx]; discriminate|contradiction].
  - intros var_name values Hkv. destruct (Hin _ Hkv) as (y & Hy & Hg). simpl in Hy, Hg.
    apply dict_get_elem in Hg. destruct (Hv _ _ Hg) as (da & Hr & Hl).
    exists da. split; [exact Hl|].
    rewrite (numpy_two_axes _ _ _ _ _ Hr (swapaxes01_two_axes _ _ Hy)). exact Hy.
Qed.

Lemma stan_posterior_swaps_draws_and_chains_witness :
  exists vars da, merged small_fit_posterior = Some vars /\
    vars !! "mu" = Some da /\ shape (Xr.values da) = [2; 3].
Proof.
  assert (Em : merged small_fit_posterior = Some (data_vars small_fit_posterior))
    by (vm_compute; reflexivity).
  destruct (stan_posterior_swaps_draws_and_chains small_fit_converter small_fit
              small_fit_posterior (data_vars small_fit_posterior)) as [_ Hv].
  - reflexivity.
  - unfold keys. simpl. apply (bool_decide_unpack _). vm_compute. reflexivity.
  - vm_compute. reflexivity.
  - exact Em.
  - destruct (Hv "mu" (NdArray [3; 2] (BFloat [half; half; half; half; half; half])))
      as (da & Hl & Hs).
    + left.
    + exists (data_vars small_fit_posterior), da. split; [exact Em|].
      split; [exact Hl|]. injection Hs as <-. reflexivity.
Defined.

(** Where ['__$'] matches: at two underscores that end the text, or that
    come before a line feed that ends it. *)
Lemma suffix_pattern_match s :
  Re.match_at suffix_pattern s =
  match s with
  | String c1 (String c2 rest) =>
      if bool_decide (c1 = "_"%char) && bool_decide (c2 = "_"%char) && Re.at_eol false rest
      then Some (rest, None) else None
  | _ => None
  end.
Proof.
  unfold Re.match_at, suffix_pattern. destruct s as [|c1 [|c2 rest]]; simpl.
  - reflexivity.
  - destruct (bool_decide (c1 = "_"%char)); reflexivity.
  - destruct (bool_decide (c1 = "_"%char)); [|reflexivity].
    destruct (bool_decide (c2 = "_"%char)); [|reflexivity].
    destruct (Re.at_eol false rest); reflexivity.
Qed.

Lemma at_eol_inv rest :
  Re.at_eol false rest = true -> rest = EmptyString \/ rest = String LF EmptyString.
Proof.
  destruct rest as [|c s']; simpl; [auto|].
  rewrite andb_true_iff, !bool_decide_eq_true. intros [-> ->]. auto.
Qed.

Lemma no_match_before_suffix c t :
  Re.match_at suffix_pattern (String c (t +:+ "__")) = None.
Proof.
  rewrite suffix_pattern_match. destruct t as [|c2 t2]; simpl.
  - rewrite andb_false_r. reflexivity.
  - assert (E : Re.at_eol false (t2 +:+ "__") = false).
    { destruct t2 as [|c3 t3]; simpl.
      - reflexivity.
      - rewrite (bool_decide_eq_false_2 (t3 +:+ "__" = EmptyString)).
        + apply andb_false_r.
        + destruct t3; discriminate. }
    rewrite E, andb_false_r. reflexivity.
Qed.

Lemma sub_from_strips stem : forall fuel,
  String.length stem + 2 < fuel ->
  Re.sub_from fuel suffix_pattern EmptyString (stem +:+ "__") = stem.
Proof.
  induction stem as [|c t IH]; intros fuel Hf.
  - destruct fuel as [|[|f]]; simpl in Hf; try lia. reflexivity.
  - destruct fuel as [|f]; [simpl in Hf; lia|].
    change (String c t +:+ "__") with (String c (t +:+ "__")).
    cbn [Re.sub_from]. rewrite no_match_before_suffix.
    rewrite IH; [reflexivity|]. simpl in Hf. lia.
Qed.

Lemma sub_from_keeps key : forall fuel,
  (forall stem, key <> stem +:+ "__") ->
  (forall stem, key <> stem +:+ "__" +:+ String LF EmptyString) ->
  Re.sub_from fuel suffix_pattern EmptyString key = key.
Proof.
  induction key as [|c t IH]; intros fuel H1 H2.
  - destruct fuel; reflexivity.
  - destruct fuel as [|f]; [reflexivity|]. cbn [Re.sub_from].
    assert (E : Re.match_at suffix_pattern (String c t) = None).
    { rewrite suffix_pattern_match. destruct t as [|c2 rest]; [reflexivity|].
      destruct (bool_decide (c = "_"%char) && bool_decide (c2 = "_"%char) && Re.at_eol false rest)
        eqn:Eb; [|reflexivity].
      apply andb_true_iff in Eb as [Eb He]. apply andb_true_iff in Eb as [Ec Ec2].
      apply bool_decide_eq_true in Ec, Ec2. subst.
      apply at_eol_inv in He as [->| ->].
      - destruct (H1 EmptyString). reflexivity.
      - destruct (H2 EmptyString). reflexivity. }
    rewrite E. rewrite IH; [reflexivity| |].
    + intros stem Hs. apply (H1 (String c stem)). rewrite Hs. reflexivity.
    + intros stem Hs. apply (H2 (String c stem)). rewrite Hs. reflexivity.
Qed.

(** [re.sub('__$', '', stem + '__')] is [stem]. *)
Lemma sub_strips stem : Re.sub suffix_pattern EmptyString (stem +:+ "__") = stem.
Proof.
  unfold Re.sub. apply sub_from_strips.
  rewrite StanClaims.str_length_app. simpl. lia.
Qed.

(** X19. The name under which a sampler parameter is stored: ['diverging']
    for ['divergent__']; for any other key that ends in two underscores the
    key without them, whether the key is in the table [rename_key] or not;
    and the key itself if it ends neither in two underscores nor in two
    underscores and a line feed. *)
Theorem sampler_parameter_names key :
  (key = "divergent__" -> stat_name key = "diverging") /\
  (key <> "divergent__" -> forall stem, key = stem +:+ "__" -> stat_name key = stem) /\
  ((forall stem, key <> stem +:+ "__") ->
   (forall stem, key <> stem +:+ "__" +:+ String LF EmptyString) ->
   stat_name key = key).
Proof.
  split; [intros ->; reflexivity|]. split.
  - intros Hd stem Hk. pose proof (sub_strips stem) as Hs. rewrite <- Hk in Hs.
    unfold stat_name. fold suffix_pattern.
    destruct (dict_get key PyStanConverter.rename_key) as [v|] eqn:E; [|exact Hs].
    unfold PyStanConverter.rename_key in E. simpl in E.
    repeat case_bool_decide; try discriminate;
      match goal with Hc : _ = key |- _ => rewrite <- Hc in Hs, Hd end;
      vm_compute in Hs; injection E as <-; first [exact Hs | congruence].
  - intros H1 H2. unfold stat_name. fold suffix_pattern.
    destruct (dict_get key PyStanConverter.rename_key) as [v|] eqn:E.
    + exfalso. unfold PyStanConverter.rename_key in E. simpl in E.
      repeat case_bool_decide; try discriminate;
        match goal with Hc : _ = key |- _ => rewrite <- Hc in H1 end;
        first [ apply (H1 "accept_stat"); reflexivity | apply (H1 "divergent"); reflexivity
              | apply (H1 "energy"); reflexivity | apply (H1 "lp"); reflexivity
              | apply (H1 "n_leapfrog"); reflexivity | apply (H1 "stepsize"); reflexivity
              | apply (H1 "treedepth"); reflexivity ].
    + simpl. unfold Re.sub. apply sub_from_keeps; assumption.
Qed.

Lemma sampler_parameter_names_witness :
  stat_name "divergent__" = "diverging" /\ stat_name "mean_tree_accept__" = "mean_tree_accept".
Proof.
  split.
  - apply (proj1 (sampler_parameter_names "divergent__")). reflexivity.
  - apply (proj1 (proj2 (sampler_parameter_names "mean_tree_accept__"))).
    + discriminate.
    + reflexivity.
Defined.

Lemma kind_of_cast k b : kind_of (cast k b) = k.
Proof. destruct k, b; reflexivity. Qed.

Lemma promote_same k : promote k k = k.
Proof. destruct k; reflexivity. Qed.

Lemma kind_of_buf_app b1 b2 : kind_of (buf_app b1 b2) = promote (kind_of b1) (kind_of b2).
Proof.
  unfold buf_app. set (k := promote _ _).
  pose proof (kind_of_cast k b1) as H1. pose proof (kind_of_cast k b2) as H2.
  destruct (cast k b1), (cast k b2); simpl in *; congruence.
Qed.

Lemma buf_atleast_2d a : buf (atleast_2d a) = buf a.
Proof. unfold atleast_2d. destruct (shape a) as [|n [|m rest]]; reflexivity. Qed.

(** Arrays of one kind of dtype are stacked into an array of that kind. *)
Lemma vstack_kind K cols stacked :
  Forall (fun c => kind_of (buf c) = K) cols ->
  vstack cols = Ok stacked -> kind_of (buf stacked) = K.
Proof.
  intros Hall. unfold vstack. destruct cols as [|a rest]; [discriminate|]. simpl.
  destruct (forallb _ _); [|discriminate]. intros [= <-]. simpl.
  apply Forall_cons in Hall as [Ha Hrest]. rewrite buf_atleast_2d.
  revert Ha. generalize (buf a). clear a.
  induction rest as [|b rest IH]; intros acc Hacc; simpl; [exact Hacc|].
  apply Forall_cons in Hrest as [Hb Hrest]. apply IH; [exact Hrest|].
  rewrite kind_of_buf_app, buf_atleast_2d, Hacc, Hb. apply promote_same.
Qed.

Lemma dtype_kind_of_kind a :
  dtype_kind a = match kind_of (buf a) with
                 | KFloat => "f" | KInt => "i" | KUInt => "u" | KBool => "b"
                 end%char.
Proof. reflexivity. Qed.

Lemma stat_columns_kind key : forall sampler_params cols,
  PyStanConverter.stat_columns key sampler_params = Ok cols ->
  Forall (fun c => kind_of (buf c) =
                   match dict_get key PyStanConverter.dtypes with
                   | Some DBool => KBool | Some DInt64 => KInt | None => KFloat
                   end) cols.
Proof.
  induction sampler_params as [|j rest IH]; intros cols H; simpl in H.
  - injection H as <-. constructor.
  - destruct (dict_get key j) as [col|]; [|discriminate].
    destruct (PyStanConverter.stat_columns key rest) as [cols'|e]; [|discriminate].
    injection H as <-. constructor; [|apply IH; reflexivity].
    unfold astype. simpl. rewrite kind_of_cast.
    destruct (dict_get key PyStanConverter.dtypes) as [[|]|]; reflexivity.
Qed.

Lemma stat_columns_ok key : forall sampler_params cols,
  PyStanConverter.stat_columns key sampler_params = Ok cols ->
  forall j, j ∈ sampler_params -> is_Some (dict_get key j).
Proof.
  induction sampler_params as [|j0 rest IH]; intros cols H j Hj; [inversion Hj|].
  simpl in H. destruct (dict_get key j0) as [col|] eqn:E0; [|discriminate].
  destruct (PyStanConverter.stat_columns key rest) as [cols'|e] eqn:Er; [|discriminate].
  apply elem_of_cons in Hj as [->|Hj]; [rewrite E0; eauto|].
  apply (IH cols' eq_refl j Hj).
Qed.

Lemma stat_array_kind sampler_params key stacked :
  stat_array sampler_params key = Ok stacked -> dtype_kind stacked = stat_kind key.
Proof.
  unfold stat_array. destruct (PyStanConverter.stat_columns key sampler_params) as [cols|e] eqn:Ec;
    [|discriminate].
  intros Hv. rewrite dtype_kind_of_kind.
  rewrite (vstack_kind _ _ _ (stat_columns_kind _ _ _ Ec) Hv). unfold stat_kind.
  destruct (dict_get key PyStanConverter.dtypes) as [[|]|]; reflexivity.
Qed.

(** One round of the loop of [sample_stats_to_xarray] over the keys of the
    first chain. *)
Lemma stats_loop_returns sampler_params (acc : Run (dict ndarray)) (x : string * ndarray) d :
  returns
    (let '(key, _) := x in
     data ← acc;
     let name :=
       default (Re.sub (Re.Seq (Re.lit "__") (Re.Eol false)) EmptyString key)
               (dict_get key PyStanConverter.rename_key) in
     cols ← lift (PyStanConverter.stat_columns key sampler_params);
     stacked ← lift (vstack cols);
     mret (dict_set name stacked data)) d <->
  exists d0 y, returns acc d0 /\ stat_array sampler_params x.1 = Ok y /\
               d = dict_set (stat_name x.1) y d0.
Proof.
  destruct x as [key col]. eff_unfold. simpl. unfold stat_array. rewrite bind_returns. split.
  - intros (d0 & Hd0 & Hd). apply bind_returns in Hd as (cols & Hc & Hd).
    apply bind_returns in Hd as (y & Hy & Hd). injection Hd as <-.
    exists d0, y. unfold returns, lift in Hc, Hy. simpl in Hc, Hy. rewrite Hc. auto.
  - intros (d0 & y & Hd0 & Hy & ->). exists d0. split; [exact Hd0|].
    destruct (PyStanConverter.stat_columns key sampler_params) as [cols|e] eqn:Ec; [|discriminate].
    apply bind_returns. exists cols. split; [reflexivity|].
    apply bind_returns. exists y. split; [exact Hy|reflexivity].
Qed.

Lemma stan_sample_stats_inv self fit ds :
  PyStanConverter.fit self = Some fit ->
  returns (PyStanConverter.sample_stats_to_xarray self) (Some ds) ->
  exists chain0 rest data,
    get_sampler_params fit = chain0 :: rest /\
    returns (foldl (fun (acc : Run (dict ndarray)) '((key, _) : string * ndarray) =>
                      data ← acc;
                      let name :=
                        default (Re.sub (Re.Seq (Re.lit "__") (Re.Eol false)) EmptyString key)
                                (dict_get key PyStanConverter.rename_key) in
                      cols ← lift (PyStanConverter.stat_columns key (get_sampler_params fit));
                      stacked ← lift (vstack cols);
                      mret (dict_set name stacked data))
                   (mret []) chain0) data /\
    returns (dict_to_dataset data (PyStanConverter.coords self) (PyStanConverter.dims self)) ds.
Proof.
  intros Ef H. unfold PyStanConverter.sample_stats_to_xarray, requires in H. rewrite Ef in H.
  eff_unfold. apply bind_returns in H as (ds' & H & E). injection E as <-.
  apply bind_returns in H as (chain0 & H0 & H).
  apply bind_returns in H as (data & Hloop & H).
  destruct (get_sampler_params fit) as [|c0 rest] eqn:Es; [discriminate|].
  injection H0 as <-. exists c0, rest, data. auto.
Qed.

(** X20. Where the arrays of the sampler parameters leave the dataset
    constructor nothing to merge, the sample statistics dataset of the
    PyStan converter has as its data variables the names under which the
    keys of the first chain's sampler parameters are stored; what only a
    later chain has is left out. *)
Theorem stan_sample_stats_variables self fit ds vars :
  PyStanConverter.fit self = Some fit ->
  returns (PyStanConverter.sample_stats_to_xarray self) (Some ds) ->
  merged ds = Some vars ->
  exists chain0 rest,
    get_sampler_params fit = chain0 :: rest /\
    dom vars = (list_to_set (stat_name <$> keys chain0) : gset string).
Proof.
  intros Ef H Hm. apply merged_inv in Hm as ->.
  destruct (stan_sample_stats_inv _ _ _ Ef H) as (chain0 & rest & data & Es & Hloop & Hds).
  exists chain0, rest. split; [exact Es|].
  apply (loop_keys (fun x : string * ndarray => stat_name x.1)
           (fun x => stat_array (get_sampler_params fit) x.1)) in Hloop
    as (d0 & H0 & Hiff & Hk); cycle 1.
  { intros acc x d. apply stats_loop_returns. }
  injection H0 as <-.
  rewrite (dict_to_dataset_dom _ _ _ _ (Hk NoDup_nil_2) Hds). apply keys_set.
  intros k. rewrite Hiff. unfold keys.
  rewrite <- list_fmap_compose. simpl. split; [|auto].
  intros [[x Hx]|Hk']; [discriminate|exact Hk'].
Qed.

Lemma stan_sample_stats_variables_witness :
  merged small_fit_stats = Some (data_vars small_fit_stats) /\
  exists chain0 rest,
    get_sampler_params small_fit = chain0 :: rest /\
    dom (data_vars small_fit_stats) = (list_to_set (stat_name <$> keys chain0) : gset string).
Proof.
  assert (Em : merged small_fit_stats = Some (data_vars small_fit_stats))
    by (vm_compute; reflexivity).
  split; [exact Em|].
  apply (stan_sample_stats_variables small_fit_converter small_fit small_fit_stats).
  - reflexivity.
  - vm_compute. reflexivity.
  - exact Em.
Defined.

(** X21. In that dataset, where the arrays of the sampler parameters leave
    the dataset constructor nothing to merge (the chains are of one length),
    the data variable of a sampler parameter is boolean for ['divergent__'],
    a signed integer for ['n_leapfrog__'] and ['treedepth__'], and
    floating-point for every other key, whatever dtype the parameter had in
    the chains. *)
Theorem stan_sample_stats_dtypes self fit ds vars :
  PyStanConverter.fit self = Some fit ->
  returns (PyStanConverter.sample_stats_to_xarray self) (Some ds) ->
  merged ds = Some vars ->
  forall chain0 rest, get_sampler_params fit = chain0 :: rest ->
  NoDup (stat_name <$> keys chain0) ->
  forall key, key ∈ keys chain0 ->
    exists da, vars !! stat_name key = Some da /\
               dtype_kind (Xr.values da) = stat_kind key.
Proof.
  intros Ef H Hm chain0 rest Es Hnd key Hkey. apply merged_inv in Hm as ->.
  destruct (stan_sample_stats_inv _ _ _ Ef H) as (chain0' & rest' & data & Es' & Hloop & Hds).
  rewrite Es in Es'. injection Es' as <- <-.
  apply (loop_spec (fun x : string * ndarray => stat_name x.1)
           (fun x => stat_array (get_sampler_params fit) x.1)) in Hloop
    as (d0 & H0 & Hin & Hout & Hk); cycle 1.
  { intros acc x d. apply stats_loop_returns. }
  { unfold keys in Hnd. rewrite <- list_fmap_compose in Hnd. exact Hnd. }
  apply list_elem_of_fmap in Hkey as ([k col] & -> & Hkc).
  destruct (Hin _ Hkc) as (y & Hy & Hg). simpl in Hy, Hg.
  injection H0 as <-.
  apply dict_get_elem in Hg.
  destruct (dict_to_dataset_vars _ _ _ _ (Hk NoDup_nil_2) Hds _ _ Hg) as (da & Hr & Hl).
  exists da. split; [exact Hl|].
  pose proof (numpy_flatten _ _ _ _ _ Hr) as Hf.
  apply (f_equal buf) in Hf. simpl in Hf.
  rewrite dtype_kind_of_kind, Hf, <- dtype_kind_of_kind.
  apply (stat_array_kind _ _ _ Hy).
Qed.

Lemma stan_sample_stats_dtypes_witness :
  exists vars da, merged small_fit_stats = Some vars /\
    vars !! "treedepth" = Some da /\ dtype_kind (Xr.values da) = "i"%char.
Proof.
  assert (Em : merged small_fit_stats = Some (data_vars small_fit_stats))
    by (vm_compute; reflexivity).
  destruct (stan_sample_stats_dtypes small_fit_converter small_fit small_fit_stats
              (data_vars small_fit_stats))
    with (chain0 := [("accept_stat__", NdArray [3] (BFloat [half; half; half]));
                     ("treedepth__", NdArray [3] (BFloat [half; half; half]))])
         (rest := [[("accept_stat__", NdArray [3] (BFloat [half; half; half]));
                    ("treedepth__", NdArray [3] (BFloat [half; half; half]))]])
         (key := "treedepth__") as (da & Hl & Hk).
  - reflexivity.
  - vm_compute. reflexivity.
  - exact Em.
  - reflexivity.
  - apply (bool_decide_unpack _). vm_compute. reflexivity.
  - unfold keys. simpl. right. left.
  - exists (data_vars small_fit_stats), da. auto.
Defined.

(** X22. [sample_stats_to_xarray] reads every key of the first chain from
    every chain: if a later chain lacks one of them, the call does not
    return. *)
Theorem later_chains_need_the_keys_of_the_first self fit chain0 rest key :
  PyStanConverter.fit self = Some fit ->
  get_sampler_params fit = chain0 :: rest ->
  key ∈ keys chain0 ->
  (exists j, j ∈ rest /\ dict_get key j = None) ->
  forall r, ~ returns (PyStanConverter.sample_stats_to_xarray self) r.
Proof.
  intros Ef Es Hkey (j & Hj & Hn) r H.
  assert (Hr : exists ds, r = Some ds).
  { unfold PyStanConverter.sample_stats_to_xarray, requires in H. rewrite Ef in H. eff_unfold.
    apply bind_returns in H as (ds & _ & H). injection H as <-. eauto. }
  destruct Hr as [ds ->].
  destruct (stan_sample_stats_inv _ _ _ Ef H) as (chain0' & rest' & data & Es' & Hloop & _).
  rewrite Es in Es'. injection Es' as <- <-.
  apply list_elem_of_fmap in Hkey as ([k col] & -> & Hkc).
  apply (loop_each (fun x : string * ndarray => stat_name x.1)
           (fun x => stat_array (get_sampler_params fit) x.1)) with (x := (k, col)) in Hloop
    as [y Hy]; cycle 1.
  { intros acc x d. apply stats_loop_returns. }
  { exact Hkc. }
  simpl in Hy. unfold stat_array in Hy.
  destruct (PyStanConverter.stat_columns k (get_sampler_params fit)) as [cols|e] eqn:Ec;
    [|discriminate].
  destruct (stat_columns_ok _ _ _ Ec j) as [x Hx].
  - rewrite Es. right. exact Hj.
  - simpl in Hn. congruence.
Qed.

Lemma later_chains_need_the_keys_of_the_first_witness :
  ~ exists r, returns (PyStanConverter.sample_stats_to_xarray
                         (PyStanConverter.Make (Some uneven_fit) None None ["mu"])) r.
Proof.
  intros [r H].
  apply (later_chains_need_the_keys_of_the_first
           (PyStanConverter.Make (Some uneven_fit) None None ["mu"]) uneven_fit
           [("lp__", NdArray [3] (BFloat [half; half; half]))] [[]] "lp__") with (r := r).
  - reflexivity.
  - reflexivity.
  - unfold keys. simpl. left.
  - exists []. split; [left|reflexivity].
  - exact H.
Defined.

(** X23. After the first step of [infer_dtypes], which cuts every line of
    the Stan program at its first [#], no [#] is left in the text, be it in
    a comment or inside a string literal. *)
Theorem no_hash_is_left stan_code :
  contains "#" (PyStanConverter.remove_deprecated_comments stan_code) = false.
Proof.
  unfold PyStanConverter.remove_deprecated_comments. apply contains_join; [reflexivity|].
  apply Forall_fmap, Forall_forall. intros line _. simpl.
  destruct (contains "#" line) eqn:E; [apply contains_before|exact E].
Qed.

End PyStanFacts.

(** ** More on the posterior plot artist *)

Module PlotFacts.
Import Str Np Props Samples MoreSamples EffFacts EffLaws PosteriorPlot DictFacts PlotProps.

Lemma matching_entry_has_no_ref_val (selection : dict (list label)) (sel : sel_t) :
  dict_get "ref_val" selection = None ->
  sel_matches (fun _ => true) selection sel = true ->
  dict_get "ref_val" sel = None.
Proof.
  intros Hs Hm. destruct (dict_get "ref_val" sel) as [v|] eqn:E; [|reflexivity].
  apply dict_get_elem in E. unfold sel_matches in Hm. rewrite forallb_forall in Hm.
  apply list_elem_of_In in E. specialize (Hm _ E). simpl in Hm.
  unfold selects in Hm. rewrite Hs in Hm. discriminate.
Qed.

Lemma ref_val_dictionary_raises a d :
  ref_val a = Some (RefDict d) ->
  dict_get "ref_val" (selection a) = None ->
  display_ref_val a =
    raise (if first_match (fun _ => true) (selection a) (default [] (dict_get (var_name a) d))
           is Some _ then KeyError "ref_val" else UnboundLocalError "val").
Proof.
  intros Hr Hs. unfold display_ref_val. rewrite Hr. eff_unfold.
  destruct (first_match _ _ _) as [sel|] eqn:Ef; [|reflexivity].
  unfold first_match in Ef. apply find_some in Ef as [_ Hm].
  unfold getitem. rewrite (matching_entry_has_no_ref_val _ _ Hs Hm). reflexivity.
Qed.

(** X24. With a dictionary for [ref_val], the reference value is never
    drawn for a selection that has no coordinate called ['ref_val']: an entry
    matches only if every one of its items, the one under ['ref_val']
    included, is in the selection, so that a matching entry has no
    ['ref_val'] and the lookup raises [KeyError], while without a matching
    entry [val] is never assigned and its use raises [UnboundLocalError]. The
    artist does not return. *)
Theorem ref_val_dictionary_is_never_drawn a d :
  ref_val a = Some (RefDict d) ->
  dict_get "ref_val" (selection a) = None ->
  (display_ref_val a = raise (UnboundLocalError "val") \/
   display_ref_val a = raise (KeyError "ref_val")) /\
  (dict_get (var_name a) d = None -> display_ref_val a = raise (UnboundLocalError "val")) /\
  (forall u, ~ returns (_plot_posterior_op a) u).
Proof.
  intros Hr Hs. pose proof (ref_val_dictionary_raises a d Hr Hs) as E.
  split; [|split].
  - rewrite E. destruct (first_match _ _ _); auto.
  - intros Hn. rewrite E, Hn. reflexivity.
  - intros u Hu. unfold _plot_posterior_op in Hu. eff_unfold. rewrite Hr in Hu.
    apply bind_returns in Hu as (? & _ & Hu). apply bind_returns in Hu as (? & _ & Hu).
    apply bind_returns in Hu as (? & _ & Hu). apply bind_returns in Hu as (? & _ & Hu).
    apply bind_returns in Hu as (? & Hu & _). rewrite E in Hu. discriminate.
Qed.

Lemma ref_val_dictionary_is_never_drawn_witness :
  display_ref_val
    (school_args (Some (RefDict [("theta", [[("school", [LStr "Choate"]);
                                              ("ref_val", [LInt 0])]])])) None)
    = raise (UnboundLocalError "val").
Proof.
  destruct (ref_val_dictionary_is_never_drawn
              (school_args (Some (RefDict [("theta", [[("school", [LStr "Choate"]);
                                                        ("ref_val", [LInt 0])]])])) None)
              [("theta", [[("school", [LStr "Choate"]); ("ref_val", [LInt 0])]])]
              eq_refl eq_refl) as ([H|H] & _ & _).
  - exact H.
  - vm_compute in H. discriminate.
Defined.



(** X26. The name of the point estimate: the empty string draws none,
    ['mean'] and ['median'] draw theirs, and a name that is none of
    ['mode'], ['mean'], ['median'] raises [ValueError]. The artist checks the
    name late: when it raises, the density or histogram, the axes and the
    HPD interval are drawn already. *)
Theorem point_estimate_names a pe :
  point_estimate a = Some pe ->
  (pe = EmptyString -> display_point_estimate a = Py.pure tt) /\
  (pe = "mean" -> display_point_estimate a = emit (PointEstimateText "mean" Mean)) /\
  (pe = "median" -> display_point_estimate a = emit (PointEstimateText "median" Median)) /\
  (pe <> EmptyString -> pe <> "mode" -> pe <> "mean" -> pe <> "median" ->
     display_point_estimate a
       = raise (ValueError "Point Estimate should be in ('mode','mean','median')") /\
     forall u, returns (draw_density a) u ->
       trace (_plot_posterior_op a) = trace (draw_density a) ++ axes_and_hpd /\
       raises (_plot_posterior_op a)
         (ValueError "Point Estimate should be in ('mode','mean','median')")).
Proof.
  intros Hp.
  split; [intros ->; unfold display_point_estimate; rewrite Hp; reflexivity|].
  split; [intros ->; unfold display_point_estimate; rewrite Hp; reflexivity|].
  split; [intros ->; unfold display_point_estimate; rewrite Hp; reflexivity|].
  intros H0 H1 H2 H3.
  assert (E : display_point_estimate a
              = raise (ValueError "Point Estimate should be in ('mode','mean','median')")).
  { unfold display_point_estimate. rewrite Hp.
    rewrite bool_decide_eq_false_2 by exact H0.
    rewrite (bool_decide_eq_false_2 (pe ∈ _)); [reflexivity|].
    rewrite !elem_of_cons, elem_of_nil. tauto. }
  split; [exact E|].
  intros u Hu. unfold _plot_posterior_op. eff_unfold. rewrite E.
  unfold returns in Hu. unfold raises, Py.bind at 1. rewrite Hu. simpl.
  split; [reflexivity|]. unfold Py.bind at 1. rewrite Hu. reflexivity.
Qed.

Lemma point_estimate_names_witness :
  trace (_plot_posterior_op (plot_args theta_draws "kde" "max"))
    = [KdePlot theta_draws "0"; FormatAxes; HpdLine; HpdText; HpdText; HpdText] /\
  raises (_plot_posterior_op (plot_args theta_draws "kde" "max"))
    (ValueError "Point Estimate should be in ('mode','mean','median')").
Proof.
  destruct (point_estimate_names (plot_args theta_draws "kde" "max") "max" eq_refl)
    as (_ & _ & _ & H).
  destruct H as [_ H]; try discriminate.
  apply (H tt). reflexivity.
Defined.

Lemma dict_get_setdefault (k key v : string) (kw : dict string) :
  dict_get k (setdefault key v kw) =
  match dict_get k kw with
  | Some x => Some x
  | None => if bool_decide (key = k) then Some v else None
  end.
Proof.
  unfold setdefault. destruct (dict_get key kw) as [x|] eqn:E; [|apply dict_get_snoc].
  destruct (dict_get k kw) eqn:Ek; [reflexivity|].
  rewrite bool_decide_eq_false_2; [reflexivity|]. intros ->. congruence.
Qed.

(** X27. The keyword arguments of a histogram are the caller's, unchanged,
    with ['align'] set to ['left'] and ['color'] to ['C0'] only where the
    caller gave none; a ['fill_alpha'] of the caller is passed on to the
    histogram like any other. *)
Theorem histogram_keywords a v b kw key :
  Hist v b kw ∈ trace (draw_density a) ->
  dict_get key kw =
    match dict_get key (kwargs a) with
    | Some given => Some given
    | None => if bool_decide (key = "align") then Some "left"
              else if bool_decide (key = "color") then Some "C0" else None
    end.
Proof.
  intros Hin.
  assert (E : kw = hist_kwargs a).
  { destruct (PlotClaims.draw_density_cases a)
      as [[_ E]|[[_ (b' & _ & E)]|[(_ & _ & _ & E)|[(_ & _ & _ & xmin & xmax & _ & _ & E)
         |(_ & _ & _ & _ & msg & E)]]]]; rewrite E in Hin; simpl in Hin;
      repeat (apply elem_of_cons in Hin as [Hin|Hin]; [congruence|]); inversion Hin. }
  rewrite E. unfold hist_kwargs. rewrite !dict_get_setdefault.
  destruct (dict_get key (kwargs a)); [reflexivity|].
  destruct (decide (key = "align")) as [->|Na]; [reflexivity|].
  rewrite (bool_decide_eq_false_2 ("align" = key)) by congruence.
  rewrite (bool_decide_eq_false_2 (key = "align")) by congruence.
  destruct (decide (key = "color")) as [->|Nc]; [reflexivity|].
  rewrite (bool_decide_eq_false_2 ("color" = key)) by congruence.
  rewrite (bool_decide_eq_false_2 (key = "color")) by congruence.
  reflexivity.
Qed.

Lemma histogram_keywords_witness :
  dict_get "align" [("align", "left"); ("color", "C0")] = Some "left".
Proof.
  apply (histogram_keywords (plot_args counts "kde" "mean") counts (BinsRange 1 8)
           [("align", "left"); ("color", "C0")] "align").
  vm_compute. right. left.
Defined.

Lemma foldl_min_le l : forall z0, (foldl Z.min z0 l <= z0)%Z /\
  Forall (fun z => (foldl Z.min z0 l <= z)%Z) l.
Proof.
  induction l as [|z l IH]; intros z0; simpl; [split; [lia|constructor]|].
  destruct (IH (Z.min z0 z)) as [H1 H2]. split; [lia|].
  constructor; [lia|exact H2].
Qed.

Lemma foldl_max_ge l : forall z0, (z0 <= foldl Z.max z0 l)%Z /\
  Forall (fun z => (z <= foldl Z.max z0 l)%Z) l.
Proof.
  induction l as [|z l IH]; intros z0; simpl; [split; [lia|constructor]|].
  destruct (IH (Z.max z0 z)) as [H1 H2]. split; [lia|].
  constructor; [lia|exact H2].
Qed.

Lemma foldl_min_in l : forall z0, foldl Z.min z0 l ∈ z0 :: l.
Proof.
  induction l as [|z l IH]; intros z0; simpl; [left|].
  specialize (IH (Z.min z0 z)). apply elem_of_cons in IH as [IH|IH].
  - rewrite IH. destruct (Z.min_spec z0 z) as [[_ ->]|[_ ->]]; [left|right; left].
  - right. right. exact IH.
Qed.

Lemma foldl_max_in l : forall z0, foldl Z.max z0 l ∈ z0 :: l.
Proof.
  induction l as [|z l IH]; intros z0; simpl; [left|].
  specialize (IH (Z.max z0 z)). apply elem_of_cons in IH as [IH|IH].
  - rewrite IH. destruct (Z.max_spec z0 z) as [[_ ->]|[_ ->]]; [right; left|left].
  - right. right. exact IH.
Qed.

(** X28. The bins that the artist chooses for integer values,
    [range(xmin, xmax + 2)], start at the least of the values and stop two
    after the greatest, so that every value [z] has the bin from [z] to
    [z + 1] with both its edges in the range; this for values whose maximum
    plus two is still an int64. *)
Theorem integer_bins_cover_the_values a v start stop kw :
  bins a = None -> dtype_kind (values a) = "i"%char ->
  Forall (fun z => (- 2 ^ 63 <= z < 2 ^ 63 - 2)%Z) (ints (values a)) ->
  Hist v (BinsRange start stop) kw ∈ trace (draw_density a) ->
  start ∈ ints (values a) /\ (stop - 2)%Z ∈ ints (values a) /\
  Forall (fun z => (start <= z /\ z + 1 < stop)%Z) (ints (values a)).
Proof.
  intros Hb Hi Hrange Hin.
  destruct (PlotClaims.draw_density_cases a)
    as [[[_ Hf] _]|[[_ (b' & Eb & _)]|[(_ & _ & Ni & _)|[(_ & _ & _ & xmin & xmax & Emin & Emax & E)
       |(_ & _ & _ & _ & msg & E)]]]]; try congruence.
  2:{ rewrite E in Hin. inversion Hin. }
  rewrite E in Hin. simpl in Hin.
  apply elem_of_cons in Hin as [Hin|Hin]; [discriminate|].
  apply elem_of_cons in Hin as [Hin|Hin]; [|inversion Hin].
  injection Hin as _ -> -> _.
  destruct (ints (values a)) as [|z0 l] eqn:El; [discriminate|].
  simpl in Emin, Emax. injection Emin as <-. injection Emax as <-.
  destruct (foldl_min_le l z0) as [Hm0 Hm]. destruct (foldl_max_ge l z0) as [HM0 HM].
  pose proof (foldl_max_in l z0) as Hmax.
  assert (Hr : (- 2 ^ 63 <= foldl Z.max z0 l < 2 ^ 63 - 2)%Z).
  { rewrite Forall_forall in Hrange. apply Hrange. exact Hmax. }
  rewrite PlotClaims.int64_add_exact by lia.
  split; [apply foldl_min_in|]. split.
  - replace (foldl Z.max z0 l + 2 - 2)%Z with (foldl Z.max z0 l) by lia. exact Hmax.
  - constructor; [lia|].
    rewrite Forall_forall in Hm, HM |- *. intros z Hz.
    specialize (Hm z Hz). specialize (HM z Hz). simpl in *. lia.
Qed.

Lemma integer_bins_cover_the_values_witness :
  Forall (fun z => (1 <= z /\ z + 1 < 8)%Z) [3; 1; 4; 1; 5; 6]%Z.
Proof.
  apply (integer_bins_cover_the_values (plot_args counts "kde" "mean") counts 1 8
           [("align", "left"); ("color", "C0")]).
  - reflexivity.
  - reflexivity.
  - unfold counts, plot_args, ints. simpl. repeat (constructor; [lia|]). constructor.
  - vm_compute. right. left.
Defined.

Lemma titles_app l1 l2 : titles (l1 ++ l2) = titles l1 ++ titles l2.
Proof. apply omap_app. Qed.

Lemma titles_bind {A B} (m : Plot A) (k : A -> Plot B) :
  titles (trace m) = [] -> (forall a, titles (trace (k a)) = []) ->
  titles (trace (Py.bind m k)) = [].
Proof.
  intros Hm Hk. rewrite trace_bind, titles_app, Hm.
  destruct (outcome m); [apply Hk|reflexivity].
Qed.

(** The artist sets no title. *)
Lemma artist_sets_no_title a : titles (trace (_plot_posterior_op a)) = [].
Proof.
  unfold _plot_posterior_op. eff_unfold.
  apply titles_bind; [|intros _; apply titles_bind; [reflexivity|intros _]].
  - destruct (PlotClaims.draw_density_cases a)
      as [[_ E]|[[_ (b' & _ & E)]|[(_ & _ & _ & E)|[(_ & _ & _ & xmin & xmax & _ & _ & E)
         |(_ & _ & _ & _ & msg & E)]]]]; rewrite E; reflexivity.
  - apply titles_bind; [reflexivity|intros _].
    apply titles_bind; [|intros _; apply titles_bind; [|intros _]].
    + unfold display_point_estimate. eff_unfold.
      destruct (point_estimate a) as [pe|]; [|reflexivity].
      destruct (bool_decide (pe = EmptyString)); [reflexivity|].
      destruct (negb _); [reflexivity|].
      apply titles_bind; [|reflexivity].
      destruct (bool_decide (pe = "mean")); [reflexivity|].
      destruct (bool_decide (pe = "mode")); reflexivity.
    + destruct (ref_val a) as [r|]; [|reflexivity].
      unfold display_ref_val. eff_unfold.
      destruct (ref_val a) as [r'|]; [|reflexivity].
      apply titles_bind; [|reflexivity].
      destruct r' as [d|v|]; try reflexivity.
      destruct (first_match _ _ _); [|reflexivity].
      apply titles_bind; [|intros ?]; unfold lift; reflexivity.
    + destruct (rope a) as [r|]; [|reflexivity].
      unfold display_rope. eff_unfold.
      destruct (rope a) as [r'|]; [|reflexivity].
      apply titles_bind.
      * destruct r' as [d|vals].
        -- destruct (first_match _ _ _); [|reflexivity].
           apply titles_bind; [|intros ?]; reflexivity.
        -- destruct (Nat.eqb _ _); reflexivity.
      * intros [vals|]; [|reflexivity].
        repeat (apply titles_bind; [reflexivity|intros ?]). reflexivity.
Qed.

Lemma call_artist_sets_no_title a : titles (trace (call_artist a)) = [].
Proof.
  unfold call_artist. destruct (List.find _ _); [reflexivity|].
  destruct (List.find _ _); [reflexivity|apply artist_sets_no_title].
Qed.

Lemma find_in_names (names : list string) (l : list string) k :
  k ∈ l -> k ∈ names -> exists k', List.find (fun x => bool_decide (x ∈ names)) l = Some k'.
Proof.
  intros Hl Hn. destruct (List.find _ l) as [k'|] eqn:E; [eauto|].
  pose proof (find_none _ _ E k (proj1 (list_elem_of_In _ _) Hl)) as Hf. simpl in Hf.
  rewrite bool_decide_eq_true_2 in Hf by exact Hn. discriminate.
Qed.

(** A keyword named like a parameter of the artist stops the call of the
    artist before anything is drawn. *)
Lemma call_artist_twice a k :
  k ∈ (kwargs a).*1 -> k ∈ artist_only ->
  trace (call_artist a) = [] /\ exists msg, raises (call_artist a) (TypeError msg).
Proof.
  intros Hk Hin. unfold call_artist.
  destruct (List.find (fun x => bool_decide (x ∈ ["ax"; "linewidth"])) _) as [k1|] eqn:E1.
  { split; [reflexivity|]. eexists. reflexivity. }
  assert (Hpos : k ∈ ["values"; "var_name"; "selection"]).
  { change artist_only with (["values"; "var_name"; "selection"] ++ ["ax"; "linewidth"]) in Hin.
    apply elem_of_app in Hin as [Hin|Hin]; [exact Hin|].
    destruct (find_in_names ["ax"; "linewidth"] _ k Hk Hin) as [k' E']. congruence. }
  destruct (find_in_names ["values"; "var_name"; "selection"] _ k Hk Hpos) as [k2 E2].
  rewrite E2. split; [reflexivity|]. eexists. reflexivity.
Qed.

Lemma posteriorplot_cons p rest opts :
  posteriorplot (p :: rest) opts =
  Py.bind (call_artist (artist_args opts p))
    (fun _ => Py.bind (emit (SetTitle p.1.1 p.1.2)) (fun _ => posteriorplot rest opts)).
Proof. destruct p as [[v sel] x]. reflexivity. Qed.

Lemma posteriorplot_goes_on p rest opts :
  artist_returns opts p ->
  trace (posteriorplot (p :: rest) opts) = drawn_for opts p ++ trace (posteriorplot rest opts) /\
  outcome (posteriorplot (p :: rest) opts) = outcome (posteriorplot rest opts).
Proof.
  unfold artist_returns, returns, drawn_for. intros H. rewrite posteriorplot_cons.
  unfold Py.bind. rewrite H. simpl. rewrite <- app_assoc. split; reflexivity.
Qed.

Lemma posteriorplot_stops p rest opts e :
  raises (call_artist (artist_args opts p)) e ->
  posteriorplot (p :: rest) opts = MkEff (trace (call_artist (artist_args opts p))) (Raise e).
Proof.
  unfold raises. intros H. rewrite posteriorplot_cons. unfold Py.bind at 1. rewrite H.
  reflexivity.
Qed.

Lemma titles_drawn_for opts done : titles (flat_map (drawn_for opts) done) = map title_of done.
Proof.
  induction done as [|p done IH]; [reflexivity|].
  simpl. unfold drawn_for at 1. rewrite !titles_app, call_artist_sets_no_title, IH.
  reflexivity.
Qed.

(** X29. [posteriorplot] goes through the variables in order and sets the
    title of each right after the call of the artist has drawn it. A call
    that returns has drawn every variable and set one title per variable. A
    call raises exactly when the call of the artist raises for some variable
    after having returned for the ones before it: it then raises what that
    call raises, having drawn the earlier variables with their titles and
    what the artist drew of the failing one, whose title, like the later
    ones, is not set. The call of the artist is the artist itself, unless a
    keyword of the caller has the name of one of the parameters [values],
    [var_name], [selection], [ax] or [linewidth]: then it raises [TypeError]
    at the first variable and nothing is drawn. *)
Theorem every_variable_gets_its_title plotters opts :
  (forall u, returns (posteriorplot plotters opts) u ->
     Forall (artist_returns opts) plotters /\
     trace (posteriorplot plotters opts) = flat_map (drawn_for opts) plotters /\
     titles (trace (posteriorplot plotters opts)) = map title_of plotters) /\
  (forall done p rest e, plotters = done ++ p :: rest ->
     Forall (artist_returns opts) done ->
     raises (call_artist (artist_args opts p)) e ->
     raises (posteriorplot plotters opts) e /\
     trace (posteriorplot plotters opts)
       = flat_map (drawn_for opts) done ++ trace (call_artist (artist_args opts p)) /\
     titles (trace (posteriorplot plotters opts)) = map title_of done) /\
  (forall e, raises (posteriorplot plotters opts) e ->
     exists done p rest, plotters = done ++ p :: rest /\
       Forall (artist_returns opts) done /\
       raises (call_artist (artist_args opts p)) e) /\
  (forall p, (forall k, k ∈ (kwargs opts).*1 -> ~ k ∈ artist_only) ->
     call_artist (artist_args opts p) = _plot_posterior_op (artist_args opts p)) /\
  (forall k p rest, k ∈ (kwargs opts).*1 -> k ∈ artist_only -> plotters = p :: rest ->
     trace (posteriorplot plotters opts) = [] /\
     exists msg, raises (posteriorplot plotters opts) (TypeError msg)).
Proof.
  split; [|split; [|split; [|split]]].
  - induction plotters as [|p plotters IH]; intros u Hu.
    + split; [constructor|]. split; reflexivity.
    + destruct (outcome (call_artist (artist_args opts p))) as [[]|e] eqn:Eo.
      * destruct (posteriorplot_goes_on p plotters opts Eo) as [Et Eout].
        unfold returns in Hu. rewrite Eout in Hu.
        destruct (IH u Hu) as (Hall & Etr & _).
        split; [constructor; [exact Eo|exact Hall]|].
        assert (E : trace (posteriorplot (p :: plotters) opts)
                    = flat_map (drawn_for opts) (p :: plotters)).
        { rewrite Et, Etr. reflexivity. }
        split; [exact E|]. rewrite E. apply titles_drawn_for.
      * rewrite (posteriorplot_stops p plotters opts e Eo) in Hu. discriminate.
  - intros done. revert plotters.
    induction done as [|q done IH]; intros plotters p rest e -> Hdone Hp.
    + change ([] ++ p :: rest) with (p :: rest).
      rewrite (posteriorplot_stops p rest opts e Hp). simpl.
      split; [reflexivity|]. split; [reflexivity|]. apply call_artist_sets_no_title.
    + apply Forall_cons in Hdone as [Hq Hdone].
      destruct (posteriorplot_goes_on q (done ++ p :: rest) opts Hq) as [Et Eout].
      destruct (IH _ p rest e eq_refl Hdone Hp) as (Hr & Etr & _).
      change ((q :: done) ++ p :: rest) with (q :: (done ++ p :: rest)).
      assert (E : trace (posteriorplot (q :: (done ++ p :: rest)) opts)
                  = flat_map (drawn_for opts) (q :: done)
                      ++ trace (call_artist (artist_args opts p))).
      { rewrite Et, Etr. cbn [flat_map]. rewrite <- app_assoc. reflexivity. }
      split; [unfold raises; rewrite Eout; exact Hr|].
      split; [exact E|].
      rewrite E, titles_app, titles_drawn_for, call_artist_sets_no_title.
      apply app_nil_r.
  - induction plotters as [|p plotters IH]; intros e He; [discriminate|].
    destruct (outcome (call_artist (artist_args opts p))) as [[]|e'] eqn:Eo.
    + destruct (posteriorplot_goes_on p plotters opts Eo) as [_ Eout].
      unfold raises in He. rewrite Eout in He.
      destruct (IH e He) as (done & q & rest & -> & Hdone & Hq).
      exists (p :: done), q, rest. split; [reflexivity|].
      split; [constructor; [exact Eo|exact Hdone]|exact Hq].
    + exists [], p, plotters. split; [reflexivity|]. split; [constructor|].
      rewrite (posteriorplot_stops p plotters opts e' Eo) in He. injection He as <-. exact Eo.
  - intros p Hfree. unfold call_artist. cbn [artist_args kwargs].
    destruct (List.find (fun x => bool_decide (x ∈ ["ax"; "linewidth"])) _) as [k1|] eqn:E1.
    { apply find_some in E1 as [Hin Hk]. apply bool_decide_eq_true in Hk.
      exfalso. apply (Hfree k1); [apply list_elem_of_In; exact Hin|].
      change artist_only with (["values"; "var_name"; "selection"] ++ ["ax"; "linewidth"]).
      apply elem_of_app. right. exact Hk. }
    destruct (List.find (fun x => bool_decide (x ∈ ["values"; "var_name"; "selection"])) _)
      as [k2|] eqn:E2; [|reflexivity].
    apply find_some in E2 as [Hin Hk]. apply bool_decide_eq_true in Hk.
    exfalso. apply (Hfree k2); [apply list_elem_of_In; exact Hin|].
    change artist_only with (["values"; "var_name"; "selection"] ++ ["ax"; "linewidth"]).
    apply elem_of_app. left. exact Hk.
  - intros k p rest Hk Hin ->.
    destruct (call_artist_twice (artist_args opts p) k Hk Hin) as [Et [msg He]].
    rewrite (posteriorplot_stops p rest opts _ He). simpl. split; [exact Et|].
    exists msg. reflexivity.
Qed.

Lemma every_variable_gets_its_title_witness :
  titles (trace (posteriorplot [("mu", [], draws_2d); ("theta", [], theta)]
                   (plot_args draws_2d "hist" "mean")))
    = [("mu", []); ("theta", [])] /\
  titles (trace (posteriorplot [("mu", [], counts); ("nu", [], no_counts); ("theta", [], theta)]
                   (plot_args counts "hist" "mean")))
    = [("mu", [])] /\
  trace (posteriorplot [("mu", [], draws_2d); ("theta", [], theta)] wide_args) = [].
Proof.
  split; [|split].
  - apply (proj1 (every_variable_gets_its_title [("mu", [], draws_2d); ("theta", [], theta)]
                    (plot_args draws_2d "hist" "mean")) tt).
    vm_compute. reflexivity.
  - apply (proj1 (proj2 (every_variable_gets_its_title
                           [("mu", [], counts); ("nu", [], no_counts); ("theta", [], theta)]
                           (plot_args counts "hist" "mean")))
             [("mu", [], counts)] ("nu", [], no_counts) [("theta", [], theta)]
             (ValueError "zero-size array to reduction operation minimum which has no identity")).
    + reflexivity.
    + constructor; [vm_compute; reflexivity|constructor].
    + vm_compute. reflexivity.
  - apply (proj2 (proj2 (proj2 (proj2 (every_variable_gets_its_title
                    [("mu", [], draws_2d); ("theta", [], theta)] wide_args))))
             "linewidth" ("mu", [], draws_2d) [("theta", [], theta)]).
    + left.
    + unfold artist_only. do 4 right. left.
    + reflexivity.
Defined.

End PlotFacts.
